(** * DataFide: batch document extraction into a spreadsheet

    A shallow embedding of the repository's TypeScript sources:

    - [types.ts]                    : [ExtractedData], [ProcessingStatus];
    - [services/geminiService.ts]   : [extractDataFromDocument];
    - [utils/fileHandlers.ts]       : module [FileHandlersUtils];
    - [unnamed/part_001]            : module [FileHandlersPart1], a second
      revision of the file handlers;
    - [unnamed/part_000]            : two revisions of the [App] component,
      module [AppA] (lines 1-509) and module [AppB] (lines 510-1062).

    The objects the code fills as dictionaries are object literals: a
    read [o[k]] that finds no own property goes on to the prototype
    chain, and an assignment [o['__proto__'] = v] goes to the accessor of
    [Object.prototype].  Module [Js] has both.  An object that is handed
    on (a row, the properties of a schema) is kept as the finite map of
    its own properties ([gmap string _]).  React state setters are
    recorded as a list of [Effect]s that a reducer replays on the state
    the handler closed over.  The browser, the SheetJS library and the
    Gemini client are section variables. *)

From Stdlib Require Import ZArith Ascii String.
From stdpp Require Import gmap strings list fin_maps pretty.

Open Scope string_scope.
Open Scope list_scope.

Set Warnings "-register-all".

(** ** JavaScript values and strings *)

Module Js.

(** What [JSON.parse] returns: any JSON value, [null] included.  Numbers
    are kept to the integers. *)
Inductive Json :=
| JNull
| JBool (b : bool)
| JNum (n : Z)
| JStr (s : string)
| JArr (items : list Json)
| JObj (members : gmap string Json).

#[global] Instance Json_eq_dec : EqDecision Json.
Proof.
  refine (fix go (x y : Json) {struct x} : Decision (x = y) :=
    let _ : EqDecision Json := @go in
    match x, y with
    | JNull, JNull => left eq_refl
    | JBool a, JBool b => cast_if (decide (a = b))
    | JNum a, JNum b => cast_if (decide (a = b))
    | JStr a, JStr b => cast_if (decide (a = b))
    | JArr a, JArr b => cast_if (decide (a = b))
    | JObj a, JObj b => cast_if (decide (a = b))
    | _, _ => right _
    end); congruence.
Defined.

(** The built-in prototypes a value of each kind inherits from:
    [Object.prototype], [Array.prototype], [String.prototype],
    [Number.prototype] and [Boolean.prototype]. *)
Inductive Kind := KObject | KArray | KString | KNumber | KBoolean.

#[global] Instance Kind_eq_dec : EqDecision Kind.
Proof. solve_decision. Defined.

(** A built-in object: the prototype of a kind, or the function a
    prototype holds under a name. *)
Inductive Builtin :=
| Prototype (kind : Kind)
| Member (kind : Kind) (name : string).

#[global] Instance Builtin_eq_dec : EqDecision Builtin.
Proof. solve_decision. Defined.

(** What a property of a row can hold: a parsed value, or a built-in
    object that a read found on the prototype chain. *)
Inductive Value :=
| VJson (j : Json)
| VBuiltin (b : Builtin).

#[global] Instance Value_eq_dec : EqDecision Value.
Proof. solve_decision. Defined.

(** [string | number | boolean], the values [ExtractedData] declares
    (types.ts), and [null]. *)
Abbreviation VStr s := (VJson (JStr s)).
Abbreviation VNum n := (VJson (JNum n)).
Abbreviation VBool b := (VJson (JBool b)).
Abbreviation VNull := (VJson JNull).

(** A spreadsheet cell as [sheet_to_json] hands it over; holes of a
    sparse row read as [CUndefined].  Numbers are kept to the integers
    that [String] prints digit by digit (below 10^21 in magnitude). *)
Inductive Cell :=
| CUndefined
| CNull
| CStr (s : string)
| CNum (n : Z)
| CBool (b : bool).

#[global] Instance Cell_eq_dec : EqDecision Cell.
Proof. solve_decision. Defined.

(** An [Error] object, reduced to its [message]. *)
Record Error := mkError { message : string }.

Definition isEmptyString (s : string) : bool :=
  match s with EmptyString => true | String _ _ => false end.

(** ToBoolean: [null], [false], [0] and the empty string are falsy, every
    object is truthy. *)
Definition truthy (v : Value) : bool :=
  match v with
  | VJson JNull => false
  | VJson (JBool b) => b
  | VJson (JNum n) => negb (n =? 0)%Z
  | VJson (JStr s) => negb (isEmptyString s)
  | VJson (JArr _) | VJson (JObj _) => true
  | VBuiltin _ => true
  end.

(** [String(h)]. *)
Definition ToString (c : Cell) : string :=
  match c with
  | CUndefined => "undefined"
  | CNull => "null"
  | CStr s => s
  | CNum n => pretty n
  | CBool true => "true"
  | CBool false => "false"
  end.

(** WhiteSpace and LineTerminator code units below 256: TAB, LF, VT, FF,
    CR, SP and NBSP. *)
Definition isWhiteSpace (c : ascii) : bool :=
  let n := nat_of_ascii c in
  ((9 <=? n)%nat && (n <=? 13)%nat) || (n =? 32)%nat || (n =? 160)%nat.

Fixpoint trimStart (s : string) : string :=
  match s with
  | EmptyString => EmptyString
  | String c s' => if isWhiteSpace c then trimStart s' else s
  end.

Definition trimEnd (s : string) : string :=
  String.rev (trimStart (String.rev s)).

(** [s.trim()]. *)
Definition trim (s : string) : string := trimEnd (trimStart s).

(** [hay.includes(needle)]. *)
Fixpoint includes (needle hay : string) : bool :=
  String.prefix needle hay ||
  match hay with
  | EmptyString => false
  | String _ hay' => includes needle hay'
  end.

(** [msg || fallback] on strings. *)
Definition orElse (msg fallback : string) : string :=
  if isEmptyString msg then fallback else msg.

(** [!o] on an object or [null]. *)
Definition isNull {A : Type} (o : option A) : bool :=
  match o with None => true | Some _ => false end.

(** The property key an index expression [o[k]] uses when [k] may be
    [undefined]. *)
Definition propertyKey (k : option string) : string :=
  default "undefined" k.

(** *** Reading a property: [o[k]]

    The names of the function-valued properties of each built-in
    prototype (ECMAScript 2024, with the legacy methods of
    [String.prototype] and of [Object.prototype]).  The accessor
    [__proto__] of [Object.prototype] is not in the list: it is dealt
    with on its own below. *)
Definition members (kind : Kind) : list string :=
  match kind with
  | KObject =>
      ["constructor"; "hasOwnProperty"; "isPrototypeOf"; "propertyIsEnumerable";
       "toLocaleString"; "toString"; "valueOf";
       "__defineGetter__"; "__defineSetter__"; "__lookupGetter__"; "__lookupSetter__"]
  | KBoolean => ["constructor"; "toString"; "valueOf"]
  | KNumber =>
      ["constructor"; "toExponential"; "toFixed"; "toLocaleString"; "toPrecision";
       "toString"; "valueOf"]
  | KString =>
      ["constructor"; "at"; "charAt"; "charCodeAt"; "codePointAt"; "concat";
       "endsWith"; "includes"; "indexOf"; "isWellFormed"; "lastIndexOf";
       "localeCompare"; "match"; "matchAll"; "normalize"; "padEnd"; "padStart";
       "repeat"; "replace"; "replaceAll"; "search"; "slice"; "split";
       "startsWith"; "substring"; "toLocaleLowerCase"; "toLocaleUpperCase";
       "toLowerCase"; "toString"; "toUpperCase"; "toWellFormed"; "trim";
       "trimEnd"; "trimStart"; "valueOf";
       "substr"; "anchor"; "big"; "blink"; "bold"; "fixed"; "fontcolor";
       "fontsize"; "italics"; "link"; "small"; "strike"; "sub"; "sup";
       "trimLeft"; "trimRight"]
  | KArray =>
      ["constructor"; "at"; "concat"; "copyWithin"; "entries"; "every"; "fill";
       "filter"; "find"; "findIndex"; "findLast"; "findLastIndex"; "flat";
       "flatMap"; "forEach"; "includes"; "indexOf"; "join"; "keys";
       "lastIndexOf"; "map"; "pop"; "push"; "reduce"; "reduceRight"; "reverse";
       "shift"; "slice"; "some"; "sort"; "splice"; "toLocaleString";
       "toReversed"; "toSorted"; "toSpliced"; "toString"; "unshift"; "values";
       "with"]
  end.

Definition holds (kind : Kind) (k : string) : bool :=
  existsb (String.eqb k) (members kind).

(** What the prototype chain of a value of kind [kind] holds under [k]:
    the prototype itself for [__proto__] (the getter of
    [Object.prototype]), a function of the kind's own prototype or of
    [Object.prototype], or nothing ([undefined]). *)
Definition inherited (kind : Kind) (k : string) : option Value :=
  if String.eqb k "__proto__" then Some (VBuiltin (Prototype kind))
  else if holds kind k then Some (VBuiltin (Member kind k))
  else if holds KObject k then Some (VBuiltin (Member KObject k))
  else None.

(** The array index or string index that [k] denotes, below [len]: [k]
    is the decimal notation of the index. *)
Definition index (k : string) (len : nat) : option nat :=
  List.find (fun i => String.eqb k (pretty i)) (seq 0 len).

(** The own properties of a parsed value: the members of an object,
    [length] and the elements of an array, [length] and the characters
    of a string. *)
Definition ownProperty (j : Json) (k : string) : option Value :=
  match j with
  | JObj members => VJson <$> members !! k
  | JArr items =>
      if String.eqb k "length" then Some (VNum (Z.of_nat (length items)))
      else match index k (length items) with
           | Some i => VJson <$> items !! i
           | None => None
           end
  | JStr s =>
      if String.eqb k "length" then Some (VNum (Z.of_nat (String.length s)))
      else match index k (String.length s) with
           | Some i => (fun c => VStr (String c EmptyString)) <$> String.get i s
           | None => None
           end
  | JNull | JBool _ | JNum _ => None
  end.

Definition kindOf (j : Json) : option Kind :=
  match j with
  | JNull => None
  | JBool _ => Some KBoolean
  | JNum _ => Some KNumber
  | JStr _ => Some KString
  | JArr _ => Some KArray
  | JObj _ => Some KObject
  end.

(** The TypeError of a read on [null]; the text is the one of V8. *)
Definition nullRead (k : string) : Error :=
  mkError ("Cannot read properties of null (reading '" +:+ k +:+ "')").

(** [j[k]]: a TypeError on [null]; otherwise the own property, else what
    the prototype chain holds, else [undefined] ([None]). *)
Definition get (j : Json) (k : string) : Error + option Value :=
  match kindOf j with
  | None => inl (nullRead k)
  | Some kind =>
      inr (match ownProperty j k with
           | Some v => Some v
           | None => inherited kind k
           end)
  end.

(** *** Filling an object literal: [o[k] = v]

    An object under construction: its own properties and its prototype
    ([None] is [null]). *)
Record Object := mkObject {
  own : gmap string Value;
  proto : option Value
}.

(** [{}]. *)
Definition emptyObject : Object :=
  mkObject ∅ (Some (VBuiltin (Prototype KObject))).

(** The prototype [p] holds a property named [k] that cannot be assigned
    through an inheriting object: [length] of [String.prototype], and of
    a built-in function [length], [name], the throwing accessors
    [caller] and [arguments], and [prototype] of a constructor. *)
Definition refuses (p : Value) (k : string) : bool :=
  match p with
  | VBuiltin (Prototype KString) => String.eqb k "length"
  | VBuiltin (Member _ name) =>
      existsb (String.eqb k) ["length"; "name"; "caller"; "arguments"]
      || (String.eqb name "constructor" && String.eqb k "prototype")
  | _ => false
  end.

(** The prototype [p] has a data property [__proto__] of its own, as
    [JSON.parse] creates it, which hides the accessor of
    [Object.prototype]. *)
Definition hidesAccessor (p : Value) : bool :=
  match p with
  | VJson (JObj members) => bool_decide (is_Some (members !! "__proto__"))
  | _ => false
  end.

(** The setter of [Object.prototype.__proto__]: an object or [null]
    becomes the prototype, any other value is ignored. *)
Definition setPrototype (o : Object) (v : Value) : Object :=
  match v with
  | VJson JNull => mkObject (own o) None
  | VJson (JObj _) | VJson (JArr _) | VBuiltin _ => mkObject (own o) (Some v)
  | VJson (JBool _) | VJson (JNum _) | VJson (JStr _) => o
  end.

(** The TypeError of a refused assignment in strict code; the text is
    the one of V8. *)
Definition readOnly (k : string) : Error :=
  mkError ("Cannot assign to read only property '" +:+ k +:+ "' of object '#<Object>'").

(** [o[k] = v] in strict code.  An own property is overwritten.
    Otherwise the prototype chain decides: it refuses, or it ends at the
    accessor [__proto__] of [Object.prototype], whose setter is called
    and no property created, or a new own property is created. *)
Definition set (o : Object) (k : string) (v : Value) : Error + Object :=
  match own o !! k with
  | Some _ => inr (mkObject (<[k := v]> (own o)) (proto o))
  | None =>
      match proto o with
      | None => inr (mkObject (<[k := v]> (own o)) (proto o))
      | Some p =>
          if refuses p k then inl (readOnly k)
          else if String.eqb k "__proto__" && negb (hidesAccessor p)
          then inr (setPrototype o v)
          else inr (mkObject (<[k := v]> (own o)) (proto o))
      end
  end.

End Js.

Import Js.

(** [ExtractedData] (types.ts): an object with string keys, as the map of
    its own properties.  The rows of the result sequence and the
    records of a sheet have this type. *)
Abbreviation ExtractedData := (gmap string Value).

(** [ProcessingStatus] (types.ts); the module keeps its [error] apart from
    the [error] state variable of the component. *)
Module ProcessingStatus.
Inductive t := idle | loading | success | error.

#[global] Instance eq_dec : EqDecision t.
Proof. solve_decision. Defined.
End ProcessingStatus.

(** A browser [File]: its name and its declared media type. *)
Record File := mkFile { file_name : string; file_type : string }.

#[global] Instance File_eq_dec : EqDecision File.
Proof. solve_decision. Defined.

(** ** The spreadsheet library

    A workbook as [XLSX.read] returns it. *)
Record Workbook (Worksheet : Type) := mkWorkbook {
  SheetNames : list string;
  Sheets : gmap string Worksheet
}.
Arguments mkWorkbook {Worksheet} _ _.
Arguments SheetNames {Worksheet} _.
Arguments Sheets {Worksheet} _.

(** What [appendAndDownloadExcel] leaves behind. *)
Inductive ExportEffect (Worksheet : Type) :=
| WriteFile (wb : Workbook Worksheet) (filename : string)
| Alert (msg : string).
Arguments WriteFile {Worksheet} _ _.
Arguments Alert {Worksheet} _.

Section Xlsx.

Variable Worksheet : Type.

(** [XLSX.read] on the bytes of a file; [inl] when it throws. *)
Variable XLSX_read : File -> Error + Workbook Worksheet.
(** [XLSX.utils.sheet_to_json(ws, { header: 1 })]: the rows as arrays. *)
Variable sheet_to_rows : option Worksheet -> list (list Cell).
(** [XLSX.utils.sheet_to_json(ws)]: the data rows as header-keyed
    records. *)
Variable sheet_to_json : option Worksheet -> list ExtractedData.
(** [XLSX.utils.json_to_sheet]. *)
Variable json_to_sheet : list ExtractedData -> Worksheet.

Definition firstSheetName (workbook : Workbook Worksheet) : string :=
  propertyKey (head (SheetNames workbook)).

Definition firstSheet (workbook : Workbook Worksheet) : option Worksheet :=
  Sheets workbook !! firstSheetName workbook.

(** [workbook.Sheets[firstSheetName] = newWorksheet]. *)
Definition setFirstSheet (workbook : Workbook Worksheet)
    (newWorksheet : Worksheet) : Workbook Worksheet :=
  mkWorkbook (SheetNames workbook)
             (<[firstSheetName workbook := newWorksheet]> (Sheets workbook)).

(** The sheet rewritten from [existingData ++ newData]. *)
Definition combinedSheet (workbook : Workbook Worksheet)
    (newData : list ExtractedData) : Worksheet :=
  let existingData := sheet_to_json (firstSheet workbook) in
  let combinedData := existingData ++ newData in
  json_to_sheet combinedData.

End Xlsx.

Arguments firstSheetName {Worksheet} _.
Arguments firstSheet {Worksheet} _.
Arguments setFirstSheet {Worksheet} _ _.
Arguments combinedSheet {Worksheet} _ _ _ _.

(** ** utils/fileHandlers.ts *)

Module FileHandlersUtils.
Section Defs.

Variable Worksheet : Type.
Variable XLSX_read : File -> Error + Workbook Worksheet.
Variable sheet_to_rows : option Worksheet -> list (list Cell).
Variable sheet_to_json : option Worksheet -> list ExtractedData.
Variable json_to_sheet : list ExtractedData -> Worksheet.

(** [parseExcelHeaders]: the first row is resolved as it is; the cast
    [as string[]] does nothing at run time. *)
Definition parseExcelHeaders (file : File) : Error + list Cell :=
  match XLSX_read file with
  | inl err => inl err
  | inr workbook =>
      let jsonData := sheet_to_rows (firstSheet workbook) in
      match jsonData with
      | row0 :: _ => inr row0
      | [] => inr []
      end
  end.

(** [appendAndDownloadExcel]: nothing catches a failing [XLSX.read]. *)
Definition appendAndDownloadExcel (originalFile : File)
    (newData : list ExtractedData) : list (ExportEffect Worksheet) :=
  match XLSX_read originalFile with
  | inl _ => []
  | inr workbook =>
      let newWorksheet := combinedSheet sheet_to_json json_to_sheet workbook newData in
      [WriteFile (setFirstSheet workbook newWorksheet)
                 ("updated_" +:+ file_name originalFile)]
  end.

End Defs.
End FileHandlersUtils.

(** ** unnamed/part_001: the file handlers, second revision *)

Module FileHandlersPart1.
Section Defs.

Variable Worksheet : Type.
Variable XLSX_read : File -> Error + Workbook Worksheet.
Variable sheet_to_rows : option Worksheet -> list (list Cell).
Variable sheet_to_json : option Worksheet -> list ExtractedData.
Variable json_to_sheet : list ExtractedData -> Worksheet.

(** [h !== undefined && h !== null && String(h).trim() !== ''] *)
Definition keepHeader (h : Cell) : bool :=
  match h with
  | CUndefined | CNull => false
  | _ => negb (isEmptyString (trim (ToString h)))
  end.

(** [parseExcelHeaders], with "Filter out empty headers". *)
Definition parseExcelHeaders (file : File) : Error + list string :=
  match XLSX_read file with
  | inl err => inl err
  | inr workbook =>
      let jsonData := sheet_to_rows (firstSheet workbook) in
      match jsonData with
      | row0 :: _ =>
          let headers := List.filter keepHeader row0 in
          inr (List.map ToString headers)
      | [] => inr []
      end
  end.

(** [appendAndDownloadExcel], with its [try]/[catch]. *)
Definition appendAndDownloadExcel (originalFile : File)
    (newData : list ExtractedData) : list (ExportEffect Worksheet) :=
  match XLSX_read originalFile with
  | inl _ =>
      [Alert "Error generating the updated file. Check the console for details."]
  | inr workbook =>
      let newWorksheet := combinedSheet sheet_to_json json_to_sheet workbook newData in
      [WriteFile (setFirstSheet workbook newWorksheet)
                 ("datafide_results_" +:+ file_name originalFile)]
  end.

End Defs.
End FileHandlersPart1.

(** ** services/geminiService.ts *)

Inductive SchemaType := TypeSTRING | TypeOBJECT.

Record PropertySchema := mkPropertySchema {
  property_type : SchemaType;
  property_description : string
}.

(** The argument of [ai.models.generateContent]. *)
Record Request := mkRequest {
  model : string;
  inlineData_mimeType : string;
  inlineData_data : string;
  text : string;
  responseMimeType : string;
  responseSchema_type : SchemaType;
  responseSchema_properties : gmap string PropertySchema;
  responseSchema_required : list string
}.

(** [ai.models.generateContent]: it throws, or answers with
    [response.text], which may be [undefined]. *)
Definition Client : Type := Request -> Error + option string.

Module GeminiService.

Fixpoint stripPrefix (p s : string) : option string :=
  match p, s with
  | EmptyString, _ => Some s
  | String a p', String b s' =>
      if Ascii.eqb a b then stripPrefix p' s' else None
  | String _ _, EmptyString => None
  end.

(** The longest run of characters other than [;], and the rest. *)
Fixpoint spanMime (s : string) : string * string :=
  match s with
  | EmptyString => (EmptyString, EmptyString)
  | String c s' =>
      if Ascii.eqb c ";" then (EmptyString, s)
      else let '(m, rest) := spanMime s' in (String c m, rest)
  end.

(** [.] matches every character but a line terminator. *)
Fixpoint allDots (s : string) : bool :=
  match s with
  | EmptyString => true
  | String c s' =>
      let n := nat_of_ascii c in
      negb ((n =? 10)%nat || (n =? 13)%nat) && allDots s'
  end.

(** [base64Data.match(/^data:([^;]+);base64,(.+)$/)]: the two groups. *)
Definition matchDataUrl (base64Data : string) : option (string * string) :=
  match stripPrefix "data:" base64Data with
  | None => None
  | Some rest =>
      let '(mimeType, rest') := spanMime rest in
      if isEmptyString mimeType then None
      else match stripPrefix ";base64," rest' with
           | None => None
           | Some rawData =>
               if isEmptyString rawData || negb (allDots rawData) then None
               else Some (mimeType, rawData)
           end
  end.

(** [targetColumns.forEach(col => { properties[col] = {...} })] on
    [properties = {}], as the map of the own properties of [properties].
    For the column [__proto__] the assignment goes to the setter of
    [Object.prototype]: the schema object becomes the prototype of
    [properties] and no property is created.  That prototype has two
    writable data properties, [type] and [description], so every other
    assignment creates or overwrites an own property as before. *)
Definition buildProperties (targetColumns : list string)
    : gmap string PropertySchema :=
  foldl (fun properties col =>
           if String.eqb col "__proto__" then properties
           else <[col := mkPropertySchema TypeSTRING ("Extracted value for " +:+ col)]>
                  properties)
        ∅ targetColumns.

Definition dquote : string := String (ascii_of_nat 34) EmptyString.
Definition newline : string := String (ascii_of_nat 10) EmptyString.
Definition indent : string := "                 ".

Definition promptText (mimeType instructions : string)
    (targetColumns : list string) : string :=
  "Extract information from this "
  +:+ (if includes "pdf" mimeType then "PDF document" else "image")
  +:+ " based on these instructions: " +:+ dquote +:+ instructions +:+ dquote
  +:+ ". " +:+ newline +:+ indent
  +:+ "Match the extracted data to the following keys: "
  +:+ String.concat ", " targetColumns +:+ ". " +:+ newline +:+ indent
  +:+ "If a value is not found, return an empty string. Output valid JSON.".

Definition buildRequest (mimeType rawData instructions : string)
    (targetColumns : list string) : Request :=
  {| model := "gemini-3-flash-preview";
     inlineData_mimeType := mimeType;
     inlineData_data := rawData;
     text := promptText mimeType instructions targetColumns;
     responseMimeType := "application/json";
     responseSchema_type := TypeOBJECT;
     responseSchema_properties := buildProperties targetColumns;
     responseSchema_required := targetColumns |}.

Definition invalidFormat : Error := mkError "Invalid file data format".
Definition cannotInterpret : Error :=
  mkError "Failed to interpret document data correctly.".

Section Service.

(** [new GoogleGenAI({ apiKey: process.env.API_KEY })] in the [i]-th
    call of a run: the constructor throws, or gives the client. *)
Variable GoogleGenAI : nat -> Error + Client.
(** [JSON.parse]; [None] when it throws. *)
Variable JSON_parse : string -> option Json.

(** [extractDataFromDocument]: the request it sends, if it gets that
    far, and what it returns or throws.  The client is constructed
    first, then the data URL is matched; what [JSON.parse] returns is
    returned as it is. *)
Definition extractDataFromDocument (i : nat) (base64Data instructions : string)
    (targetColumns : list string) : option Request * (Error + Json) :=
  match GoogleGenAI i with
  | inl err => (None, inl err)
  | inr ai =>
      match matchDataUrl base64Data with
      | None => (None, inl invalidFormat)
      | Some (mimeType, rawData) =>
          let request := buildRequest mimeType rawData instructions targetColumns in
          (Some request,
           match ai request with
           | inl err => inl err
           | inr response_text =>
               match response_text with
               | None => inl cannotInterpret
               | Some text =>
                   if isEmptyString text then inl cannotInterpret
                   else match JSON_parse text with
                        | None => inl cannotInterpret
                        | Some data => inr data
                        end
               end
           end)
      end
  end.

End Service.

End GeminiService.

(** ** The component state (unnamed/part_000) *)

Record Preview := mkPreview {
  preview_url : string;
  preview_type : string;
  preview_name : string
}.

Record Template := mkTemplate {
  template_id : string;
  template_label : string;
  template_prompt : string
}.

Definition customTemplate : Template :=
  mkTemplate "custom" "Custom Instructions" EmptyString.

Definition EXTRACTION_TEMPLATES : list Template :=
  [ customTemplate;
    mkTemplate "invoice" "Invoice / Billing"
      "Extract billing details: Invoice #, Date, Vendor Name, Total Amount, Tax, and Currency.";
    mkTemplate "receipt" "Retail Receipt"
      "Extract store name, date, time, total price, and items purchased list.";
    mkTemplate "business_card" "Business Card"
      "Extract contact name, company, email, phone number, and address.";
    mkTemplate "form" "Standard Form"
      "Extract all key-value pairs from the form fields accurately." ].

(** The [useState] cells of [App]. *)
Record AppState := mkAppState {
  docFiles : list File;
  docPreviews : list Preview;
  excelFile : option File;
  allHeaders : list string;
  selectedHeaders : list string;
  selectedTemplate : Template;
  customInstructions : string;
  status : ProcessingStatus.t;
  extractedRows : list ExtractedData;
  error : option string
}.

(** What a handler does: state setters, and the calls that leave the
    component. *)
Inductive Effect :=
| AppendDocFiles (files : list File)
| AppendDocPreviews (previews : list Preview)
| SetExcelFile (file : option File)
| SetAllHeaders (headers : list string)
| SetSelectedHeaders (headers : list string)
| SetStatus (st : ProcessingStatus.t)
| SetExtractedRows (rows : list ExtractedData)
| SetError (e : option string)
| ExtractCall (i : nat) (base64Data instructions : string)
              (targetColumns : list string)
| GenerateContent (i : nat) (request : Request).

(** One setter applied to the state. *)
Definition reduce (s : AppState) (e : Effect) : AppState :=
  match e with
  | AppendDocFiles files =>
      mkAppState (docFiles s ++ files) (docPreviews s) (excelFile s) (allHeaders s)
        (selectedHeaders s) (selectedTemplate s) (customInstructions s)
        (status s) (extractedRows s) (error s)
  | AppendDocPreviews previews =>
      mkAppState (docFiles s) (docPreviews s ++ previews) (excelFile s) (allHeaders s)
        (selectedHeaders s) (selectedTemplate s) (customInstructions s)
        (status s) (extractedRows s) (error s)
  | SetExcelFile file =>
      mkAppState (docFiles s) (docPreviews s) file (allHeaders s)
        (selectedHeaders s) (selectedTemplate s) (customInstructions s)
        (status s) (extractedRows s) (error s)
  | SetAllHeaders headers =>
      mkAppState (docFiles s) (docPreviews s) (excelFile s) headers
        (selectedHeaders s) (selectedTemplate s) (customInstructions s)
        (status s) (extractedRows s) (error s)
  | SetSelectedHeaders headers =>
      mkAppState (docFiles s) (docPreviews s) (excelFile s) (allHeaders s)
        headers (selectedTemplate s) (customInstructions s)
        (status s) (extractedRows s) (error s)
  | SetStatus st =>
      mkAppState (docFiles s) (docPreviews s) (excelFile s) (allHeaders s)
        (selectedHeaders s) (selectedTemplate s) (customInstructions s)
        st (extractedRows s) (error s)
  | SetExtractedRows rows =>
      mkAppState (docFiles s) (docPreviews s) (excelFile s) (allHeaders s)
        (selectedHeaders s) (selectedTemplate s) (customInstructions s)
        (status s) rows (error s)
  | SetError e =>
      mkAppState (docFiles s) (docPreviews s) (excelFile s) (allHeaders s)
        (selectedHeaders s) (selectedTemplate s) (customInstructions s)
        (status s) (extractedRows s) e
  | ExtractCall _ _ _ _ | GenerateContent _ _ => s
  end.

(** The state after a handler's effects, in the order it issued them. *)
Definition run (s : AppState) (effects : list Effect) : AppState :=
  foldl reduce s effects.

(** The [useState] defaults; only the default template differs between
    the two revisions. *)
Definition initialState (selected : Template) : AppState :=
  mkAppState [] [] None [] [] selected EmptyString ProcessingStatus.idle [] None.

(** [f => f.type.includes('image') || f.type.includes('pdf')], the filter of
    both revisions of [handleDocumentChange]. *)
Definition isValidFile (f : File) : bool :=
  includes "image" (file_type f) || includes "pdf" (file_type f).

(** ** The extraction loop shared by the two revisions of [processData]

    The two [for] loops are the same text but for two places: how a cell
    of [fullRow] is chosen ([cell]) and whether the rows so far are
    published after each document ([publish]). *)

Module Orchestrator.

(** [preview.url] on an index past the end of [docPreviews]. *)
Definition undefinedPreview : Error :=
  mkError "Cannot read properties of undefined (reading 'url')".

(** [allHeaders.forEach(h => { fullRow[h] = ... })] over the headers
    still to visit: the object [fullRow] as the loop leaves it, and what
    the callback threw, if it did.  The right-hand side reads
    [result[h]], which throws on [null], and [cell] is what it makes of
    the value read. *)
Fixpoint forEach (cell : option Value -> Value) (result : Json)
    (allHeaders : list string) (fullRow : Js.Object)
    : Js.Object * option Error :=
  match allHeaders with
  | [] => (fullRow, None)
  | h :: rest =>
      match Js.get result h with
      | inl err => (fullRow, Some err)
      | inr read =>
          match Js.set fullRow h (cell read) with
          | inl err => (fullRow, Some err)
          | inr fullRow' => forEach cell result rest fullRow'
          end
      end
  end.

(** The own properties of [fullRow] after
    [const fullRow = {}; allHeaders.forEach(...)]. *)
Definition filled (cell : option Value -> Value)
    (allHeaders : list string) (result : Json) : ExtractedData :=
  own (fst (forEach cell result allHeaders emptyObject)).

(** [const fullRow = {}; allHeaders.forEach(...)]: the row that is
    pushed, or what was thrown. *)
Definition fullRow (cell : option Value -> Value)
    (allHeaders : list string) (result : Json) : Error + ExtractedData :=
  match snd (forEach cell result allHeaders emptyObject) with
  | Some err => inl err
  | None => inr (filled cell allHeaders result)
  end.

Section Loop.

Variable GoogleGenAI : nat -> Error + Client.
Variable JSON_parse : string -> option Json.
Variable cell : option Value -> Value.
Variable publish : list ExtractedData -> list Effect.
(** The state the handler closed over. *)
Variable docPreviews : list Preview.
Variable instructions : string.
Variable selectedHeaders allHeaders : list string.

(** What [extractDataFromDocument] returns or throws for the [i]-th
    document. *)
Definition extraction (i : nat) (preview : Preview) : Error + Json :=
  snd (GeminiService.extractDataFromDocument GoogleGenAI JSON_parse
         i (preview_url preview) instructions selectedHeaders).

(** The calls one iteration makes. *)
Definition calls (i : nat) (preview : Preview) : list Effect :=
  ExtractCall i (preview_url preview) instructions selectedHeaders ::
  match fst (GeminiService.extractDataFromDocument GoogleGenAI JSON_parse
               i (preview_url preview) instructions selectedHeaders) with
  | Some request => [GenerateContent i request]
  | None => []
  end.

(** [for (let i = ...; i < docFiles.length; i++)] with [n] documents
    left: the effects, and the thrown error or the rows. *)
Fixpoint extractionLoop (n i : nat) (results : list ExtractedData)
    : list Effect * (Error + list ExtractedData) :=
  match n with
  | 0 => ([], inr results)
  | S n' =>
      match docPreviews !! i with
      | None => ([], inl undefinedPreview)
      | Some preview =>
          match extraction i preview with
          | inl err => (calls i preview, inl err)
          | inr result =>
              match fullRow cell allHeaders result with
              | inl err => (calls i preview, inl err)
              | inr row =>
                  let results' := results ++ [row] in
                  let '(rest, final) := extractionLoop n' (S i) results' in
                  (calls i preview ++ publish results' ++ rest, final)
              end
          end
      end
  end.

(** One iteration up to [results.push]: the result the row was built
    from, or what the call or the building of the row threw. *)
Definition pushed (i : nat) (preview : Preview) : Error + Json :=
  match extraction i preview with
  | inl err => inl err
  | inr result =>
      match fullRow cell allHeaders result with
      | inl err => inl err
      | inr _ => inr result
      end
  end.

(** The raw results of the documents whose rows were pushed before the
    loop ends. *)
Fixpoint extracted (n i : nat) : list Json :=
  match n with
  | 0 => []
  | S n' =>
      match docPreviews !! i with
      | None => []
      | Some preview =>
          match pushed i preview with
          | inl _ => []
          | inr result => result :: extracted n' (S i)
          end
      end
  end.

(** The error that ends the loop early, if one does. *)
Fixpoint thrown (n i : nat) : option Error :=
  match n with
  | 0 => None
  | S n' =>
      match docPreviews !! i with
      | None => Some undefinedPreview
      | Some preview =>
          match pushed i preview with
          | inl err => Some err
          | inr _ => thrown n' (S i)
          end
      end
  end.

(** How many documents the loop calls the Extraction Client for. *)
Fixpoint attempts (n i : nat) : nat :=
  match n with
  | 0 => 0
  | S n' =>
      match docPreviews !! i with
      | None => 0
      | Some preview =>
          match pushed i preview with
          | inl _ => 1
          | inr _ => S (attempts n' (S i))
          end
      end
  end.

(** Documents [i], [i+1], ... extract to [rs], in this order: the call
    returns the result and its row is pushed. *)
Definition succeed_from (i : nat) (rs : list Json) : Prop :=
  forall j r, rs !! j = Some r ->
    exists p, docPreviews !! (i + j) = Some p /\ pushed (i + j) p = inr r.


End Loop.

(** The document indices a trace called the Extraction Client for. *)
Definition attempted (effects : list Effect) : list nat :=
  omap (fun e => match e with ExtractCall i _ _ _ => Some i | _ => None end)
       effects.

End Orchestrator.

(** ** unnamed/part_000, lines 1-509 *)

Module AppA.

(** [useState(EXTRACTION_TEMPLATES[1])]: the invoice template. *)
Definition initial : AppState :=
  initialState (List.nth 1 EXTRACTION_TEMPLATES customTemplate).

(** [result[h] !== undefined ? result[h] : ''], on what [result[h]]
    reads. *)
Definition cell (read : option Value) : Value :=
  match read with
  | Some v => v
  | None => VStr EmptyString
  end.

(** [setExtractedRows([...results])] inside the loop. *)
Definition publish (results : list ExtractedData) : list Effect :=
  [SetExtractedRows results].

Definition removeExcelFile : list Effect :=
  [SetExcelFile None; SetAllHeaders []; SetSelectedHeaders []].

Section Handlers.

Variable fileToBase64 : File -> Error + string.
Variable parseExcelHeaders : File -> Error + list string.
Variable GoogleGenAI : nat -> Error + Client.
Variable JSON_parse : string -> option Json.

Definition toPreview (file : File) : option Preview :=
  match fileToBase64 file with
  | inr base64 => Some (mkPreview base64 (file_type file) (file_name file))
  | inl _ => None
  end.

(** [e.target.files] is [files]; a failing [fileToBase64] rejects the
    [Promise.all] and leaves the previews as they were. *)
Definition handleDocumentChange (files : option (list File)) : list Effect :=
  match files with
  | None => []
  | Some files =>
      let validFiles := List.filter isValidFile files in
      if (length validFiles =? 0)%nat && (0 <? length files)%nat then
        [SetError (Some "Please select valid image (JPG, PNG) or PDF files.")]
      else
        [SetError None; AppendDocFiles validFiles] ++
        match mapM toPreview validFiles with
        | Some newPreviews => [AppendDocPreviews newPreviews]
        | None => []
        end
  end.

Definition handleExcelChange (files : option (list File)) : list Effect :=
  match files with
  | Some (file :: _) =>
      [SetExcelFile (Some file); SetError None] ++
      match parseExcelHeaders file with
      | inr foundHeaders =>
          if (length foundHeaders =? 0)%nat then
            SetError (Some "The selected Excel file appears to be empty or missing headers.")
            :: removeExcelFile
          else [SetAllHeaders foundHeaders; SetSelectedHeaders foundHeaders]
      | inl _ =>
          SetError (Some "Error reading the Excel file. Please ensure it's a valid XLSX, XLS, or CSV.")
          :: removeExcelFile
      end
  | _ => []
  end.

Definition instructionsOf (s : AppState) : string :=
  if String.eqb (template_id (selectedTemplate s)) "custom"
  then customInstructions s
  else template_prompt (selectedTemplate s).

Definition processData (s : AppState) : list Effect :=
  if (length (docFiles s) =? 0)%nat then
    [SetError (Some "Please upload at least one image or PDF document.")]
  else if isNull (excelFile s) then
    [SetError (Some "Please upload a target Excel/CSV template.")]
  else if (length (selectedHeaders s) =? 0)%nat then
    [SetError (Some "Please select at least one column to populate.")]
  else
    let '(effects, outcome) :=
      Orchestrator.extractionLoop GoogleGenAI JSON_parse cell publish
        (docPreviews s) (instructionsOf s) (selectedHeaders s) (allHeaders s)
        (length (docFiles s)) 0 [] in
    [SetStatus ProcessingStatus.loading; SetError None] ++ effects ++
    match outcome with
    | inr _ => [SetStatus ProcessingStatus.success]
    | inl err =>
        [SetError (Some (orElse (message err)
                           "An unexpected error occurred during AI processing."));
         SetStatus ProcessingStatus.error]
    end.

End Handlers.

End AppA.

(** ** unnamed/part_000, lines 510-1062 *)

Module AppB.

(** [useState(EXTRACTION_TEMPLATES[0])]: the custom template. *)
Definition initial : AppState :=
  initialState (List.nth 0 EXTRACTION_TEMPLATES customTemplate).

(** [result[h] || ''], on what [result[h]] reads. *)
Definition cell (read : option Value) : Value :=
  match read with
  | Some v => if truthy v then v else VStr EmptyString
  | None => VStr EmptyString
  end.

(** Nothing is published inside the loop. *)
Definition publish (results : list ExtractedData) : list Effect := [].

Definition removeExcelFile : list Effect :=
  [SetExcelFile None; SetAllHeaders []; SetSelectedHeaders []].

Section Handlers.

Variable fileToBase64 : File -> Error + string.
Variable parseExcelHeaders : File -> Error + list string.
Variable GoogleGenAI : nat -> Error + Client.
Variable JSON_parse : string -> option Json.

Definition toPreview (file : File) : option Preview :=
  match fileToBase64 file with
  | inr base64 => Some (mkPreview base64 (file_type file) (file_name file))
  | inl _ => None
  end.

Definition handleDocumentChange (files : option (list File)) : list Effect :=
  match files with
  | None => []
  | Some files =>
      let validFiles := List.filter isValidFile files in
      if (length validFiles =? 0)%nat && (0 <? length files)%nat then
        [SetError (Some "No valid images or PDF files found in selection.")]
      else
        [AppendDocFiles validFiles] ++
        match mapM toPreview validFiles with
        | Some newPreviews => [AppendDocPreviews newPreviews]
        | None => []
        end
  end.

Definition handleExcelChange (files : option (list File)) : list Effect :=
  match files with
  | Some (file :: _) =>
      [SetExcelFile (Some file)] ++
      match parseExcelHeaders file with
      | inr foundHeaders =>
          [SetAllHeaders foundHeaders; SetSelectedHeaders foundHeaders]
      | inl _ =>
          SetError (Some "Could not read excel headers. Make sure it's a valid XLSX/CSV file.")
          :: removeExcelFile
      end
  | _ => []
  end.

Definition instructionsOf (s : AppState) : string :=
  if String.eqb (template_id (selectedTemplate s)) "custom"
  then customInstructions s
  else template_prompt (selectedTemplate s).

Definition processData (s : AppState) : list Effect :=
  if (length (docFiles s) =? 0)%nat
     || isNull (excelFile s)
     || (length (selectedHeaders s) =? 0)%nat then
    [SetError (Some "Please upload documents, an Excel file, and select at least one column.")]
  else
    let '(effects, outcome) :=
      Orchestrator.extractionLoop GoogleGenAI JSON_parse cell publish
        (docPreviews s) (instructionsOf s) (selectedHeaders s) (allHeaders s)
        (length (docFiles s)) 0 [] in
    [SetStatus ProcessingStatus.loading; SetError None] ++ effects ++
    match outcome with
    | inr newExtractedRows =>
        [SetExtractedRows newExtractedRows; SetStatus ProcessingStatus.success]
    | inl err =>
        [SetError (Some (orElse (message err) "An error occurred during processing."));
         SetStatus ProcessingStatus.error]
    end.

End Handlers.

End AppB.

(** ** Both revisions behind one name *)

Inductive Revision := RevA | RevB.

Definition cellOf (r : Revision) : option Value -> Value :=
  match r with RevA => AppA.cell | RevB => AppB.cell end.

(** The full-width row a revision builds from one extraction result:
    the own properties of [fullRow] as [forEach] leaves it. *)
Definition normalize (r : Revision) (allHeaders : list string)
    (result : Json) : ExtractedData :=
  Orchestrator.filled (cellOf r) allHeaders result.

Definition instructionsOf (r : Revision) : AppState -> string :=
  match r with RevA => AppA.instructionsOf | RevB => AppB.instructionsOf end.

Definition processData (r : Revision)
    (GoogleGenAI : nat -> Error + Client)
    (JSON_parse : string -> option Json) : AppState -> list Effect :=
  match r with
  | RevA => AppA.processData GoogleGenAI JSON_parse
  | RevB => AppB.processData GoogleGenAI JSON_parse
  end.

Definition handleDocumentChange (r : Revision)
    (fileToBase64 : File -> Error + string) : option (list File) -> list Effect :=
  match r with
  | RevA => AppA.handleDocumentChange fileToBase64
  | RevB => AppB.handleDocumentChange fileToBase64
  end.

Definition publishOf (r : Revision) : list ExtractedData -> list Effect :=
  match r with RevA => AppA.publish | RevB => AppB.publish end.

(** The three guards of [processData]. *)
Definition preconditions (s : AppState) : Prop :=
  docFiles s <> [] /\ excelFile s <> None /\ selectedHeaders s <> [].

(** What ends the trace of a run: success, or the error and its message. *)
Definition closing (r : Revision) (outcome : Error + list ExtractedData)
    : list Effect :=
  match outcome with
  | inr rows =>
      match r with
      | RevA => [SetStatus ProcessingStatus.success]
      | RevB => [SetExtractedRows rows; SetStatus ProcessingStatus.success]
      end
  | inl err =>
      [SetError (Some (orElse (message err)
          match r with
          | RevA => "An unexpected error occurred during AI processing."
          | RevB => "An error occurred during processing."
          end));
       SetStatus ProcessingStatus.error]
  end.

(** A completed run: the handler's last word is [setStatus('success')]. *)
Definition completed (effects : list Effect) : Prop :=
  last effects = Some (SetStatus ProcessingStatus.success).

(** The property the schema holds for a column. *)
Definition propertyFor (col : string) : PropertySchema :=
  mkPropertySchema TypeSTRING ("Extracted value for " +:+ col).

(** A call is scoped to [columns]: the client is handed them as its target
    fields, and the schema it sends requires them and has a string
    property for each of them but [__proto__], and for nothing else. *)
Definition scopedTo (columns : list string) (e : Effect) : Prop :=
  match e with
  | ExtractCall _ _ _ targetColumns => targetColumns = columns
  | GenerateContent _ request =>
      responseSchema_required request = columns
      /\ forall col,
           responseSchema_properties request !! col
           = if bool_decide (col ∈ columns) && negb (String.eqb col "__proto__")
             then Some (propertyFor col) else None
  | _ => True
  end.

(** The two revisions of [appendAndDownloadExcel]. *)
Inductive HandlersRevision := Utils | Part1.

Definition appendAndDownloadExcel (r : HandlersRevision) {Worksheet : Type}
    (XLSX_read : File -> Error + Workbook Worksheet)
    (sheet_to_json : option Worksheet -> list ExtractedData)
    (json_to_sheet : list ExtractedData -> Worksheet)
    : File -> list ExtractedData -> list (ExportEffect Worksheet) :=
  match r with
  | Utils => FileHandlersUtils.appendAndDownloadExcel Worksheet XLSX_read sheet_to_json json_to_sheet
  | Part1 => FileHandlersPart1.appendAndDownloadExcel Worksheet XLSX_read sheet_to_json json_to_sheet
  end.

(** What [extractDataFromDocument] returns for the [i]-th document of a
    run started in state [s]. *)
Definition extractionOf (r : Revision)
    (GoogleGenAI : nat -> Error + Client)
    (JSON_parse : string -> option Json)
    (s : AppState) (i : nat) (preview : Preview) : Error + Json :=
  Orchestrator.extraction GoogleGenAI JSON_parse
    (instructionsOf r s) (selectedHeaders s) i preview.

(** ** Concrete runs

    The example of the specification: headers [A, B, C], three uploaded
    documents, and a service that answers [{"A":"x"}] or fails on the
    second request. *)

Module Scenario.

Definition doc1 : File := mkFile "doc1.png" "image/png".
Definition doc2 : File := mkFile "doc2.pdf" "application/pdf".
Definition doc3 : File := mkFile "doc3.jpg" "image/jpeg".
Definition notes : File := mkFile "notes.txt" "text/plain".
Definition template : File := mkFile "template.xlsx" "application/vnd.ms-excel".

Definition fileToBase64 (f : File) : Error + string :=
  inr ("data:" +:+ file_type f +:+ ";base64,QUJD").

Definition previewOf (f : File) : Preview :=
  mkPreview ("data:" +:+ file_type f +:+ ";base64,QUJD") (file_type f) (file_name f).

(** The text [{"A":"x"}]. *)
Definition answer : string :=
  "{" +:+ GeminiService.dquote +:+ "A" +:+ GeminiService.dquote +:+ ":"
  +:+ GeminiService.dquote +:+ "x" +:+ GeminiService.dquote +:+ "}".

Definition JSON_parse (text : string) : option Json :=
  if String.eqb text answer then Some (JObj {[ "A" := JStr "x" ]})
  else if String.eqb text "{}" then Some (JObj ∅)
  else if String.eqb text "null" then Some JNull
  else None.

(** Clients that are constructed; the model answers or fails. *)
Definition alwaysAnswers (i : nat) : Error + Client :=
  inr (fun request => inr (Some answer)).

Definition secondFails (i : nat) : Error + Client :=
  inr (fun request =>
         if (i =? 1)%nat then inl (mkError "503 Service Unavailable")
         else inr (Some answer)).

Definition firstFails (i : nat) : Error + Client :=
  inr (fun request =>
         if (i =? 0)%nat then inl (mkError "503 Service Unavailable")
         else inr (Some answer)).

(** The model answers the second request with the text [null]. *)
Definition secondIsNull (i : nat) : Error + Client :=
  inr (fun request => inr (Some (if (i =? 1)%nat then "null" else answer))).

(** No API key: the constructor throws. *)
Definition noApiKey (i : nat) : Error + Client :=
  inl (mkError "An API Key must be set when running in a browser").

Definition invoice : Template := List.nth 1 EXTRACTION_TEMPLATES customTemplate.

(** Three documents, a template with headers [A, B, C], column [A]
    selected, nothing run yet. *)
Definition ready : AppState :=
  {| docFiles := [doc1; doc2; doc3];
     docPreviews := [previewOf doc1; previewOf doc2; previewOf doc3];
     excelFile := Some template;
     allHeaders := ["A"; "B"; "C"];
     selectedHeaders := ["A"];
     selectedTemplate := invoice;
     customInstructions := EmptyString;
     status := ProcessingStatus.idle;
     extractedRows := [];
     error := None |}.

(** The row [{A: "x", B: "", C: ""}]. *)
Definition rowX : ExtractedData :=
  {[ "A" := VStr "x"; "B" := VStr EmptyString; "C" := VStr EmptyString ]}.

(** [ready] with no document. *)
Definition noDocuments : AppState :=
  {| docFiles := [];
     docPreviews := [];
     excelFile := Some template;
     allHeaders := ["A"; "B"; "C"];
     selectedHeaders := ["A"];
     selectedTemplate := invoice;
     customInstructions := EmptyString;
     status := ProcessingStatus.idle;
     extractedRows := [];
     error := None |}.

(** A sheet is its rows of cells, or its records. *)
Definition rowsOf (ws : option (list (list Cell))) : list (list Cell) :=
  default [] ws.

Definition workbookOf {Worksheet : Type} (ws : Worksheet) : Workbook Worksheet :=
  mkWorkbook ["Sheet1"] {[ "Sheet1" := ws ]}.

Definition readAs {Worksheet : Type} (ws : Worksheet) (f : File)
    : Error + Workbook Worksheet :=
  inr (workbookOf ws).

Definition recordsOf (ws : option (list ExtractedData)) : list ExtractedData :=
  default [] ws.

Definition sheetOf (records : list ExtractedData) : list ExtractedData := records.

End Scenario.

(** ** The other handlers of [App] (unnamed/part_000)

    The handlers below only call state setters, so each is a function on
    the state.  But for [removeDocument] and the disabling of the run
    button, the two revisions have the same text. *)

Module Controls.

Definition setDocFiles (files : list File) (s : AppState) : AppState :=
  mkAppState files (docPreviews s) (excelFile s) (allHeaders s)
    (selectedHeaders s) (selectedTemplate s) (customInstructions s)
    (status s) (extractedRows s) (error s).

Definition setDocPreviews (previews : list Preview) (s : AppState) : AppState :=
  mkAppState (docFiles s) previews (excelFile s) (allHeaders s)
    (selectedHeaders s) (selectedTemplate s) (customInstructions s)
    (status s) (extractedRows s) (error s).

Definition setSelectedTemplate (template : Template) (s : AppState) : AppState :=
  mkAppState (docFiles s) (docPreviews s) (excelFile s) (allHeaders s)
    (selectedHeaders s) template (customInstructions s)
    (status s) (extractedRows s) (error s).

Definition setCustomInstructions (value : string) (s : AppState) : AppState :=
  mkAppState (docFiles s) (docPreviews s) (excelFile s) (allHeaders s)
    (selectedHeaders s) (selectedTemplate s) value
    (status s) (extractedRows s) (error s).

(** [prev.filter((_, i) => i !== index)], the first element having the
    index [from]. *)
Fixpoint removeIndex {A : Type} (index from : nat) (prev : list A) : list A :=
  match prev with
  | [] => []
  | x :: rest =>
      if negb (from =? index)%nat then x :: removeIndex index (S from) rest
      else removeIndex index (S from) rest
  end.

(** [removeDocument], lines 69-73: the status test reads the [docFiles]
    the handler closed over. *)
Definition removeDocumentA (index : nat) (s : AppState) : AppState :=
  let s1 := setDocFiles (removeIndex index 0 (docFiles s)) s in
  let s2 := setDocPreviews (removeIndex index 0 (docPreviews s1)) s1 in
  if (length (docFiles s) <=? 1)%nat then reduce s2 (SetStatus ProcessingStatus.idle)
  else s2.

(** [removeDocument], lines 575-578. *)
Definition removeDocumentB (index : nat) (s : AppState) : AppState :=
  let s1 := setDocFiles (removeIndex index 0 (docFiles s)) s in
  setDocPreviews (removeIndex index 0 (docPreviews s1)) s1.

Definition removeDocument (r : Revision) : nat -> AppState -> AppState :=
  match r with RevA => removeDocumentA | RevB => removeDocumentB end.

(** [clearAllDocuments], lines 75-80 and 580-585. *)
Definition clearAllDocuments (s : AppState) : AppState :=
  let s1 := setDocFiles [] s in
  let s2 := setDocPreviews [] s1 in
  let s3 := reduce s2 (SetStatus ProcessingStatus.idle) in
  reduce s3 (SetExtractedRows []).

(** [removeExcelFile], lines 82-86 and 587-591, on its own. *)
Definition removeExcelFile (s : AppState) : AppState :=
  run s AppA.removeExcelFile.

(** [toggleHeader], lines 109-113 and 608-612. *)
Definition toggleHeader (header : string) (s : AppState) : AppState :=
  let prev := selectedHeaders s in
  reduce s (SetSelectedHeaders
              (if existsb (String.eqb header) prev
               then List.filter (fun h => negb (String.eqb h header)) prev
               else prev ++ [header])).

(** The Select All / Clear button, lines 299 and 818. *)
Definition toggleAll (s : AppState) : AppState :=
  reduce s (SetSelectedHeaders
              (if (length (selectedHeaders s) =? length (allHeaders s))%nat
               then [] else allHeaders s)).

(** The template [select], lines 324-327 and 852-855. *)
Definition selectTemplate (value : string) (s : AppState) : AppState :=
  match List.find (fun t => String.eqb (template_id t) value) EXTRACTION_TEMPLATES with
  | Some template => setSelectedTemplate template s
  | None => s
  end.

(** The [textarea]'s [onChange], lines 337 and 873-875. *)
Definition editInstructions (value : string) (s : AppState) : AppState :=
  if String.eqb (template_id (selectedTemplate s)) "custom"
  then setCustomInstructions value s
  else s.

(** The [textarea]'s [value], lines 336 and 872. *)
Definition shownInstructions (s : AppState) : string :=
  if String.eqb (template_id (selectedTemplate s)) "custom"
  then customInstructions s
  else template_prompt (selectedTemplate s).

Definition isLoading (st : ProcessingStatus.t) : bool :=
  match st with ProcessingStatus.loading => true | _ => false end.

(** The run button's [disabled], line 345. *)
Definition runDisabledA (s : AppState) : bool :=
  isLoading (status s) || (length (docFiles s) =? 0)%nat || isNull (excelFile s).

(** The run button's [disabled], line 883. *)
Definition runDisabledB (s : AppState) : bool :=
  isLoading (status s) || (length (docFiles s) =? 0)%nat || isNull (excelFile s)
  || (length (selectedHeaders s) =? 0)%nat.

Definition runDisabled (r : Revision) : AppState -> bool :=
  match r with RevA => runDisabledA | RevB => runDisabledB end.

(** [downloadResults], lines 157-161 and 645-649, over either revision
    of [appendAndDownloadExcel]. *)
Definition downloadResults (r : HandlersRevision) {Worksheet : Type}
    (XLSX_read : File -> Error + Workbook Worksheet)
    (sheet_to_json : option Worksheet -> list ExtractedData)
    (json_to_sheet : list ExtractedData -> Worksheet)
    (s : AppState) : list (ExportEffect Worksheet) :=
  match excelFile s with
  | Some file =>
      if (0 <? length (extractedRows s))%nat
      then appendAndDownloadExcel r XLSX_read sheet_to_json json_to_sheet
             file (extractedRows s)
      else []
  | None => []
  end.

End Controls.

Definition handleExcelChange (r : Revision)
    (parseExcelHeaders : File -> Error + list string)
    : option (list File) -> list Effect :=
  match r with
  | RevA => AppA.handleExcelChange parseExcelHeaders
  | RevB => AppB.handleExcelChange parseExcelHeaders
  end.

(** The preview at each index is the one made from the file at that index. *)
Definition aligned (s : AppState) : Prop :=
  Forall2 (fun f p => preview_type p = file_type f /\ preview_name p = file_name f)
          (docFiles s) (docPreviews s).

(** The row lists a trace handed to [setExtractedRows], in order. *)
Definition published (effects : list Effect) : list (list ExtractedData) :=
  omap (fun e => match e with SetExtractedRows rows => Some rows | _ => None end)
       effects.

(** The document indices a trace sent a request to the model for. *)
Definition requested (effects : list Effect) : list nat :=
  omap (fun e => match e with GenerateContent i _ => Some i | _ => None end)
       effects.

(** Every selected column is a header of the spreadsheet. *)
Definition selectionWithinHeaders (s : AppState) : Prop :=
  forall h, h ∈ selectedHeaders s -> h ∈ allHeaders s.

(** A data URL with media type [mimeType] and payload [rawData]. *)
Definition dataUrl (mimeType rawData : string) : string :=
  "data:" +:+ mimeType +:+ ";base64," +:+ rawData.

(** The non-empty prefixes of [rows], shortest first. *)
Definition prefixes (rows : list ExtractedData) : list (list ExtractedData) :=
  (fun k => take (S k) rows) <$> seq 0 (length rows).

(** A call is routed from the state a run closed over: the client is
    handed the preview URL of the document at the call's index, and the
    instructions of the run. *)
Definition routedFrom (previews : list Preview) (instructions : string)
    (e : Effect) : Prop :=
  match e with
  | ExtractCall i base64Data instructions' _ =>
      instructions' = instructions
      /\ exists preview, previews !! i = Some preview
                         /\ base64Data = preview_url preview
  | _ => True
  end.

(** ** More concrete states *)

Module Scenario2.

(** [Scenario.ready] after the encoding of the last two documents failed:
    three documents, one preview. *)
Definition onePreview : AppState :=
  Controls.setDocPreviews [Scenario.previewOf Scenario.doc1] Scenario.ready.

(** A sheet with headers and one data row. *)
Definition sheet : list (list Cell) :=
  [[CStr "Name"; CStr " "; CUndefined; CNum 2024]; [CStr "Ann"]].

(** A workbook of records, for the export. *)
Definition records : list ExtractedData := [{[ "A" := VStr "old" ]}].

(** [Scenario.ready] over a spreadsheet whose headers are [A],
    [toString] and [__proto__], all three selected. *)
Definition prototypeNames : AppState :=
  reduce (reduce Scenario.ready (SetAllHeaders ["A"; "toString"; "__proto__"]))
         (SetSelectedHeaders ["A"; "toString"; "__proto__"]).

(** The row [{A: "x", toString: Object.prototype.toString}]. *)
Definition rowToString : ExtractedData :=
  {[ "A" := VStr "x"; "toString" := VBuiltin (Member KObject "toString") ]}.

End Scenario2.

(** * Object literals: reads and assignments *)

(** What [result[h]] reads on a value other than [null]. *)
Lemma get_object (members : gmap string Json) (k : string) :
  Js.get (JObj members) k
  = inr (match members !! k with
         | Some j => Some (VJson j)
         | None => Js.inherited KObject k
         end).
Proof. unfold Js.get. cbn. by destruct (members !! k). Qed.

Lemma get_null (k : string) : Js.get JNull k = inl (Js.nullRead k).
Proof. reflexivity. Qed.

Lemma inherited_proto (kind : Kind) :
  Js.inherited kind "__proto__" = Some (VBuiltin (Prototype kind)).
Proof. reflexivity. Qed.

(** What a read finds on the prototype chain is an object, so truthy. *)
Lemma inherited_truthy (kind : Kind) (k : string) (v : Value) :
  Js.inherited kind k = Some v -> truthy v = true.
Proof.
  unfold Js.inherited.
  destruct (String.eqb k "__proto__"); [by intros [= <-]|].
  destruct (holds kind k); [by intros [= <-]|].
  destruct (holds KObject k); [by intros [= <-] | discriminate].
Qed.

Lemma inherited_None_not_proto (kind : Kind) (k : string) :
  Js.inherited kind k = None -> k <> "__proto__".
Proof. intros H ->. discriminate. Qed.

(** An assignment changes the own properties at its key only, and at a
    key other than [__proto__] it always leaves its value there. *)
Lemma set_own (o o' : Js.Object) (k : string) (v : Value) (h : string) :
  Js.set o k v = inr o' -> h <> "__proto__" ->
  own o' !! h = if decide (h = k) then Some v else own o !! h.
Proof.
  unfold Js.set. intros Hset Hh.
  assert (forall m : gmap string Value,
            <[k := v]> m !! h = if decide (h = k) then Some v else m !! h) as Hins.
  { intros m. destruct (decide (h = k)) as [->|Hne].
    - by rewrite lookup_insert_eq.
    - by rewrite lookup_insert_ne. }
  destruct (own o !! k) eqn:Hown; [injection Hset as <-; apply Hins|].
  destruct (proto o) as [p|]; [|injection Hset as <-; apply Hins].
  destruct (refuses p k); [discriminate|].
  destruct (String.eqb k "__proto__") eqn:Hk; cbn [andb] in Hset.
  - apply String.eqb_eq in Hk as ->.
    rewrite decide_False by done.
    destruct (negb (hidesAccessor p)); injection Hset as <-.
    + by destruct v as [[]|].
    + cbn. by rewrite lookup_insert_ne.
  - injection Hset as <-. apply Hins.
Qed.

(** At the key [__proto__] an assignment leaves what was there, or its
    value when that is the key assigned to. *)
Lemma set_own_proto (o o' : Js.Object) (k : string) (v : Value) :
  Js.set o k v = inr o' ->
  own o' !! "__proto__" = own o !! "__proto__"
  \/ (k = "__proto__" /\ own o' !! "__proto__" = Some v).
Proof.
  unfold Js.set. intros Hset.
  assert (forall m : gmap string Value,
            <[k := v]> m !! "__proto__" = m !! "__proto__"
            \/ (k = "__proto__" /\ <[k := v]> m !! "__proto__" = Some v)) as Hins.
  { intros m. destruct (decide (k = "__proto__")) as [->|Hne].
    - right. by rewrite lookup_insert_eq.
    - left. by rewrite lookup_insert_ne. }
  destruct (own o !! k) eqn:Hown; [injection Hset as <-; apply Hins|].
  destruct (proto o) as [p|]; [|injection Hset as <-; apply Hins].
  destruct (refuses p k); [discriminate|].
  destruct (String.eqb k "__proto__" && negb (hidesAccessor p));
    injection Hset as <-; [|apply Hins].
  left. by destruct v as [[]|].
Qed.

(** With the prototype [{}] starts from, and as long as the value
    assigned to [__proto__] is [Object.prototype] or no object, an
    assignment to [__proto__] creates no property and leaves the
    prototype alone. *)
Lemma set_proto_ignored (o : Js.Object) (v : Value) :
  own o !! "__proto__" = None ->
  proto o = Some (VBuiltin (Prototype KObject)) ->
  match v with
  | VJson (JBool _) | VJson (JNum _) | VJson (JStr _) => True
  | VBuiltin (Prototype KObject) => True
  | _ => False
  end ->
  Js.set o "__proto__" v = inr o.
Proof.
  destruct o as [m p]. unfold Js.set. cbn. intros -> -> Hv.
  by destruct v as [[]|[[]|]].
Qed.

(** An assignment to a key other than [__proto__] of an object that
    inherits from [Object.prototype] creates or overwrites the property. *)
Lemma set_plain (o : Js.Object) (k : string) (v : Value) :
  proto o = Some (VBuiltin (Prototype KObject)) -> k <> "__proto__" ->
  Js.set o k v = inr (mkObject (<[k := v]> (own o)) (proto o)).
Proof.
  unfold Js.set. intros Hp Hk. rewrite Hp. cbn.
  apply String.eqb_neq in Hk as ->. by destruct (own o !! k).
Qed.

(** * Building a row *)

Section RowFacts.

Variable cell : option Value -> Value.
Variable result : Json.

Local Abbreviation forEach := (Orchestrator.forEach cell result).

(** Where the callback never threw, the row holds under every header
    but [__proto__] what the right-hand side made of [result[h]], and
    under any other key but [__proto__] what it held before. *)
Lemma forEach_own (hs : list string) : forall o h,
  snd (forEach hs o) = None -> h <> "__proto__" ->
  own (fst (forEach hs o)) !! h
  = if decide (h ∈ hs)
    then match Js.get result h with
         | inr read => Some (cell read)
         | inl _ => None
         end
    else own o !! h.
Proof.
  induction hs as [|h' rest IH]; intros o h Hok Hh; cbn in *.
  - by rewrite decide_False by apply not_elem_of_nil.
  - destruct (Js.get result h') as [e|read] eqn:Hget; [discriminate|].
    destruct (Js.set o h' (cell read)) as [e|o'] eqn:Hset; [discriminate|].
    rewrite (IH o' h Hok Hh), (set_own _ _ _ _ h Hset Hh).
    destruct (decide (h ∈ rest)) as [Hin|Hnin].
    + rewrite decide_True; [done | by right].
    + destruct (decide (h = h')) as [->|Hne].
      * rewrite decide_True by (by left). by rewrite Hget.
      * rewrite decide_False; [done|].
        intros [?|?]%elem_of_cons; congruence.
Qed.

(** A property [__proto__] of the row was there before, or the header
    list has the name. *)
Lemma forEach_proto_key (hs : list string) : forall o,
  is_Some (own (fst (forEach hs o)) !! "__proto__") ->
  is_Some (own o !! "__proto__") \/ "__proto__" ∈ hs.
Proof.
  induction hs as [|h' rest IH]; intros o Hsome; cbn in *; [by left|].
  destruct (Js.get result h') as [e|read]; [by left|].
  destruct (Js.set o h' (cell read)) as [e|o'] eqn:Hset; [by left|].
  destruct (IH o' Hsome) as [Ho'|Hin]; [|right; by right].
  destruct (set_own_proto _ _ _ _ Hset) as [Heq|[-> _]].
  - left. by rewrite <- Heq.
  - right. by left.
Qed.

Lemma filled_lookup (hs : list string) (h : string) :
  snd (forEach hs emptyObject) = None -> h <> "__proto__" ->
  Orchestrator.filled cell hs result !! h
  = if decide (h ∈ hs)
    then match Js.get result h with
         | inr read => Some (cell read)
         | inl _ => None
         end
    else None.
Proof.
  intros Hok Hh. unfold Orchestrator.filled.
  by rewrite (forEach_own hs emptyObject h Hok Hh).
Qed.

(** No key outside the header list reaches the row. *)
Lemma filled_outside (hs : list string) (h : string) :
  snd (forEach hs emptyObject) = None -> h ∉ hs ->
  Orchestrator.filled cell hs result !! h = None.
Proof.
  intros Hok Hh. destruct (decide (h = "__proto__")) as [->|Hne].
  - destruct (Orchestrator.filled cell hs result !! "__proto__") eqn:E; [|done].
    destruct (forEach_proto_key hs emptyObject) as [[? [=]]|Hin]; [by eexists|done].
  - by rewrite filled_lookup, decide_False.
Qed.

(** What [fullRow] gives when nothing was thrown. *)
Lemma fullRow_inr (hs : list string) (row : ExtractedData) :
  Orchestrator.fullRow cell hs result = inr row <->
  snd (forEach hs emptyObject) = None /\ row = Orchestrator.filled cell hs result.
Proof.
  unfold Orchestrator.fullRow.
  destruct (snd (forEach hs emptyObject)) as [e|]; split.
  - discriminate.
  - by intros [[=] _].
  - by intros [= <-].
  - by intros [_ ->].
Qed.

(** A read on [null] throws at the first header. *)
Lemma fullRow_null (h : string) (hs : list string) :
  result = JNull ->
  Orchestrator.fullRow cell (h :: hs) result = inl (Js.nullRead h).
Proof. by intros ->. Qed.

End RowFacts.

(** The prototype of a row built from an object never refuses an
    assignment. *)
Lemma forEach_object (r : Revision) (members : gmap string Json) (hs : list string) :
  forall o,
  (forall p k, proto o = Some p -> refuses p k = false) ->
  snd (Orchestrator.forEach (cellOf r) (JObj members) hs o) = None.
Proof.
  induction hs as [|h rest IH]; intros o Hsafe; cbn [Orchestrator.forEach]; [done|].
  rewrite get_object.
  set (read := match members !! h with
               | Some j => Some (VJson j)
               | None => Js.inherited KObject h
               end).
  assert (exists o', Js.set o h (cellOf r read) = inr o'
                     /\ forall p k, proto o' = Some p -> refuses p k = false)
    as (o' & -> & Hsafe').
  { assert (forall v p' k,
              (v = VStr EmptyString \/ (exists j, v = VJson j)
               \/ v = VBuiltin (Prototype KObject)) ->
              proto (setPrototype o v) = Some p' -> refuses p' k = false) as Hproto.
    { intros v p' k [->|[[j ->]| ->]]; cbn.
      - intros Hp. by apply Hsafe.
      - destruct j; cbn; intros Hp; try (by apply Hsafe); try discriminate;
          injection Hp as <-; reflexivity.
      - intros [= <-]. reflexivity. }
    assert (cellOf r read = VStr EmptyString \/ (exists j, cellOf r read = VJson j)
            \/ (h = "__proto__" -> cellOf r read = VBuiltin (Prototype KObject)))
      as Hcell.
    { subst read. destruct (members !! h) as [j|].
      - destruct r; cbn [cellOf AppA.cell AppB.cell];
          [right; left; by exists j|].
        destruct (truthy (VJson j)); [right; left; by exists j | by left].
      - right; right. intros ->. by destruct r. }
    unfold Js.set.
    destruct (own o !! h); [eexists; split; [reflexivity | exact Hsafe]|].
    destruct (proto o) as [p|] eqn:Hp;
      [|eexists; split; [reflexivity|]; cbn; by intros p k [=]].
    rewrite (Hsafe p h eq_refl).
    destruct (String.eqb h "__proto__" && negb (hidesAccessor p)) eqn:Hk;
      [|eexists; split; [reflexivity|]; cbn; intros p' k [= <-]; by apply Hsafe].
    apply andb_true_iff in Hk as [Hh%String.eqb_eq _].
    eexists; split; [reflexivity|].
    intros p' k. apply Hproto.
    destruct Hcell as [?|[?|Hc]]; auto. }
  by apply IH.
Qed.

(** So a row is always built from an object. *)
Lemma fullRow_object (r : Revision) (members : gmap string Json) (hs : list string) :
  Orchestrator.fullRow (cellOf r) hs (JObj members)
  = inr (normalize r hs (JObj members)).
Proof.
  apply fullRow_inr. split; [|done].
  apply forEach_object. by intros p k [= <-].
Qed.

(** The row built from an object, header by header. *)
Lemma normalize_object_lookup (r : Revision) (members : gmap string Json)
    (hs : list string) (h : string) :
  h <> "__proto__" ->
  normalize r hs (JObj members) !! h
  = if decide (h ∈ hs)
    then Some (cellOf r (match members !! h with
                         | Some j => Some (VJson j)
                         | None => Js.inherited KObject h
                         end))
    else None.
Proof.
  intros Hh. unfold normalize.
  rewrite filled_lookup, get_object; [done| |done].
  apply forEach_object. by intros p k [= <-].
Qed.

Lemma normalize_object_outside (r : Revision) (members : gmap string Json)
    (hs : list string) (h : string) :
  h ∉ hs -> normalize r hs (JObj members) !! h = None.
Proof.
  intros Hh. apply filled_outside; [|done].
  apply forEach_object. by intros p k [= <-].
Qed.

(** From an object without a key [__proto__] of its own, no property
    [__proto__] is created, whatever the headers. *)
Lemma forEach_proto_kept (r : Revision) (members : gmap string Json)
    (hs : list string) : forall o,
  members !! "__proto__" = None ->
  own o !! "__proto__" = None ->
  proto o = Some (VBuiltin (Prototype KObject)) ->
  own (fst (Orchestrator.forEach (cellOf r) (JObj members) hs o)) !! "__proto__" = None.
Proof.
  intros o Hm. revert o.
  induction hs as [|h rest IH]; intros o Hown Hp; cbn [Orchestrator.forEach]; [done|].
  rewrite get_object.
  destruct (decide (h = "__proto__")) as [->|Hne].
  - rewrite Hm, inherited_proto.
    replace (cellOf r (Some (VBuiltin (Prototype KObject))))
      with (VBuiltin (Prototype KObject)) by (by destruct r).
    rewrite set_proto_ignored by done. by apply IH.
  - rewrite set_plain by done. apply IH; cbn; [|done].
    by rewrite lookup_insert_ne.
Qed.

Lemma normalize_no_proto (r : Revision) (members : gmap string Json)
    (hs : list string) :
  members !! "__proto__" = None ->
  normalize r hs (JObj members) !! "__proto__" = None.
Proof. intros Hm. by apply forEach_proto_kept. Qed.

(** * The properties of a schema *)

Lemma buildProperties_lookup (targetColumns : list string) (col : string) :
  GeminiService.buildProperties targetColumns !! col
  = if bool_decide (col ∈ targetColumns) && negb (String.eqb col "__proto__")
    then Some (propertyFor col) else None.
Proof.
  unfold GeminiService.buildProperties.
  assert (forall acc : gmap string PropertySchema,
            foldl (fun properties c =>
                     if String.eqb c "__proto__" then properties
                     else <[c := mkPropertySchema TypeSTRING
                                   ("Extracted value for " +:+ c)]> properties)
                  acc targetColumns !! col
            = if bool_decide (col ∈ targetColumns) && negb (String.eqb col "__proto__")
              then Some (propertyFor col) else acc !! col) as H.
  { induction targetColumns as [|c cols IH]; intros acc; cbn [foldl].
    - by rewrite bool_decide_eq_false_2 by apply not_elem_of_nil.
    - rewrite IH. destruct (String.eqb col "__proto__") eqn:Hcol.
      + rewrite !andb_false_r. apply String.eqb_eq in Hcol as ->.
        destruct (String.eqb c "__proto__") eqn:Hc; [done|].
        apply String.eqb_neq in Hc. by rewrite lookup_insert_ne.
      + rewrite !andb_true_r.
        destruct (decide (col ∈ cols)) as [Hin|Hnin].
        * rewrite !bool_decide_eq_true_2; [done | by right | done].
        * rewrite (bool_decide_eq_false_2 (col ∈ cols)) by done.
          destruct (decide (col = c)) as [->|Hne].
          -- rewrite bool_decide_eq_true_2 by (by left).
             by rewrite Hcol, lookup_insert_eq.
          -- rewrite bool_decide_eq_false_2
               by (intros [?|?]%elem_of_cons; congruence).
             destruct (String.eqb c "__proto__"); [done|].
             by rewrite lookup_insert_ne. }
  rewrite H, lookup_empty. by destruct (_ && _).
Qed.

(** * The reducer *)

Lemma run_app (s : AppState) (a b : list Effect) :
  run s (a ++ b) = run (run s a) b.
Proof. unfold run. apply foldl_app. Qed.

(** * The extraction loop *)

Section LoopFacts.

Variable GoogleGenAI : nat -> Error + Client.
Variable JSON_parse : string -> option Json.
Variable cell : option Value -> Value.
Variable publish : list ExtractedData -> list Effect.
Variable docPreviews : list Preview.
Variable instructions : string.
Variable selectedHeaders allHeaders : list string.

Local Abbreviation extraction :=
  (Orchestrator.extraction GoogleGenAI JSON_parse instructions selectedHeaders).
Local Abbreviation calls :=
  (Orchestrator.calls GoogleGenAI JSON_parse instructions selectedHeaders).
Local Abbreviation loop :=
  (Orchestrator.extractionLoop GoogleGenAI JSON_parse cell publish
     docPreviews instructions selectedHeaders allHeaders).
Local Abbreviation pushed :=
  (Orchestrator.pushed GoogleGenAI JSON_parse cell instructions selectedHeaders
     allHeaders).
Local Abbreviation extracted :=
  (Orchestrator.extracted GoogleGenAI JSON_parse cell docPreviews instructions
     selectedHeaders allHeaders).
Local Abbreviation thrown :=
  (Orchestrator.thrown GoogleGenAI JSON_parse cell docPreviews instructions
     selectedHeaders allHeaders).
Local Abbreviation row := (Orchestrator.filled cell allHeaders).

Local Abbreviation attempts :=
  (Orchestrator.attempts GoogleGenAI JSON_parse cell docPreviews instructions
     selectedHeaders allHeaders).
Local Abbreviation succeed_from :=
  (Orchestrator.succeed_from GoogleGenAI JSON_parse cell docPreviews instructions
     selectedHeaders allHeaders).

(** An iteration pushes a row exactly when the call returns and the row
    is built. *)
Lemma pushed_inr i p result :
  pushed i p = inr result <->
  extraction i p = inr result
  /\ Orchestrator.fullRow cell allHeaders result = inr (row result).
Proof.
  unfold Orchestrator.pushed.
  destruct (extraction i p) as [e|result'] eqn:He.
  - split; [discriminate | by intros [[=] _]].
  - destruct (Orchestrator.fullRow cell allHeaders result') as [e|built] eqn:Hrow.
    + split; [discriminate|]. intros [[= ->] Hbuilt]. congruence.
    + pose proof Hrow as Hbuilt. apply fullRow_inr in Hbuilt as [_ ->].
      split; [by intros [= <-] | by intros [[= ->] _]].
Qed.

(** A call that throws ends the iteration with what it threw. *)
Lemma pushed_thrown i p e :
  extraction i p = inl e -> pushed i p = inl e.
Proof. unfold Orchestrator.pushed. by intros ->. Qed.

Lemma succeed_from_cons i r rs :
  succeed_from i (r :: rs) ->
  (exists p, docPreviews !! i = Some p /\ pushed i p = inr r)
  /\ succeed_from (S i) rs.
Proof.
  intros H. split.
  - destruct (H 0 r eq_refl) as (p & Hp & He).
    rewrite Nat.add_0_r in Hp, He. eauto.
  - intros j r' Hj. destruct (H (S j) r' Hj) as (p & Hp & He).
    rewrite Nat.add_succ_r in Hp, He. eauto.
Qed.

Lemma run_calls s i p : run s (calls i p) = s.
Proof. unfold Orchestrator.calls. destruct (fst _); reflexivity. Qed.

Lemma attempted_calls i p : Orchestrator.attempted (calls i p) = [i].
Proof. unfold Orchestrator.calls. destruct (fst _); reflexivity. Qed.

Lemma attempted_app (a b : list Effect) :
  Orchestrator.attempted (a ++ b)
  = Orchestrator.attempted a ++ Orchestrator.attempted b.
Proof. unfold Orchestrator.attempted. apply omap_app. Qed.

(** One unfolding of the loop. *)
Lemma loop_step n i results :
  loop (S n) i results
  = match docPreviews !! i with
    | None => ([], inl Orchestrator.undefinedPreview)
    | Some preview =>
        match pushed i preview with
        | inl err => (calls i preview, inl err)
        | inr result =>
            (calls i preview ++ publish (results ++ [row result])
               ++ fst (loop n (S i) (results ++ [row result])),
             snd (loop n (S i) (results ++ [row result])))
        end
    end.
Proof.
  cbn [Orchestrator.extractionLoop]. unfold Orchestrator.pushed.
  destruct (docPreviews !! i) as [p|]; [|done].
  destruct (extraction i p) as [e|result]; [done|].
  destruct (Orchestrator.fullRow cell allHeaders result) as [e|built] eqn:Hrow;
    [done|].
  apply fullRow_inr in Hrow as [_ ->].
  by destruct (Orchestrator.extractionLoop _ _ _ _ _ _ _ _ n (S i) _).
Qed.

(** The outcome of the loop: the first error, or every row. *)
Lemma loop_outcome n : forall i results,
  snd (loop n i results)
  = match thrown n i with
    | Some e => inl e
    | None => inr (results ++ (row <$> extracted n i))
    end.
Proof.
  induction n as [|n IH]; intros i results.
  - simpl. by rewrite app_nil_r.
  - rewrite loop_step. simpl.
    destruct (docPreviews !! i) as [p|]; [|done].
    destruct (pushed i p) as [e|result]; [done|].
    simpl. rewrite IH.
    destruct (thrown n (S i)); [done|].
    simpl. by rewrite <- app_assoc.
Qed.

Lemma extracted_lookup n : forall i j r,
  extracted n i !! j = Some r ->
  exists p, docPreviews !! (i + j) = Some p /\ pushed (i + j) p = inr r.
Proof.
  induction n as [|n IH]; intros i j r; simpl; [done|].
  destruct (docPreviews !! i) as [p|] eqn:Hp; [|done].
  destruct (pushed i p) as [e|result] eqn:He; [done|].
  destruct j as [|j]; simpl.
  - intros [= <-]. rewrite Nat.add_0_r. eauto.
  - intros Hj. rewrite Nat.add_succ_r. apply (IH (S i) j r Hj).
Qed.

Lemma thrown_None_length n : forall i,
  thrown n i = None -> length (extracted n i) = n.
Proof.
  induction n as [|n IH]; intros i; simpl; [done|].
  destruct (docPreviews !! i) as [p|]; [|done].
  destruct (pushed i p) as [e|result]; [done|].
  intros H. simpl. f_equal. by apply IH.
Qed.


(** The extraction after [rs] fails: the rows so far and that error. *)
Lemma first_failure rs : forall n i p e,
  length rs < n ->
  succeed_from i rs ->
  docPreviews !! (i + length rs) = Some p ->
  pushed (i + length rs) p = inl e ->
  extracted n i = rs /\ thrown n i = Some e /\ attempts n i = S (length rs).
Proof.
  induction rs as [|r rs IH]; intros n i p e Hlen H Hp He;
    (destruct n as [|n]; [simpl in Hlen; lia|]); simpl in *.
  - rewrite Nat.add_0_r in Hp, He. by rewrite Hp, He.
  - apply succeed_from_cons in H as [(p' & Hp' & He') Hrest].
    rewrite Hp', He'.
    rewrite Nat.add_succ_r in Hp, He.
    destruct (IH n (S i) p e) as (-> & -> & ->); [lia|done..].
Qed.

(** Whatever one iteration sends is scoped to [selectedHeaders]. *)
Lemma calls_scoped i p : Forall (scopedTo selectedHeaders) (calls i p).
Proof.
  unfold Orchestrator.calls, GeminiService.extractDataFromDocument.
  destruct (GoogleGenAI i) as [e|ai]; cbn [fst]; [repeat constructor|].
  destruct (GeminiService.matchDataUrl (preview_url p)) as [[mimeType rawData]|];
    cbn [fst]; repeat constructor.
  apply buildProperties_lookup.
Qed.

Lemma loop_scoped n : forall i results,
  (forall rows, Forall (scopedTo selectedHeaders) (publish rows)) ->
  Forall (scopedTo selectedHeaders) (fst (loop n i results)).
Proof.
  induction n as [|n IH]; intros i results Hpub; [by constructor|].
  rewrite loop_step.
  destruct (docPreviews !! i) as [p|]; [|by constructor].
  destruct (pushed i p) as [e|result]; cbn [fst].
  - apply calls_scoped.
  - rewrite !Forall_app. auto using calls_scoped.
Qed.

Hypothesis publish_no_call :
  forall results, Orchestrator.attempted (publish results) = [].

(** The loop calls the client for the documents it extracted and for
    the one whose extraction threw, and for no other. *)
Lemma loop_attempted n : forall i results,
  Orchestrator.attempted (fst (loop n i results)) = seq i (attempts n i).
Proof.
  induction n as [|n IH]; intros i results; [done|].
  rewrite loop_step. cbn [Orchestrator.attempts].
  destruct (docPreviews !! i) as [p|] eqn:Hp; [|done].
  destruct (pushed i p) as [e|result] eqn:He; cbn [fst].
  - apply attempted_calls.
  - by rewrite !attempted_app, attempted_calls, publish_no_call, IH.
Qed.

End LoopFacts.

(** * Runs of [processData] *)

Section RunFacts.

Variable GoogleGenAI : nat -> Error + Client.
Variable JSON_parse : string -> option Json.

Local Abbreviation loopOf r s :=
  (Orchestrator.extractionLoop GoogleGenAI JSON_parse (cellOf r)
     (publishOf r)
     (docPreviews s) (instructionsOf r s) (selectedHeaders s) (allHeaders s)).
Local Abbreviation extractedOf r s :=
  (Orchestrator.extracted GoogleGenAI JSON_parse (cellOf r) (docPreviews s)
     (instructionsOf r s) (selectedHeaders s) (allHeaders s)).
Local Abbreviation thrownOf r s :=
  (Orchestrator.thrown GoogleGenAI JSON_parse (cellOf r) (docPreviews s)
     (instructionsOf r s) (selectedHeaders s) (allHeaders s)).
Local Abbreviation attemptsOf r s :=
  (Orchestrator.attempts GoogleGenAI JSON_parse (cellOf r) (docPreviews s)
     (instructionsOf r s) (selectedHeaders s) (allHeaders s)).

(** Revision A publishes the rows after each document. *)
Lemma loop_run_live previews instructions sel all n : forall i results s,
  run s (fst (Orchestrator.extractionLoop GoogleGenAI JSON_parse AppA.cell
                AppA.publish previews instructions sel all n i results))
  = match Orchestrator.extracted GoogleGenAI JSON_parse AppA.cell previews
            instructions sel all n i with
    | [] => s
    | rs => reduce s (SetExtractedRows
                        (results ++ (normalize RevA all <$> rs)))
    end.
Proof.
  induction n as [|n IH]; intros i results s; [done|].
  rewrite loop_step. cbn [Orchestrator.extracted].
  destruct (previews !! i) as [p|]; [|done].
  destruct (Orchestrator.pushed _ _ _ _ _ _ i p) as [e|result]; cbn [fst].
  - apply run_calls.
  - rewrite !run_app, run_calls, IH.
    destruct (Orchestrator.extracted _ _ _ _ _ _ _ n (S i)) as [|r rs]; simpl.
    + done.
    + by rewrite <- app_assoc.
Qed.

(** Revision B publishes nothing inside the loop. *)
Lemma loop_run_silent previews instructions sel all n : forall i results s,
  run s (fst (Orchestrator.extractionLoop GoogleGenAI JSON_parse AppB.cell
                AppB.publish previews instructions sel all n i results))
  = s.
Proof.
  induction n as [|n IH]; intros i results s; [done|].
  rewrite loop_step.
  destruct (previews !! i) as [p|]; [|done].
  destruct (Orchestrator.pushed _ _ _ _ _ _ i p) as [e|result]; cbn [fst].
  - apply run_calls.
  - by rewrite !run_app, run_calls, IH.
Qed.

(** A run that passes the guards: loading, the loop, the closing. *)
Lemma processData_started r s :
  preconditions s ->
  processData r GoogleGenAI JSON_parse s
  = [SetStatus ProcessingStatus.loading; SetError None]
    ++ fst (loopOf r s (length (docFiles s)) 0 [])
    ++ closing r (snd (loopOf r s (length (docFiles s)) 0 [])).
Proof.
  intros (Hd & He & Hs).
  assert ((length (docFiles s) =? 0)%nat = false) as Ed
    by (destruct (docFiles s); done).
  assert (isNull (excelFile s) = false) as Ee
    by (destruct (excelFile s); done).
  assert ((length (selectedHeaders s) =? 0)%nat = false) as Es
    by (destruct (selectedHeaders s); done).
  destruct r; cbn [processData cellOf publishOf instructionsOf];
    unfold AppA.processData, AppB.processData;
    rewrite Ed, Ee, Es; cbn [orb];
    match goal with
    | |- context [Orchestrator.extractionLoop ?a ?b ?c ?d ?e ?f ?g ?h ?n ?i ?l] =>
        destruct (Orchestrator.extractionLoop a b c d e f g h n i l)
          as [effects [err|rows]]
    end; reflexivity.
Qed.

(** A run that fails a guard: one validation message, nothing else. *)
Lemma processData_blocked r s :
  ~ preconditions s ->
  exists msg, msg <> EmptyString
    /\ processData r GoogleGenAI JSON_parse s = [SetError (Some msg)].
Proof.
  intros Hn. unfold preconditions in Hn.
  destruct r; simpl; unfold AppA.processData, AppB.processData;
    destruct (docFiles s) as [|d ds]; simpl; try (eexists; split; [|reflexivity]; done);
    destruct (excelFile s) as [f|]; simpl; try (eexists; split; [|reflexivity]; done);
    destruct (selectedHeaders s) as [|h hs]; simpl; try (eexists; split; [|reflexivity]; done);
    exfalso; apply Hn; done.
Qed.


Lemma preconditions_dec s : preconditions s \/ ~ preconditions s.
Proof.
  unfold preconditions.
  destruct (docFiles s); [right; intros (? & _); done|].
  destruct (excelFile s); [|right; intros (_ & ? & _); done].
  destruct (selectedHeaders s); [right; intros (_ & _ & ?); done|].
  left; done.
Qed.

Lemma publishOf_no_call r results :
  Orchestrator.attempted (publishOf r results) = [].
Proof. by destruct r. Qed.

(** The documents a started run calls the client for. *)
Lemma processData_attempted r s :
  preconditions s ->
  Orchestrator.attempted (processData r GoogleGenAI JSON_parse s)
  = seq 0 (attemptsOf r s (length (docFiles s)) 0).
Proof.
  intros Hpre. rewrite (processData_started r s Hpre).
  rewrite !attempted_app, loop_attempted by apply publishOf_no_call.
  destruct (snd _), r; simpl; by rewrite app_nil_r.
Qed.

(** A started run in which no extraction throws. *)
Lemma run_success r s :
  preconditions s ->
  thrownOf r s (length (docFiles s)) 0 = None ->
  let effects := processData r GoogleGenAI JSON_parse s in
  completed effects
  /\ status (run s effects) = ProcessingStatus.success
  /\ error (run s effects) = None
  /\ extractedRows (run s effects)
      = (normalize r (allHeaders s) <$> extractedOf r s (length (docFiles s)) 0).
Proof.
  intros Hpre Hthrown effects. subst effects.
  pose proof (thrown_None_length _ _ _ _ _ _ _ _ _ Hthrown) as Hlen.
  rewrite (processData_started r s Hpre).
  rewrite loop_outcome, Hthrown. unfold completed.
  destruct r; cbn [closing publishOf cellOf].
  - rewrite !run_app, loop_run_live.
    destruct (Orchestrator.extracted _ _ _ _ _ _ _ _ 0) as [|r0 rs] eqn:E.
    + destruct Hpre as (Hd & _). simpl in Hlen.
      destruct (docFiles s); [done | discriminate].
    + repeat split. by rewrite !app_assoc, last_snoc.
  - rewrite !run_app, loop_run_silent.
    repeat split.
    change [SetExtractedRows ?x; ?y] with ([SetExtractedRows x] ++ [y]).
    by rewrite !app_assoc, last_snoc.
Qed.

(** A started run in which an extraction throws [e]. *)
Lemma run_failure r s e :
  preconditions s ->
  thrownOf r s (length (docFiles s)) 0 = Some e ->
  let effects := processData r GoogleGenAI JSON_parse s in
  effects = [SetStatus ProcessingStatus.loading; SetError None]
            ++ fst (loopOf r s (length (docFiles s)) 0 [])
            ++ closing r (inl e)
  /\ status (run s effects) = ProcessingStatus.error
  /\ (exists msg, msg <> EmptyString /\ error (run s effects) = Some msg
        /\ (message e <> EmptyString -> msg = message e))
  /\ extractedRows (run s effects)
      = match r, extractedOf r s (length (docFiles s)) 0 with
        | RevA, (_ :: _) as rs => normalize RevA (allHeaders s) <$> rs
        | _, _ => extractedRows s
        end.
Proof.
  intros Hpre Hthrown effects. subst effects.
  rewrite (processData_started r s Hpre).
  rewrite loop_outcome, Hthrown. split; [done|].
  assert (forall fallback, fallback <> EmptyString ->
            orElse (message e) fallback <> EmptyString
            /\ (message e <> EmptyString -> orElse (message e) fallback = message e))
    as Hmsg by (intros fb Hfb; unfold orElse; by destruct (message e)).
  destruct r; cbn [closing publishOf cellOf].
  - rewrite !run_app, loop_run_live.
    destruct (Orchestrator.extracted _ _ _ _ _ _ _ _ 0) as [|r0 rs] eqn:E;
      (split; [done|]); (split; [|done]);
      eexists; (split; [|split; [reflexivity|]]); by apply Hmsg.
  - rewrite !run_app, loop_run_silent.
    split; [done|]. split; [|reflexivity].
    eexists; (split; [|split; [reflexivity|]]); by apply Hmsg.
Qed.


(** The first [length rs] documents extract to [rs] and the next one
    throws [e]: what either revision leaves behind. *)
Lemma fail_stop r s rs p e :
  preconditions s ->
  length rs < length (docFiles s) ->
  Orchestrator.succeed_from GoogleGenAI JSON_parse (cellOf r) (docPreviews s)
    (instructionsOf r s) (selectedHeaders s) (allHeaders s) 0 rs ->
  docPreviews s !! length rs = Some p ->
  extractionOf r GoogleGenAI JSON_parse s (length rs) p = inl e ->
  let effects := processData r GoogleGenAI JSON_parse s in
  Orchestrator.attempted effects = seq 0 (S (length rs))
  /\ status (run s effects) = ProcessingStatus.error
  /\ (exists msg, msg <> EmptyString /\ error (run s effects) = Some msg
        /\ (message e <> EmptyString -> msg = message e))
  /\ extractedRows (run s effects)
      = match r, rs with
        | RevA, _ :: _ => normalize RevA (allHeaders s) <$> rs
        | _, _ => extractedRows s
        end.
Proof.
  intros Hpre Hlen Hrs Hp He effects. subst effects.
  apply pushed_thrown with (cell := cellOf r) (allHeaders := allHeaders s) in He.
  destruct (first_failure _ _ _ _ _ _ _ rs (length (docFiles s)) 0 p e Hlen Hrs Hp He)
    as (Hex & Hth & Hat).
  destruct (run_failure r s e Hpre Hth) as (_ & Hst & Hmsg & Hrows).
  rewrite (processData_attempted r s Hpre), Hat.
  rewrite Hrows. repeat (split; [done|]).
  destruct r; [rewrite Hex; by destruct rs | done].
Qed.

End RunFacts.

(** * What the orchestrator guarantees *)

Section OrchestratorClaims.

Variable GoogleGenAI : nat -> Error + Client.
Variable JSON_parse : string -> option Json.

(** The first iteration of a started run makes its calls. *)
Lemma first_calls (r : Revision) (s : AppState) (p : Preview) :
  preconditions s -> docPreviews s !! 0 = Some p ->
  forall e,
    e ∈ Orchestrator.calls GoogleGenAI JSON_parse (instructionsOf r s)
          (selectedHeaders s) 0 p ->
    e ∈ processData r GoogleGenAI JSON_parse s.
Proof.
  intros Hpre Hp e He. rewrite (processData_started _ _ r s Hpre).
  apply elem_of_app; right. apply elem_of_app; left.
  destruct Hpre as (Hd & _).
  destruct (length (docFiles s)) as [|n] eqn:Hn;
    [by destruct (docFiles s)|].
  rewrite loop_step, Hp.
  destruct (Orchestrator.pushed _ _ _ _ _ _ 0 p); cbn [fst]; [done|].
  apply elem_of_app; by left.
Qed.

(** Where the callback never threw, every header was read. *)
Lemma forEach_reads (cell : option Value -> Value) (result : Json)
    (hs : list string) : forall o h,
  snd (Orchestrator.forEach cell result hs o) = None -> h ∈ hs ->
  exists read, Js.get result h = inr read.
Proof.
  induction hs as [|h' rest IH]; intros o h Hok Hin;
    [by apply elem_of_nil in Hin|].
  cbn [Orchestrator.forEach] in Hok.
  destruct (Js.get result h') as [e|read] eqn:Hget; [discriminate|].
  destruct (Js.set o h' (cell read)) as [e|o']; [discriminate|].
  apply elem_of_cons in Hin as [->|Hin]; [eauto|]. by apply (IH o').
Qed.

(** X28 (row width, where it holds).  After a completed run of either
    revision, every row of the result sequence has an entry for each
    header of the Header Set other than [__proto__] and for no key
    outside the Header Set, whatever columns were selected.  The row is
    the one the revision builds from the result of the document at its
    index, and a header for which [result[h]] reads [undefined] maps to
    the empty string: for a result object, every header that is neither
    a key of the object nor the name of a member of [Object.prototype]. *)
Theorem row_width_invariant (r : Revision) (s : AppState) :
  let effects := processData r GoogleGenAI JSON_parse s in
  completed effects ->
  forall i row, extractedRows (run s effects) !! i = Some row ->
    (forall h, h <> "__proto__" -> h ∈ dom row <-> h ∈ allHeaders s)
    /\ ("__proto__" ∈ dom row -> "__proto__" ∈ allHeaders s)
    /\ exists p result,
         docPreviews s !! i = Some p
         /\ extractionOf r GoogleGenAI JSON_parse s i p = inr result
         /\ row = normalize r (allHeaders s) result
         /\ (forall h, h ∈ allHeaders s -> h <> "__proto__" ->
               Js.get result h = inr None -> row !! h = Some (VStr EmptyString))
         /\ (forall members h, result = JObj members -> h ∈ allHeaders s ->
               members !! h = None -> Js.inherited KObject h = None ->
               row !! h = Some (VStr EmptyString)).
Proof.
  intros effects Hdone i row Hrow. subst effects.
  destruct (preconditions_dec s) as [Hpre|Hpre].
  - destruct (Orchestrator.thrown GoogleGenAI JSON_parse (cellOf r) (docPreviews s)
                (instructionsOf r s) (selectedHeaders s) (allHeaders s)
                (length (docFiles s)) 0) as [e|] eqn:Hth.
    + exfalso. destruct (run_failure _ _ r s e Hpre Hth) as (Heff & _).
      unfold completed in Hdone. rewrite Heff in Hdone.
      change (closing r (inl e)) with
        ([SetError (Some (orElse (message e)
            match r with
            | RevA => "An unexpected error occurred during AI processing."
            | RevB => "An error occurred during processing."
            end))] ++ [SetStatus ProcessingStatus.error]) in Hdone.
      rewrite !app_assoc, last_snoc in Hdone. discriminate.
    + destruct (run_success _ _ r s Hpre Hth) as (_ & _ & _ & Hrows).
      rewrite Hrows, list_lookup_fmap in Hrow.
      destruct (Orchestrator.extracted _ _ _ _ _ _ _ _ 0 !! i) as [result|] eqn:Hres;
        [|discriminate].
      injection Hrow as <-.
      apply extracted_lookup in Hres as (p & Hp & Hpushed).
      apply pushed_inr in Hpushed as [He Hbuilt].
      apply fullRow_inr in Hbuilt as [Hok _].
      assert (forall h, h ∈ allHeaders s -> h <> "__proto__" ->
                exists read, Js.get result h = inr read
                  /\ normalize r (allHeaders s) result !! h = Some (cellOf r read))
        as Hcells.
      { intros h Hin Hne.
        destruct (forEach_reads _ _ _ _ h Hok Hin) as [read Hread].
        exists read. split; [done|]. unfold normalize.
        by rewrite filled_lookup, decide_True, Hread. }
      split; [|split].
      * intros h Hne. rewrite elem_of_dom. split.
        -- intros Hsome. destruct (decide (h ∈ allHeaders s)) as [|Hnin]; [done|].
           unfold normalize in Hsome.
           rewrite filled_outside in Hsome by done. by destruct Hsome.
        -- intros Hin. destruct (Hcells h Hin Hne) as (read & _ & ->). by eexists.
      * rewrite elem_of_dom. intros Hsome.
        destruct (decide ("__proto__" ∈ allHeaders s)) as [|Hnin]; [done|].
        unfold normalize in Hsome.
        rewrite filled_outside in Hsome by done. by destruct Hsome.
      * exists p, result. repeat split; [done..| |].
        -- intros h Hin Hne Hread.
           destruct (Hcells h Hin Hne) as (read & Hread' & ->).
           rewrite Hread in Hread'. injection Hread' as <-. by destruct r.
        -- intros members h -> Hin Hm Hinh.
           destruct (Hcells h Hin (inherited_None_not_proto _ _ Hinh))
             as (read & Hread & ->).
           rewrite get_object, Hm, Hinh in Hread. injection Hread as <-.
           by destruct r.
  - exfalso. destruct (processData_blocked GoogleGenAI JSON_parse r s Hpre)
      as (msg & _ & Heff).
    unfold completed in Hdone. rewrite Heff in Hdone. discriminate.
Qed.



(** X29 (field scoping, where it holds).  In every run of either
    revision, each call of the Extraction Client is handed exactly the
    Selected Columns, so never the Header Set when the two differ, and
    the schema of each request it sends requires exactly those columns
    and has a string property for each of them but [__proto__], and for
    no other name.  A started run does call the client for its first
    document, and sends a request for it when the client can be
    constructed and the preview is a data URL. *)
Theorem field_scoping (r : Revision) (s : AppState) :
  let effects := processData r GoogleGenAI JSON_parse s in
  Forall (scopedTo (selectedHeaders s)) effects
  /\ (selectedHeaders s <> allHeaders s ->
        forall i base64Data instructions,
          ExtractCall i base64Data instructions (allHeaders s) ∉ effects)
  /\ (preconditions s ->
        forall p, docPreviews s !! 0 = Some p ->
          ExtractCall 0 (preview_url p) (instructionsOf r s) (selectedHeaders s)
            ∈ effects
          /\ forall ai mimeType rawData,
               GoogleGenAI 0 = inr ai ->
               GeminiService.matchDataUrl (preview_url p) = Some (mimeType, rawData) ->
               exists request,
                 GenerateContent 0 request ∈ effects
                 /\ inlineData_mimeType request = mimeType
                 /\ inlineData_data request = rawData
                 /\ responseSchema_required request = selectedHeaders s
                 /\ forall col,
                      responseSchema_properties request !! col
                      = if bool_decide (col ∈ selectedHeaders s)
                           && negb (String.eqb col "__proto__")
                        then Some (propertyFor col) else None).
Proof.
  intros effects. subst effects.
  assert (Forall (scopedTo (selectedHeaders s))
                 (processData r GoogleGenAI JSON_parse s)) as Hscoped.
  { destruct (preconditions_dec s) as [Hpre|Hpre].
    - rewrite (processData_started _ _ r s Hpre), !Forall_app.
      split; [repeat constructor|]. split.
      + apply loop_scoped. intros rows. destruct r; repeat constructor.
      + destruct (snd _), r; repeat constructor.
    - destruct (processData_blocked GoogleGenAI JSON_parse r s Hpre)
        as (msg & _ & ->).
      repeat constructor. }
  split; [done|]. split.
  - intros Hne i base64Data instructions Hin.
    rewrite Forall_forall in Hscoped. apply Hscoped in Hin. cbn in Hin. congruence.
  - intros Hpre p Hp. split.
    + apply (first_calls r s p Hpre Hp). by left.
    + intros ai mimeType rawData Hai Hurl.
      exists (GeminiService.buildRequest mimeType rawData (instructionsOf r s)
                (selectedHeaders s)).
      split; [|repeat split; apply buildProperties_lookup].
      apply (first_calls r s p Hpre Hp). right.
      unfold GeminiService.extractDataFromDocument. rewrite Hai, Hurl. by left.
Qed.

(** C5 (preconditions fail closed).  A run of either revision enters
    [loading] exactly when a document is present, a spreadsheet is
    uploaded and a column is selected; when one of the three is missing
    the handler only sets a validation message: it calls nothing, and
    the status and the result sequence stay as they were. *)
Theorem preconditions_fail_closed (r : Revision) (s : AppState) :
  let effects := processData r GoogleGenAI JSON_parse s in
  (SetStatus ProcessingStatus.loading ∈ effects <-> preconditions s)
  /\ (docFiles s = [] \/ excelFile s = None \/ selectedHeaders s = [] ->
       exists msg, msg <> EmptyString
         /\ effects = [SetError (Some msg)]
         /\ error (run s effects) = Some msg
         /\ status (run s effects) = status s
         /\ extractedRows (run s effects) = extractedRows s).
Proof.
  intros effects. subst effects. split.
  - split.
    + intros Hin. destruct (preconditions_dec s) as [Hpre|Hpre]; [done|].
      destruct (processData_blocked GoogleGenAI JSON_parse r s Hpre)
        as (msg & _ & Heff).
      rewrite Heff in Hin. apply list_elem_of_singleton in Hin. discriminate.
    + intros Hpre. rewrite (processData_started _ _ r s Hpre). by left.
  - intros Hmiss.
    assert (~ preconditions s) as Hpre
      by (intros (? & ? & ?); destruct Hmiss as [?|[?|?]]; done).
    destruct (processData_blocked GoogleGenAI JSON_parse r s Hpre)
      as (msg & Hmsg & ->).
    exists msg. done.
Qed.

End OrchestratorClaims.

(** * Ingestion *)

Section Ingestion.

Variable fileToBase64 : File -> Error + string.

(** C9 (ingestion validation asymmetry).  A selection with at least one
    file and no file whose media type contains "image" or "pdf" is
    rejected by either revision: one validation message, no document and
    no preview added.  A selection with at least one such file appends
    exactly those files, in order, to the document list, and no effect
    of the handler sets a message. *)
Theorem ingestion_validation (r : Revision) (s : AppState) (files : list File) :
  let validFiles := List.filter isValidFile files in
  let effects := handleDocumentChange r fileToBase64 (Some files) in
  (files <> [] -> validFiles = [] ->
     exists msg, msg <> EmptyString
       /\ effects = [SetError (Some msg)]
       /\ error (run s effects) = Some msg
       /\ docFiles (run s effects) = docFiles s
       /\ docPreviews (run s effects) = docPreviews s)
  /\ (validFiles <> [] ->
        docFiles (run s effects) = docFiles s ++ validFiles
        /\ Forall (fun e => forall msg, e <> SetError (Some msg)) effects).
Proof.
  intros validFiles effects. subst validFiles effects. split.
  - intros Hfiles Hvalid.
    destruct r; cbn [handleDocumentChange];
      unfold AppA.handleDocumentChange, AppB.handleDocumentChange;
      rewrite Hvalid; (destruct files as [|f files]; [done|]);
      eexists; (split; [|repeat split]); done.
  - intros Hvalid.
    destruct r; cbn [handleDocumentChange];
      unfold AppA.handleDocumentChange, AppB.handleDocumentChange;
      (destruct (List.filter isValidFile files) as [|v vs] eqn:E; [done|]);
      cbn [length Nat.eqb andb];
      (destruct (mapM _ (v :: vs)) as [previews|]);
      (split; [reflexivity | repeat constructor; intros msg; discriminate]).
Qed.

End Ingestion.

(** * Normalisation *)

(** C10, as amended.  For a result object and a header list without the
    name [__proto__], the two normalisations build the same row exactly
    when every value the object holds under a header is truthy or the
    empty string; on [0], on [false] and on [null] they differ. *)
Theorem normalizations_agree_iff (headers : list string)
    (result : gmap string Json) :
  "__proto__" ∉ headers ->
  normalize RevA headers (JObj result) = normalize RevB headers (JObj result)
  <-> forall h v, h ∈ headers -> result !! h = Some v ->
        truthy (VJson v) = true \/ v = JStr EmptyString.
Proof.
  intros Hproto. split.
  - intros Heq h v Hin Hv.
    assert (h <> "__proto__") as Hne by (by intros ->).
    apply (f_equal (fun m => m !! h)) in Heq.
    rewrite !normalize_object_lookup, !decide_True, Hv in Heq by done.
    cbn [cellOf AppA.cell AppB.cell] in Heq.
    destruct (truthy (VJson v)); [by left | right; congruence].
  - intros H. apply map_eq; intros h.
    destruct (decide (h ∈ headers)) as [Hin|Hnin];
      [|by rewrite !normalize_object_outside].
    assert (h <> "__proto__") as Hne by (by intros ->).
    rewrite !normalize_object_lookup, !decide_True by done.
    f_equal.
    destruct (result !! h) as [v|] eqn:Hv; cbn [cellOf AppA.cell AppB.cell].
    + destruct (H h v Hin Hv) as [Ht| ->]; [by rewrite Ht | done].
    + destruct (Js.inherited KObject h) as [member|] eqn:Hinh; [|done].
      cbn. by rewrite (inherited_truthy _ _ _ Hinh).
Qed.

(** C10 as stated fails: an extracted [0] is kept by the first
    normalisation and replaced by the empty string by the second, so the
    two rows differ. *)
Lemma normalizations_differ_on_zero :
  let result : Json := JObj {[ "A" := JNum 0 ]} in
  normalize RevA ["A"] result = {[ "A" := VNum 0 ]}
  /\ normalize RevB ["A"] result = {[ "A" := VStr EmptyString ]}
  /\ bool_decide (normalize RevA ["A"] result = normalize RevB ["A"] result) = false.
Proof. vm_compute. repeat split. Qed.

Lemma normalizations_differ_on_false :
  normalize RevA ["A"] (JObj {[ "A" := JBool false ]}) !! "A" = Some (VBool false)
  /\ normalize RevB ["A"] (JObj {[ "A" := JBool false ]}) !! "A"
     = Some (VStr EmptyString).
Proof. split; vm_compute; reflexivity. Qed.

(** Under the header [__proto__] both revisions assign through the
    setter of [Object.prototype], which ignores [0] and the empty string
    alike: the two rows are the same empty row. *)
Lemma normalizations_agree_on_proto_zero :
  let result : Json := JObj {[ "__proto__" := JNum 0 ]} in
  normalize RevA ["__proto__"] result = ∅
  /\ normalize RevB ["__proto__"] result = ∅.
Proof. vm_compute. repeat split. Qed.

(** * The file handlers *)

Section FileHandlerFacts.

Variable Worksheet : Type.
Variable XLSX_read : File -> Error + Workbook Worksheet.
Variable sheet_to_rows : option Worksheet -> list (list Cell).
Variable sheet_to_json : option Worksheet -> list ExtractedData.
Variable json_to_sheet : list ExtractedData -> Worksheet.

Lemma keepHeader_nonblank (c : Cell) :
  FileHandlersPart1.keepHeader c = true ->
  c <> CUndefined /\ c <> CNull /\ trim (ToString c) <> EmptyString.
Proof.
  destruct c; simpl; try discriminate;
    intros H; repeat split; try discriminate;
    intros Hblank; rewrite Hblank in H; discriminate.
Qed.

(** Both revisions of [parseExcelHeaders] resolve the empty list on a
    sheet with no rows, and on a first row that holds no cell. *)
Lemma parseExcelHeaders_no_cells file workbook :
  XLSX_read file = inr workbook ->
  sheet_to_rows (firstSheet workbook) = []
  \/ head (sheet_to_rows (firstSheet workbook)) = Some [] ->
  FileHandlersUtils.parseExcelHeaders Worksheet XLSX_read sheet_to_rows file = inr []
  /\ FileHandlersPart1.parseExcelHeaders Worksheet XLSX_read sheet_to_rows file
     = inr [].
Proof.
  intros Hread Hrows.
  unfold FileHandlersUtils.parseExcelHeaders, FileHandlersPart1.parseExcelHeaders.
  rewrite Hread.
  destruct (sheet_to_rows (firstSheet workbook)) as [|row0 rest]; [done|].
  destruct Hrows as [?|[= ->]]; done.
Qed.

(** The second revision of [parseExcelHeaders] on a sheet with a first
    row: the cells that are neither [undefined], [null] nor blank after
    trimming, as strings and in order. *)
Lemma parseExcelHeaders_filtered file workbook row0 rest :
  XLSX_read file = inr workbook ->
  sheet_to_rows (firstSheet workbook) = row0 :: rest ->
  exists headers,
    FileHandlersPart1.parseExcelHeaders Worksheet XLSX_read sheet_to_rows file
    = inr headers
    /\ headers = List.map ToString (List.filter FileHandlersPart1.keepHeader row0)
    /\ Forall (fun h => trim h <> EmptyString) headers.
Proof.
  intros Hread Hrows. eexists. unfold FileHandlersPart1.parseExcelHeaders.
  rewrite Hread, Hrows. split; [reflexivity|]. split; [reflexivity|].
  apply Forall_forall. intros h Hin.
  apply list_elem_of_In, in_map_iff in Hin as (c & <- & Hc).
  apply filter_In in Hc as [_ Hkeep].
  by apply keepHeader_nonblank in Hkeep as (_ & _ & ?).
Qed.

(** The second revision on a sheet with no rows or a blank first row. *)
Lemma parseExcelHeaders_blank file workbook :
  XLSX_read file = inr workbook ->
  match sheet_to_rows (firstSheet workbook) with
  | [] => True
  | row0 :: _ => Forall (fun c => FileHandlersPart1.keepHeader c = false) row0
  end ->
  FileHandlersPart1.parseExcelHeaders Worksheet XLSX_read sheet_to_rows file
  = inr [].
Proof.
  intros Hread Hblank. unfold FileHandlersPart1.parseExcelHeaders.
  rewrite Hread. destruct (sheet_to_rows _) as [|row0 rest]; [done|].
  f_equal. induction Hblank as [|c row Hc _ IH]; [done|].
  simpl. rewrite Hc. apply IH.
Qed.

(** Revision A of [handleExcelChange] on an empty header list: the
    upload is rejected with a message and the spreadsheet state is
    reset. *)
Lemma handleExcelChange_rejects_empty parse s file others :
  parse file = inr [] ->
  let effects := AppA.handleExcelChange parse (Some (file :: others)) in
  (exists msg, msg <> EmptyString /\ error (run s effects) = Some msg)
  /\ excelFile (run s effects) = None
  /\ allHeaders (run s effects) = []
  /\ selectedHeaders (run s effects) = []
  /\ status (run s effects) = status s.
Proof.
  intros Hparse effects. subst effects.
  unfold AppA.handleExcelChange. rewrite Hparse. cbn.
  split; [|done]. eexists. split; [|reflexivity]. done.
Qed.

(** C7 (merge).  When the original file reads as a workbook, either
    revision writes one file: the workbook with its first sheet replaced
    by the sheet made from the original data rows followed by [newData],
    in this order, and its other sheets untouched.  With no new row the
    sheet is made from the original data rows alone.  Where reading a
    sheet made from records gives the records back, the data rows of
    the written sheet are the original ones followed by [newData]. *)
Theorem merge_appends_rows (r : HandlersRevision) (originalFile : File)
    (workbook : Workbook Worksheet) (newData : list ExtractedData) :
  XLSX_read originalFile = inr workbook ->
  exists written filename,
    appendAndDownloadExcel r XLSX_read sheet_to_json json_to_sheet
      originalFile newData = [WriteFile written filename]
    /\ SheetNames written = SheetNames workbook
    /\ (forall name, name <> firstSheetName workbook ->
          Sheets written !! name = Sheets workbook !! name)
    /\ firstSheet written
       = Some (json_to_sheet (sheet_to_json (firstSheet workbook) ++ newData))
    /\ (newData = [] ->
          firstSheet written
          = Some (json_to_sheet (sheet_to_json (firstSheet workbook))))
    /\ ((forall records, sheet_to_json (Some (json_to_sheet records)) = records) ->
          sheet_to_json (firstSheet written)
          = sheet_to_json (firstSheet workbook) ++ newData
          /\ (newData = [] ->
                sheet_to_json (firstSheet written)
                = sheet_to_json (firstSheet workbook))).
Proof.
  intros Hread.
  assert (forall written : Workbook Worksheet,
            written = setFirstSheet workbook
                        (combinedSheet sheet_to_json json_to_sheet workbook newData) ->
            firstSheet written
            = Some (json_to_sheet (sheet_to_json (firstSheet workbook) ++ newData)))
    as Hfirst.
  { intros written ->. unfold firstSheet at 1, firstSheetName, setFirstSheet.
    cbn [SheetNames Sheets]. by rewrite lookup_insert_eq. }
  destruct r; cbn [appendAndDownloadExcel];
    unfold FileHandlersUtils.appendAndDownloadExcel,
           FileHandlersPart1.appendAndDownloadExcel;
    rewrite Hread; do 2 eexists; (split; [reflexivity|]);
    (split; [reflexivity|]);
    (split; [intros name Hne; cbn [setFirstSheet Sheets];
             by rewrite lookup_insert_ne|]);
    rewrite (Hfirst _ eq_refl);
    (split; [reflexivity|]);
    (split; [by intros ->; rewrite app_nil_r|]);
    intros Hround; rewrite Hround;
    (split; [reflexivity | by intros ->; rewrite app_nil_r]).
Qed.

End FileHandlerFacts.

(** * The two revisions on the specification's examples *)

(** C1 (fail-stop with partial preservation), on revision B.  Three
    documents, the extraction of the second one fails: the client is
    called for the first two documents only, the status is [error] and the
    message is surfaced, but the row of the first document, which was
    extracted, is not in the result sequence: it is empty. *)
Theorem fail_stop_revB_loses_rows :
  let effects :=
    processData RevB Scenario.secondFails Scenario.JSON_parse Scenario.ready in
  extractionOf RevB Scenario.secondFails Scenario.JSON_parse Scenario.ready
    0 (Scenario.previewOf Scenario.doc1) = inr (JObj {[ "A" := JStr "x" ]})
  /\ extractionOf RevB Scenario.secondFails Scenario.JSON_parse Scenario.ready
       1 (Scenario.previewOf Scenario.doc2) = inl (mkError "503 Service Unavailable")
  /\ Orchestrator.attempted effects = [0; 1]
  /\ status (run Scenario.ready effects) = ProcessingStatus.error
  /\ error (run Scenario.ready effects) = Some "503 Service Unavailable"
  /\ extractedRows (run Scenario.ready effects) = [].
Proof. vm_compute. repeat split. Qed.

(** The same run on revision A keeps the row of the first document. *)
Lemma fail_stop_revA_keeps_rows :
  let effects :=
    processData RevA Scenario.secondFails Scenario.JSON_parse Scenario.ready in
  Orchestrator.attempted effects = [0; 1]
  /\ status (run Scenario.ready effects) = ProcessingStatus.error
  /\ error (run Scenario.ready effects) = Some "503 Service Unavailable"
  /\ extractedRows (run Scenario.ready effects) = [Scenario.rowX].
Proof. vm_compute. repeat split. Qed.

(** Revision A run again after a success, the first extraction failing:
    the three rows of the earlier run stay in the result sequence. *)
Lemma first_failure_keeps_earlier_rows :
  let earlier :=
    run Scenario.ready
      (processData RevA Scenario.alwaysAnswers Scenario.JSON_parse Scenario.ready) in
  let effects :=
    processData RevA Scenario.firstFails Scenario.JSON_parse earlier in
  status earlier = ProcessingStatus.success
  /\ Orchestrator.attempted effects = [0]
  /\ status (run earlier effects) = ProcessingStatus.error
  /\ extractedRows (run earlier effects)
     = [Scenario.rowX; Scenario.rowX; Scenario.rowX].
Proof. vm_compute. repeat split. Qed.

(** C6 (header filtering), on utils/fileHandlers.ts.  A first row with a
    blank cell, a hole and a number is returned as it is: the blank and
    the hole are not removed and the number is not made a string. *)
Theorem parseExcelHeaders_utils_keeps_blanks :
  let row0 := [CStr "Name"; CStr " "; CUndefined; CNum 2024] in
  FileHandlersUtils.parseExcelHeaders (list (list Cell))
    (Scenario.readAs [row0; [CStr "Ann"]]) Scenario.rowsOf Scenario.template
  = inr row0.
Proof. reflexivity. Qed.

(** The second revision on the same sheet. *)
Lemma parseExcelHeaders_part1_filters :
  let row0 := [CStr "Name"; CStr " "; CUndefined; CNum 2024] in
  FileHandlersPart1.parseExcelHeaders (list (list Cell))
    (Scenario.readAs [row0; [CStr "Ann"]]) Scenario.rowsOf Scenario.template
  = inr ["Name"; "2024"].
Proof. vm_compute. reflexivity. Qed.

(** C8 (empty-header boundary), on utils/fileHandlers.ts with revision A
    of [handleExcelChange].  A first row of two blank cells is resolved as
    two headers, and the handler, handed these two strings, accepts the
    spreadsheet: no message, the file kept, two blank headers selected. *)
Theorem blank_first_row_accepted :
  let blank := [" "; "   "] in
  let effects :=
    AppA.handleExcelChange (fun _ => inr blank) (Some [Scenario.template]) in
  FileHandlersUtils.parseExcelHeaders (list (list Cell))
    (Scenario.readAs [CStr <$> blank]) Scenario.rowsOf Scenario.template
  = inr (CStr <$> blank)
  /\ error (run AppA.initial effects) = None
  /\ excelFile (run AppA.initial effects) = Some Scenario.template
  /\ allHeaders (run AppA.initial effects) = blank
  /\ selectedHeaders (run AppA.initial effects) = blank.
Proof. vm_compute. repeat split. Qed.

(** With the second revision of the parser the same sheet is rejected. *)
Lemma blank_first_row_rejected :
  let blank := [" "; "   "] in
  let parse :=
    FileHandlersPart1.parseExcelHeaders (list (list Cell))
      (Scenario.readAs [CStr <$> blank]) Scenario.rowsOf in
  let effects := AppA.handleExcelChange parse (Some [Scenario.template]) in
  parse Scenario.template = inr []
  /\ error (run AppA.initial effects)
     = Some "The selected Excel file appears to be empty or missing headers."
  /\ excelFile (run AppA.initial effects) = None
  /\ allHeaders (run AppA.initial effects) = []
  /\ selectedHeaders (run AppA.initial effects) = [].
Proof. vm_compute. repeat split. Qed.

(** Revision B of [handleExcelChange] has no check for an empty header
    list: the spreadsheet is kept and no message is set. *)
Lemma handleExcelChange_revB_keeps_empty :
  let effects :=
    AppB.handleExcelChange (fun _ => inr []) (Some [Scenario.template]) in
  error (run AppB.initial effects) = None
  /\ excelFile (run AppB.initial effects) = Some Scenario.template
  /\ allHeaders (run AppB.initial effects) = [].
Proof. vm_compute. repeat split. Qed.

(** C4 on the example of the specification: headers [A, B, C], column [A]
    selected; the three requests require [A] alone. *)
Lemma field_scoping_example :
  omap (fun e => match e with
                 | GenerateContent _ request => Some (responseSchema_required request)
                 | _ => None
                 end)
       (processData RevA Scenario.alwaysAnswers Scenario.JSON_parse Scenario.ready)
  = [["A"]; ["A"]; ["A"]].
Proof. vm_compute. reflexivity. Qed.

(** C2 (row-width invariant), on headers that name members of
    [Object.prototype].  With the headers [A], [toString] and
    [__proto__] and the answer [{"A":"x"}], the run completes and its
    rows have two entries for three headers: none for [__proto__], and
    under [toString], which the result lacks, not the empty string but
    the inherited function. *)
Theorem row_width_fails_on_prototype_names :
  let s := Scenario2.prototypeNames in
  let effects := processData RevA Scenario.alwaysAnswers Scenario.JSON_parse s in
  allHeaders s = ["A"; "toString"; "__proto__"]
  /\ last effects = Some (SetStatus ProcessingStatus.success)
  /\ extractionOf RevA Scenario.alwaysAnswers Scenario.JSON_parse s
       0 (Scenario.previewOf Scenario.doc1) = inr (JObj {[ "A" := JStr "x" ]})
  /\ extractedRows (run s effects)
     = [Scenario2.rowToString; Scenario2.rowToString; Scenario2.rowToString]
  /\ Scenario2.rowToString !! "__proto__" = None
  /\ Scenario2.rowToString !! "toString"
     = Some (VBuiltin (Member KObject "toString")).
Proof. vm_compute. repeat split. Qed.

(** Revision B builds the same rows there. *)
Lemma row_width_fails_on_prototype_names_revB :
  let s := Scenario2.prototypeNames in
  extractedRows
    (run s (processData RevB Scenario.alwaysAnswers Scenario.JSON_parse s))
  = [Scenario2.rowToString; Scenario2.rowToString; Scenario2.rowToString].
Proof. vm_compute. reflexivity. Qed.


(** Revision B ends in [error] there too, with no row. *)
Lemma null_answer_ends_in_error_revB :
  let s := Scenario.ready in
  let effects := processData RevB Scenario.secondIsNull Scenario.JSON_parse s in
  status (run s effects) = ProcessingStatus.error
  /\ extractedRows (run s effects) = []
  /\ Orchestrator.attempted effects = [0; 1].
Proof. vm_compute. repeat split. Qed.

(** C4 (field scoping), on a selected column [__proto__].  The client
    is handed the three selected columns and the schema of its request
    requires the three of them, but has a property for two only: none
    for [__proto__]. *)
Theorem schema_without_proto_property :
  let s := Scenario2.prototypeNames in
  let effects := processData RevA Scenario.alwaysAnswers Scenario.JSON_parse s in
  selectedHeaders s = ["A"; "toString"; "__proto__"]
  /\ omap (fun e => match e with
                    | ExtractCall 0 _ _ targetColumns => Some targetColumns
                    | _ => None
                    end) effects
     = [["A"; "toString"; "__proto__"]]
  /\ omap (fun e => match e with
                    | GenerateContent 0 request =>
                        Some (responseSchema_required request,
                              responseSchema_properties request)
                    | _ => None
                    end) effects
     = [(["A"; "toString"; "__proto__"],
         {[ "A" := propertyFor "A"; "toString" := propertyFor "toString" ]})].
Proof. vm_compute. repeat split. Qed.

(** Without an API key the constructor of the client throws: the run
    ends in [error] at the first document, no request is sent and no
    row is made. *)
Lemma no_api_key_run :
  let s := Scenario.ready in
  let effects := processData RevA Scenario.noApiKey Scenario.JSON_parse s in
  Orchestrator.attempted effects = [0]
  /\ requested effects = []
  /\ status (run s effects) = ProcessingStatus.error
  /\ error (run s effects)
     = Some "An API Key must be set when running in a browser"
  /\ extractedRows (run s effects) = [].
Proof. vm_compute. repeat split. Qed.

(** * Instances of the theorems *)

Lemma row_width_invariant_witness :
  let s := Scenario.ready in
  (forall h, h <> "__proto__" -> h ∈ dom Scenario.rowX <-> h ∈ allHeaders s)
  /\ ("__proto__" ∈ dom Scenario.rowX -> "__proto__" ∈ allHeaders s)
  /\ exists p result,
       docPreviews s !! 0 = Some p
       /\ extractionOf RevA Scenario.alwaysAnswers Scenario.JSON_parse s 0 p
          = inr result
       /\ Scenario.rowX = normalize RevA (allHeaders s) result
       /\ (forall h, h ∈ allHeaders s -> h <> "__proto__" ->
             Js.get result h = inr None ->
             Scenario.rowX !! h = Some (VStr EmptyString))
       /\ (forall members h, result = JObj members -> h ∈ allHeaders s ->
             members !! h = None -> Js.inherited KObject h = None ->
             Scenario.rowX !! h = Some (VStr EmptyString)).
Proof.
  apply (row_width_invariant Scenario.alwaysAnswers Scenario.JSON_parse
           RevA Scenario.ready).
  - vm_compute. reflexivity.
  - vm_compute. reflexivity.
Defined.


Lemma field_scoping_witness :
  let s := Scenario.ready in
  let effects := processData RevA Scenario.alwaysAnswers Scenario.JSON_parse s in
  Forall (scopedTo ["A"]) effects
  /\ (forall i base64Data instructions,
        ExtractCall i base64Data instructions ["A"; "B"; "C"] ∉ effects)
  /\ ExtractCall 0 "data:image/png;base64,QUJD" (instructionsOf RevA s) ["A"]
       ∈ effects
  /\ exists request,
       GenerateContent 0 request ∈ effects
       /\ inlineData_mimeType request = "image/png"
       /\ inlineData_data request = "QUJD"
       /\ responseSchema_required request = ["A"]
       /\ forall col,
            responseSchema_properties request !! col
            = if bool_decide (col ∈ ["A"]) && negb (String.eqb col "__proto__")
              then Some (propertyFor col) else None.
Proof.
  destruct (field_scoping Scenario.alwaysAnswers Scenario.JSON_parse
              RevA Scenario.ready) as (Hscoped & Hnever & Hfirst).
  split; [exact Hscoped|].
  split; [apply Hnever; discriminate|].
  destruct (Hfirst ltac:(repeat split; discriminate)
              (Scenario.previewOf Scenario.doc1) eq_refl) as [Hcall Hrequest].
  split; [exact Hcall|].
  exact (Hrequest _ "image/png" "QUJD" eq_refl eq_refl).
Defined.

Lemma normalizations_agree_iff_witness :
  let result : gmap string Json := {[ "A" := JStr "x"; "B" := JStr EmptyString ]} in
  normalize RevA ["A"; "B"; "C"] (JObj result)
  = normalize RevB ["A"; "B"; "C"] (JObj result)
  <-> forall h v, h ∈ ["A"; "B"; "C"] -> result !! h = Some v ->
        truthy (VJson v) = true \/ v = JStr EmptyString.
Proof.
  apply (normalizations_agree_iff ["A"; "B"; "C"]).
  intros Hin. repeat (apply elem_of_cons in Hin as [Hin|Hin]; [discriminate|]).
  by apply elem_of_nil in Hin.
Defined.

Lemma preconditions_fail_closed_witness :
  exists msg, msg <> EmptyString
    /\ processData RevA Scenario.alwaysAnswers Scenario.JSON_parse Scenario.noDocuments
       = [SetError (Some msg)]
    /\ error (run Scenario.noDocuments
                (processData RevA Scenario.alwaysAnswers Scenario.JSON_parse
                   Scenario.noDocuments)) = Some msg
    /\ status (run Scenario.noDocuments
                 (processData RevA Scenario.alwaysAnswers Scenario.JSON_parse
                    Scenario.noDocuments)) = status Scenario.noDocuments
    /\ extractedRows (run Scenario.noDocuments
                        (processData RevA Scenario.alwaysAnswers Scenario.JSON_parse
                           Scenario.noDocuments))
       = extractedRows Scenario.noDocuments.
Proof.
  apply (preconditions_fail_closed Scenario.alwaysAnswers Scenario.JSON_parse
           RevA Scenario.noDocuments).
  left. reflexivity.
Defined.

Lemma ingestion_validation_witness :
  (exists msg, msg <> EmptyString
     /\ handleDocumentChange RevA Scenario.fileToBase64 (Some [Scenario.notes])
        = [SetError (Some msg)]
     /\ error (run Scenario.ready
                 (handleDocumentChange RevA Scenario.fileToBase64
                    (Some [Scenario.notes]))) = Some msg
     /\ docFiles (run Scenario.ready
                    (handleDocumentChange RevA Scenario.fileToBase64
                       (Some [Scenario.notes]))) = docFiles Scenario.ready
     /\ docPreviews (run Scenario.ready
                       (handleDocumentChange RevA Scenario.fileToBase64
                          (Some [Scenario.notes]))) = docPreviews Scenario.ready)
  /\ (docFiles (run Scenario.noDocuments
                  (handleDocumentChange RevB Scenario.fileToBase64
                     (Some [Scenario.doc1; Scenario.notes; Scenario.doc2])))
      = docFiles Scenario.noDocuments
        ++ List.filter isValidFile [Scenario.doc1; Scenario.notes; Scenario.doc2]
      /\ Forall (fun e => forall msg, e <> SetError (Some msg))
           (handleDocumentChange RevB Scenario.fileToBase64
              (Some [Scenario.doc1; Scenario.notes; Scenario.doc2]))).
Proof.
  split.
  - apply (ingestion_validation Scenario.fileToBase64 RevA Scenario.ready
             [Scenario.notes]).
    + discriminate.
    + vm_compute. reflexivity.
  - apply (ingestion_validation Scenario.fileToBase64 RevB Scenario.noDocuments
             [Scenario.doc1; Scenario.notes; Scenario.doc2]).
    vm_compute. discriminate.
Defined.

Lemma merge_appends_rows_witness :
  let original : list ExtractedData := [{[ "A" := VStr "old" ]}] in
  (exists written filename,
     appendAndDownloadExcel Part1 (Scenario.readAs original) Scenario.recordsOf
       Scenario.sheetOf Scenario.template [Scenario.rowX]
     = [WriteFile written filename]
     /\ firstSheet written = Some (Scenario.sheetOf (original ++ [Scenario.rowX]))
     /\ Scenario.recordsOf (firstSheet written) = original ++ [Scenario.rowX])
  /\ (exists written filename,
        appendAndDownloadExcel Utils (Scenario.readAs original) Scenario.recordsOf
          Scenario.sheetOf Scenario.template []
        = [WriteFile written filename]
        /\ firstSheet written = Some (Scenario.sheetOf original)
        /\ Scenario.recordsOf (firstSheet written) = original).
Proof.
  intros original. split.
  - destruct (merge_appends_rows (list ExtractedData) (Scenario.readAs original)
                Scenario.recordsOf Scenario.sheetOf Part1 Scenario.template
                (Scenario.workbookOf original) [Scenario.rowX] eq_refl)
      as (written & filename & Heq & _ & _ & Hfirst & _ & Hround).
    exists written, filename. split; [exact Heq|]. split; [exact Hfirst|].
    apply Hround. reflexivity.
  - destruct (merge_appends_rows (list ExtractedData) (Scenario.readAs original)
                Scenario.recordsOf Scenario.sheetOf Utils Scenario.template
                (Scenario.workbookOf original) [] eq_refl)
      as (written & filename & Heq & _ & _ & _ & Hfirst & Hround).
    exists written, filename. split; [exact Heq|]. split; [exact (Hfirst eq_refl)|].
    apply Hround; reflexivity.
Defined.

(** C7 on a sheet of two records and no new row: the records read back
    from the written sheet are the original two, in their order. *)
Lemma merge_identity_example :
  let original : list ExtractedData :=
    [{[ "A" := VStr "first" ]}; {[ "A" := VStr "second" ]}] in
  match appendAndDownloadExcel Utils (Scenario.readAs original) Scenario.recordsOf
          Scenario.sheetOf Scenario.template [] with
  | [WriteFile written filename] =>
      Scenario.recordsOf (firstSheet written) = original
      /\ filename = "updated_template.xlsx"
  | _ => False
  end.
Proof. vm_compute. repeat split. Qed.

(** * Data URLs (services/geminiService.ts) *)

Lemma stripPrefix_Some (p s r : string) :
  GeminiService.stripPrefix p s = Some r <-> s = p +:+ r.
Proof.
  revert s. induction p as [|a p IH]; intros s; simpl.
  - split; [by intros [= ->] | by intros ->].
  - destruct s as [|b s]; [split; discriminate|].
    destruct (Ascii.eqb a b) eqn:E.
    + apply Ascii.eqb_eq in E as ->. rewrite IH.
      split; [by intros -> | by intros [= ->]].
    + split; [discriminate|]. intros [= -> _].
      by rewrite Ascii.eqb_refl in E.
Qed.

Lemma includes_semicolon_cons (c : ascii) (s : string) :
  includes ";" (String c s) = Ascii.eqb c ";" || includes ";" s.
Proof.
  cbn [includes String.prefix].
  destruct (ascii_dec ";" c) as [<-|Hne].
  - by rewrite Ascii.eqb_refl; destruct s.
  - destruct (Ascii.eqb c ";") eqn:E; [|done].
    apply Ascii.eqb_eq in E. congruence.
Qed.

Lemma spanMime_spec (s m rest : string) :
  GeminiService.spanMime s = (m, rest) ->
  s = m +:+ rest /\ includes ";" m = false
  /\ (rest = EmptyString \/ exists rest', rest = String ";" rest').
Proof.
  revert m rest. induction s as [|c s IH]; intros m rest; simpl.
  - intros [= <- <-]. auto.
  - destruct (Ascii.eqb c ";") eqn:E.
    + apply Ascii.eqb_eq in E as ->. intros [= <- <-]. eauto.
    + destruct (GeminiService.spanMime s) as [m' rest'].
      intros [= <- <-]. destruct (IH m' rest' eq_refl) as (-> & Hno & Hrest).
      split; [done|]. split; [|done]. by rewrite includes_semicolon_cons, E.
Qed.

Lemma spanMime_app (m rest : string) :
  includes ";" m = false ->
  GeminiService.spanMime (m +:+ String ";" rest) = (m, String ";" rest).
Proof.
  induction m as [|c m IH]; intros Hno; [done|].
  rewrite includes_semicolon_cons in Hno.
  apply orb_false_iff in Hno as [Hc Hm].
  simpl. by rewrite Hc, IH.
Qed.

Lemma isEmptyString_false (s : string) :
  isEmptyString s = false <-> s <> EmptyString.
Proof. by destruct s. Qed.

(** What the regular expression matched is what the string is made of. *)
Lemma matchDataUrl_sound (base64Data mimeType rawData : string) :
  GeminiService.matchDataUrl base64Data = Some (mimeType, rawData) ->
  base64Data = dataUrl mimeType rawData
  /\ mimeType <> EmptyString
  /\ includes ";" mimeType = false
  /\ rawData <> EmptyString
  /\ GeminiService.allDots rawData = true.
Proof.
  unfold GeminiService.matchDataUrl, dataUrl.
  destruct (GeminiService.stripPrefix "data:" base64Data) as [rest|] eqn:Hdata;
    [|discriminate].
  apply stripPrefix_Some in Hdata as ->.
  destruct (GeminiService.spanMime rest) as [m rest'] eqn:Hspan.
  apply spanMime_spec in Hspan as (-> & Hno & _).
  destruct (isEmptyString m) eqn:Hm; [discriminate|].
  destruct (GeminiService.stripPrefix ";base64," rest') as [d|] eqn:Hb64;
    [|discriminate].
  apply stripPrefix_Some in Hb64 as ->.
  destruct (isEmptyString d) eqn:Hd; [discriminate|].
  destruct (GeminiService.allDots d) eqn:Hdots; [|discriminate].
  intros [= <- <-]. by rewrite <- !isEmptyString_false.
Qed.

(** A well-formed data URL is matched, with its two parts as the groups. *)
Lemma matchDataUrl_complete (mimeType rawData : string) :
  mimeType <> EmptyString ->
  includes ";" mimeType = false ->
  rawData <> EmptyString ->
  GeminiService.allDots rawData = true ->
  GeminiService.matchDataUrl (dataUrl mimeType rawData) = Some (mimeType, rawData).
Proof.
  intros Hm Hno Hd Hdots. unfold GeminiService.matchDataUrl, dataUrl.
  rewrite (proj2 (stripPrefix_Some "data:" _ _) eq_refl).
  change (";base64," +:+ rawData) with (String ";" ("base64," +:+ rawData)).
  rewrite (spanMime_app _ _ Hno).
  apply isEmptyString_false in Hm as ->.
  change (String ";" ("base64," +:+ rawData)) with (";base64," +:+ rawData).
  rewrite (proj2 (stripPrefix_Some ";base64," _ rawData) eq_refl).
  apply isEmptyString_false in Hd as ->. by rewrite Hdots.
Qed.

(** X1.  The regular expression of [extractDataFromDocument] accepts
    exactly the strings [data:<mime>;base64,<payload>] whose media type
    is non-empty and free of [;] and whose payload is non-empty and free
    of line terminators, and its two groups are that media type and that
    payload. *)
Theorem matchDataUrl_iff (base64Data mimeType rawData : string) :
  GeminiService.matchDataUrl base64Data = Some (mimeType, rawData)
  <-> base64Data = dataUrl mimeType rawData
      /\ mimeType <> EmptyString
      /\ includes ";" mimeType = false
      /\ rawData <> EmptyString
      /\ GeminiService.allDots rawData = true.
Proof.
  split.
  - apply matchDataUrl_sound.
  - intros (-> & Hm & Hno & Hd & Hdots). by apply matchDataUrl_complete.
Qed.

Section ExtractionFacts.

Variable GoogleGenAI : nat -> Error + Client.
Variable JSON_parse : string -> option Json.

Local Abbreviation extract :=
  (GeminiService.extractDataFromDocument GoogleGenAI JSON_parse).

(** X2.  [extractDataFromDocument] sends a request only when the client
    was constructed and the data URL is well formed, and the request
    carries exactly the media type and the payload of that URL, with a
    string property described for every target column but [__proto__],
    for which the schema has none.  When the constructor throws,
    nothing is sent and its error is thrown, whatever the URL; when the
    client is constructed and the URL is not a data URL, nothing is sent
    and the error is "Invalid file data format". *)
Theorem request_carries_document (i : nat) (base64Data instructions : string)
    (targetColumns : list string) :
  match GoogleGenAI i, fst (extract i base64Data instructions targetColumns) with
  | inr ai, Some request =>
      base64Data = dataUrl (inlineData_mimeType request) (inlineData_data request)
      /\ (forall col, col ∈ targetColumns -> col <> "__proto__" ->
            responseSchema_properties request !! col = Some (propertyFor col))
      /\ responseSchema_properties request !! "__proto__" = None
      /\ responseSchema_required request = targetColumns
  | inr ai, None =>
      GeminiService.matchDataUrl base64Data = None
      /\ snd (extract i base64Data instructions targetColumns)
         = inl GeminiService.invalidFormat
  | inl err, Some request => False
  | inl err, None =>
      snd (extract i base64Data instructions targetColumns) = inl err
  end.
Proof.
  unfold GeminiService.extractDataFromDocument.
  destruct (GoogleGenAI i) as [err|ai]; cbn [fst snd]; [done|].
  destruct (GeminiService.matchDataUrl base64Data) as [[mimeType rawData]|] eqn:Hm;
    cbn [fst snd]; [|done].
  apply matchDataUrl_sound in Hm as (-> & _). split; [done|].
  cbn [GeminiService.buildRequest responseSchema_properties responseSchema_required].
  split; [|split; [|done]].
  - intros col Hcol Hne. rewrite buildProperties_lookup.
    rewrite bool_decide_eq_true_2 by done.
    by apply String.eqb_neq in Hne as ->.
  - rewrite buildProperties_lookup. by rewrite andb_false_r.
Qed.

(** X3.  [extractDataFromDocument] returns a value exactly when the
    client was constructed, a request was sent, the model answered with
    a non-empty text and [JSON.parse] read that text as the value; the
    value is handed on as it is, [null] included.  When it throws, the
    error is the constructor's, or "Invalid file data format", or the
    model's own error, passed on unchanged, or "Failed to interpret
    document data correctly." *)
Theorem extraction_outcomes (i : nat) (base64Data instructions : string)
    (targetColumns : list string) :
  (forall data,
     snd (extract i base64Data instructions targetColumns) = inr data
     <-> exists ai request text,
           GoogleGenAI i = inr ai
           /\ fst (extract i base64Data instructions targetColumns) = Some request
           /\ ai request = inr (Some text)
           /\ text <> EmptyString
           /\ JSON_parse text = Some data)
  /\ (forall err,
        snd (extract i base64Data instructions targetColumns) = inl err ->
        GoogleGenAI i = inl err
        \/ (err = GeminiService.invalidFormat
            /\ GeminiService.matchDataUrl base64Data = None)
        \/ err = GeminiService.cannotInterpret
        \/ exists ai request,
             GoogleGenAI i = inr ai
             /\ fst (extract i base64Data instructions targetColumns) = Some request
             /\ ai request = inl err).
Proof.
  unfold GeminiService.extractDataFromDocument.
  destruct (GoogleGenAI i) as [err0|ai]; cbn [fst snd].
  { split.
    - intros data. split; [discriminate | by intros (? & ? & ? & [=] & _)].
    - intros err [= <-]. by left. }
  destruct (GeminiService.matchDataUrl base64Data) as [[mimeType rawData]|];
    cbn [fst snd].
  - set (request := GeminiService.buildRequest mimeType rawData instructions targetColumns).
    split.
    + intros data. split.
      * destruct (ai request) as [e|[text|]] eqn:Hg; try discriminate.
        destruct (isEmptyString text) eqn:Ht; [discriminate|].
        destruct (JSON_parse text) as [d|] eqn:Hp; [|discriminate].
        intros [= <-]. exists ai, request, text.
        by rewrite <- isEmptyString_false.
      * intros (ai' & request' & text & [= <-] & [= <-] & -> & Ht & ->).
        by apply isEmptyString_false in Ht as ->.
    + intros err.
      destruct (ai request) as [e|[text|]] eqn:Hg.
      * intros [= <-]. right; right; right. eauto.
      * destruct (isEmptyString text); [intros [= <-]; auto|].
        destruct (JSON_parse text); [discriminate | intros [= <-]; auto].
      * intros [= <-]; auto.
  - split.
    + intros data. split; [discriminate | by intros (? & ? & ? & _ & ? & _)].
    + intros err [= <-]. auto.
Qed.

End ExtractionFacts.

(** * More on the runs of [processData] *)

Lemma published_app (a b : list Effect) :
  published (a ++ b) = published a ++ published b.
Proof. unfold published. apply omap_app. Qed.

Lemma requested_app (a b : list Effect) :
  requested (a ++ b) = requested a ++ requested b.
Proof. unfold requested. apply omap_app. Qed.

(** The result sequence after a trace is the last list it published, or
    the sequence as it was. *)
Lemma extractedRows_run (effects : list Effect) : forall s,
  extractedRows (run s effects)
  = default (extractedRows s) (last (published effects)).
Proof.
  induction effects as [|e effects IH]; intros s; [done|].
  change (run s (e :: effects)) with (run (reduce s e) effects).
  rewrite IH.
  destruct e; try done.
  change (published (SetExtractedRows rows :: effects))
    with (rows :: published effects).
  destruct (published effects) as [|rows0 rest]; [done|].
  change (last (rows :: rows0 :: rest)) with (last (rows0 :: rest)).
  destruct (last (rows0 :: rest)) eqn:E; [done|]. by apply last_None in E.
Qed.

Section MoreRunFacts.

Variable GoogleGenAI : nat -> Error + Client.
Variable JSON_parse : string -> option Json.

Local Abbreviation loopOf r s :=
  (Orchestrator.extractionLoop GoogleGenAI JSON_parse (cellOf r)
     (publishOf r)
     (docPreviews s) (instructionsOf r s) (selectedHeaders s) (allHeaders s)).
Local Abbreviation extractedOf r s :=
  (Orchestrator.extracted GoogleGenAI JSON_parse (cellOf r) (docPreviews s)
     (instructionsOf r s) (selectedHeaders s) (allHeaders s)).
Local Abbreviation thrownOf r s :=
  (Orchestrator.thrown GoogleGenAI JSON_parse (cellOf r) (docPreviews s)
     (instructionsOf r s) (selectedHeaders s) (allHeaders s)).

Lemma published_calls instructions sel i p :
  published (Orchestrator.calls GoogleGenAI JSON_parse instructions sel i p) = [].
Proof. unfold Orchestrator.calls. by destruct (fst _). Qed.

(** Revision A publishes, after each extracted document, the rows so far. *)
Lemma loop_published_live previews instructions sel all n : forall i results,
  published (fst (Orchestrator.extractionLoop GoogleGenAI JSON_parse AppA.cell
                    AppA.publish previews instructions sel all n i results))
  = (fun k => results
              ++ take (S k) (normalize RevA all
                               <$> Orchestrator.extracted GoogleGenAI JSON_parse
                                     AppA.cell previews instructions sel all n i))
    <$> seq 0 (length (Orchestrator.extracted GoogleGenAI JSON_parse
                         AppA.cell previews instructions sel all n i)).
Proof.
  induction n as [|n IH]; intros i results; [done|].
  rewrite loop_step. cbn [Orchestrator.extracted].
  destruct (previews !! i) as [p|]; [|done].
  destruct (Orchestrator.pushed _ _ _ _ _ _ i p) as [e|result]; cbn [fst].
  - apply published_calls.
  - rewrite !published_app, published_calls, IH.
    cbn [length seq fmap list_fmap app published omap AppA.publish].
    f_equal. rewrite <- fmap_S_seq, <- list_fmap_compose.
    apply list_fmap_ext. intros _ k _. simpl. by rewrite <- app_assoc.
Qed.

Lemma loop_published_silent previews instructions sel all n : forall i results,
  published (fst (Orchestrator.extractionLoop GoogleGenAI JSON_parse AppB.cell
                    AppB.publish previews instructions sel all n i results))
  = [].
Proof.
  induction n as [|n IH]; intros i results; [done|].
  rewrite loop_step.
  destruct (previews !! i) as [p|]; [|done].
  destruct (Orchestrator.pushed _ _ _ _ _ _ i p) as [e|result]; cbn [fst].
  - apply published_calls.
  - by rewrite !published_app, published_calls, IH.
Qed.

Lemma published_closing_live outcome : published (closing RevA outcome) = [].
Proof. by destruct outcome. Qed.

(** X4.  Live progress in revision A: a started run hands
    [setExtractedRows] the rows of the first document, then of the first
    two, and so on, one list per extracted document and nothing else; if
    at least one document was extracted, the last of these lists is the
    result sequence the run leaves. *)
Theorem live_progress (s : AppState) :
  preconditions s ->
  let effects := processData RevA GoogleGenAI JSON_parse s in
  let rows := normalize RevA (allHeaders s)
                <$> extractedOf RevA s (length (docFiles s)) 0 in
  published effects = prefixes rows
  /\ (rows <> [] -> extractedRows (run s effects) = rows).
Proof.
  intros Hpre effects rows. subst effects.
  assert (published (processData RevA GoogleGenAI JSON_parse s) = prefixes rows)
    as Hpub.
  { rewrite (processData_started _ _ RevA s Hpre).
    rewrite !published_app, published_closing_live, app_nil_r.
    cbn [publishOf cellOf app published omap].
    rewrite loop_published_live. unfold prefixes. subst rows.
    by rewrite length_fmap. }
  split; [done|]. intros Hrows.
  rewrite extractedRows_run, Hpub. unfold prefixes.
  destruct (length rows) as [|m] eqn:Hlen;
    [by apply length_zero_iff_nil in Hlen|].
  rewrite seq_S, fmap_app. cbn [fmap list_fmap]. rewrite last_snoc.
  cbn [default from_option id Nat.add]. apply take_ge. lia.
Qed.

(** X5.  All-or-nothing publishing in revision B: a started run calls
    [setExtractedRows] once, with the rows of all documents, when it
    completes, and never when an extraction throws; then the result
    sequence is left as it was before the run. *)
Theorem publish_at_end_only (s : AppState) :
  preconditions s ->
  let effects := processData RevB GoogleGenAI JSON_parse s in
  (completed effects ->
     published effects = [extractedRows (run s effects)]
     /\ length (extractedRows (run s effects)) = length (docFiles s))
  /\ (~ completed effects ->
        published effects = []
        /\ extractedRows (run s effects) = extractedRows s).
Proof.
  intros Hpre effects. subst effects.
  destruct (thrownOf RevB s (length (docFiles s)) 0) as [e|] eqn:Hth.
  - destruct (run_failure _ _ RevB s e Hpre Hth) as (Heff & _).
    assert (published (processData RevB GoogleGenAI JSON_parse s) = []) as Hpub.
    { rewrite Heff, !published_app. cbn [publishOf cellOf].
      by rewrite loop_published_silent. }
    split.
    + intros Hdone. exfalso. unfold completed in Hdone. rewrite Heff in Hdone.
      change (closing RevB (inl e)) with
        ([SetError (Some (orElse (message e) "An error occurred during processing."))]
         ++ [SetStatus ProcessingStatus.error]) in Hdone.
      rewrite !app_assoc, last_snoc in Hdone. discriminate.
    + intros _. split; [done|]. by rewrite extractedRows_run, Hpub.
  - destruct (run_success _ _ RevB s Hpre Hth) as (Hdone & _ & _ & Hrows).
    split; [|done]. intros _.
    rewrite Hrows, length_fmap, (thrown_None_length _ _ _ _ _ _ _ _ _ Hth).
    split; [|done].
    rewrite (processData_started _ _ RevB s Hpre), loop_outcome, Hth.
    rewrite !published_app. cbn [publishOf cellOf].
    by rewrite loop_published_silent.
Qed.


Lemma requested_calls instructions sel i p :
  requested (Orchestrator.calls GoogleGenAI JSON_parse instructions sel i p)
  = match fst (GeminiService.extractDataFromDocument GoogleGenAI JSON_parse
                 i (preview_url p) instructions sel) with
    | Some _ => [i]
    | None => []
    end.
Proof. unfold Orchestrator.calls. by destruct (fst _). Qed.

Lemma extraction_inr_request instructions sel i p result :
  Orchestrator.extraction GoogleGenAI JSON_parse instructions sel i p = inr result ->
  exists request,
    fst (GeminiService.extractDataFromDocument GoogleGenAI JSON_parse
           i (preview_url p) instructions sel) = Some request.
Proof.
  unfold Orchestrator.extraction, GeminiService.extractDataFromDocument.
  destruct (GoogleGenAI i) as [err|ai]; cbn [fst snd]; [discriminate|].
  destruct (GeminiService.matchDataUrl (preview_url p)) as [[m d]|];
    cbn [fst snd]; [eauto | discriminate].
Qed.

(** The loop calls the client for consecutive documents, each at most
    once, and sends a request for each of them but possibly the last. *)
Lemma loop_calls_in_order r previews instructions sel all n : forall i results,
  exists k k',
    k <= n /\ k' <= k /\ k <= S k'
    /\ Orchestrator.attempted
         (fst (Orchestrator.extractionLoop GoogleGenAI JSON_parse (cellOf r)
                 (publishOf r) previews instructions sel all n i results))
       = seq i k
    /\ requested
         (fst (Orchestrator.extractionLoop GoogleGenAI JSON_parse (cellOf r)
                 (publishOf r) previews instructions sel all n i results))
       = seq i k'.
Proof.
  induction n as [|n IH]; intros i results.
  - exists 0, 0. repeat split; lia.
  - rewrite loop_step.
    destruct (previews !! i) as [p|]; [|exists 0, 0; repeat split; lia].
    destruct (Orchestrator.pushed _ _ _ _ _ _ i p) as [e|result] eqn:He; cbn [fst].
    + rewrite attempted_calls, requested_calls.
      destruct (fst _); [exists 1, 1 | exists 1, 0]; repeat split; lia.
    + destruct (IH (S i) (results ++ [Orchestrator.filled (cellOf r) all result]))
        as (k & k' & Hk & Hk' & Hkk & Hat & Hreq).
      apply pushed_inr in He as [He _].
      apply extraction_inr_request in He as [request Hrequest].
      exists (S k), (S k').
      rewrite !attempted_app, !requested_app, attempted_calls, requested_calls.
      rewrite Hrequest, Hat, Hreq.
      replace (Orchestrator.attempted (publishOf r _)) with (@nil nat)
        by (by destruct r).
      replace (requested (publishOf r _)) with (@nil nat) by (by destruct r).
      repeat split; try lia; done.
Qed.

(** X6.  No retry and no skipping: whatever the state, a run calls the
    Extraction Client for documents 0, 1, ..., k-1 in this order, once
    each, for some k not above the number of documents, and sends the
    model a request for each of them but possibly the last. *)
Theorem calls_in_upload_order (r : Revision) (s : AppState) :
  let effects := processData r GoogleGenAI JSON_parse s in
  exists k k',
    k <= length (docFiles s) /\ k' <= k /\ k <= S k'
    /\ Orchestrator.attempted effects = seq 0 k
    /\ requested effects = seq 0 k'.
Proof.
  intros effects. subst effects.
  destruct (preconditions_dec s) as [Hpre|Hpre].
  - destruct (loop_calls_in_order r (docPreviews s) (instructionsOf r s)
                (selectedHeaders s) (allHeaders s) (length (docFiles s)) 0 [])
      as (k & k' & Hk & Hk' & Hkk & Hat & Hreq).
    exists k, k'. rewrite (processData_started _ _ r s Hpre).
    rewrite !attempted_app, !requested_app, Hat, Hreq.
    repeat split; try lia; destruct (snd _), r; simpl; by rewrite app_nil_r.
  - destruct (processData_blocked GoogleGenAI JSON_parse r s Hpre)
      as (msg & _ & ->).
    exists 0, 0. repeat split; lia.
Qed.

(** X7.  A started run of either revision ends in [success] with no
    message and one row per document, or in [error] with a non-empty
    message; it never ends in [loading] or [idle]. *)
Theorem run_ends_in_success_or_error (r : Revision) (s : AppState) :
  preconditions s ->
  let s' := run s (processData r GoogleGenAI JSON_parse s) in
  (status s' = ProcessingStatus.success /\ error s' = None
   /\ length (extractedRows s') = length (docFiles s))
  \/ (status s' = ProcessingStatus.error
      /\ exists msg, msg <> EmptyString /\ error s' = Some msg).
Proof.
  intros Hpre s'. subst s'.
  destruct (thrownOf r s (length (docFiles s)) 0) as [e|] eqn:Hth.
  - right. destruct (run_failure _ _ r s e Hpre Hth)
      as (_ & Hst & (msg & Hmsg & Herr & _) & _). eauto.
  - left. destruct (run_success _ _ r s Hpre Hth) as (_ & Hst & Herr & Hrows).
    by rewrite Hrows, length_fmap, (thrown_None_length _ _ _ _ _ _ _ _ _ Hth).
Qed.

(** X8.  A run never changes what it reads: documents, previews,
    spreadsheet, headers, selection, template and custom instructions
    are after [processData] what they were before, whatever happens. *)
Theorem run_keeps_its_inputs (r : Revision) (s : AppState) :
  let s' := run s (processData r GoogleGenAI JSON_parse s) in
  docFiles s' = docFiles s
  /\ docPreviews s' = docPreviews s
  /\ excelFile s' = excelFile s
  /\ allHeaders s' = allHeaders s
  /\ selectedHeaders s' = selectedHeaders s
  /\ selectedTemplate s' = selectedTemplate s
  /\ customInstructions s' = customInstructions s.
Proof.
  intros s'. subst s'.
  destruct (preconditions_dec s) as [Hpre|Hpre].
  - rewrite (processData_started _ _ r s Hpre), !run_app.
    destruct r; cbn [publishOf cellOf].
    + rewrite loop_run_live.
      destruct (Orchestrator.extracted _ _ _ _ _ _ _ _ 0), (snd _); done.
    + rewrite loop_run_silent. destruct (snd _); done.
  - destruct (processData_blocked GoogleGenAI JSON_parse r s Hpre)
      as (msg & _ & ->). done.
Qed.

Lemma thrown_when_short cell previews instructions sel all n : forall i,
  i <= length previews -> length previews < i + n ->
  exists e, Orchestrator.thrown GoogleGenAI JSON_parse cell previews
              instructions sel all n i = Some e.
Proof.
  induction n as [|n IH]; intros i Hi Hlen; [lia|]. simpl.
  destruct (previews !! i) as [p|] eqn:Hp; [|eauto].
  destruct (Orchestrator.pushed _ _ _ _ _ _ i p) as [e|result]; [eauto|].
  apply lookup_lt_Some in Hp. apply IH; lia.
Qed.

(** X9.  A batch with fewer previews than documents cannot succeed: a
    started run over it ends in [error] with a message, and calls the
    client for no more documents than there are previews. *)
Theorem missing_preview_fails_the_run (r : Revision) (s : AppState) :
  preconditions s ->
  length (docPreviews s) < length (docFiles s) ->
  let effects := processData r GoogleGenAI JSON_parse s in
  status (run s effects) = ProcessingStatus.error
  /\ (exists msg, msg <> EmptyString /\ error (run s effects) = Some msg)
  /\ length (Orchestrator.attempted effects) <= length (docPreviews s).
Proof.
  intros Hpre Hshort effects. subst effects.
  destruct (thrown_when_short (cellOf r) (docPreviews s) (instructionsOf r s)
              (selectedHeaders s) (allHeaders s) (length (docFiles s)) 0)
    as [e Hth]; [lia..|].
  destruct (run_failure _ _ r s e Hpre Hth)
    as (_ & Hst & (msg & Hmsg & Herr & _) & _).
  split; [done|]. split; [eauto|].
  rewrite (processData_attempted _ _ r s Hpre), length_seq.
  assert (forall n i,
            Orchestrator.attempts GoogleGenAI JSON_parse (cellOf r) (docPreviews s)
              (instructionsOf r s) (selectedHeaders s) (allHeaders s) n i
            <= length (docPreviews s) - i) as Hbound.
  { induction n as [|n IH]; intros i; simpl; [lia|].
    destruct (docPreviews s !! i) as [p|] eqn:Hp; [|lia].
    apply lookup_lt_Some in Hp.
    destruct (Orchestrator.pushed _ _ _ _ _ _ i p); [lia|].
    specialize (IH (S i)). lia. }
  specialize (Hbound (length (docFiles s)) 0). lia.
Qed.

End MoreRunFacts.

(** * The header controls *)

Lemma includes_header (header : string) (prev : list string) :
  existsb (String.eqb header) prev = true <-> header ∈ prev.
Proof.
  rewrite existsb_exists. split.
  - intros (h & Hin & ->%String.eqb_eq). by apply list_elem_of_In.
  - intros Hin. exists header. split; [by apply list_elem_of_In|].
    apply String.eqb_refl.
Qed.

Lemma elem_of_without (header h : string) (prev : list string) :
  h ∈ List.filter (fun h' => negb (String.eqb h' header)) prev
  <-> h ∈ prev /\ h <> header.
Proof.
  rewrite !list_elem_of_In, filter_In, negb_true_iff.
  split; intros [Hin Hne]; (split; [done|]).
  - intros ->. by rewrite String.eqb_refl in Hne.
  - by apply String.eqb_neq.
Qed.

Lemma without_absent (header : string) (prev : list string) :
  header ∉ prev ->
  List.filter (fun h' => negb (String.eqb h' header)) prev = prev.
Proof.
  induction prev as [|h prev IH]; [done|]. intros Hnot%not_elem_of_cons.
  destruct Hnot as [Hne Hnot]. simpl.
  assert (String.eqb h header = false) as -> by (apply String.eqb_neq; congruence).
  simpl. by rewrite IH.
Qed.

(** X10.  [toggleHeader] flips the selection of its header and of no
    other: afterwards the header is selected exactly if it was not, and
    every other column is selected exactly if it was. *)
Theorem toggleHeader_flips (header h : string) (s : AppState) :
  h ∈ selectedHeaders (Controls.toggleHeader header s)
  <-> if decide (h = header) then header ∉ selectedHeaders s
      else h ∈ selectedHeaders s.
Proof.
  unfold Controls.toggleHeader. cbn [reduce selectedHeaders].
  destruct (existsb (String.eqb header) (selectedHeaders s)) eqn:E.
  - apply includes_header in E. rewrite elem_of_without.
    destruct (decide (h = header)) as [->|Hne]; [|tauto].
    split; [by intros [_ ?] | done].
  - assert (header ∉ selectedHeaders s) as Hnot
      by (rewrite <- includes_header, E; discriminate).
    rewrite elem_of_app, list_elem_of_singleton.
    destruct (decide (h = header)) as [->|Hne]; [tauto|].
    split; [by intros [?|?] | auto].
Qed.

(** X11.  Toggling a header twice gives the selection back as it was when
    the header was not selected; when it was, the header ends up last in
    the selection, so last in the field list of the next request. *)
Theorem toggleHeader_twice (header : string) (s : AppState) :
  selectedHeaders (Controls.toggleHeader header (Controls.toggleHeader header s))
  = if existsb (String.eqb header) (selectedHeaders s)
    then List.filter (fun h => negb (String.eqb h header)) (selectedHeaders s)
         ++ [header]
    else selectedHeaders s.
Proof.
  unfold Controls.toggleHeader at 1. cbn [reduce selectedHeaders].
  unfold Controls.toggleHeader. cbn [reduce selectedHeaders].
  destruct (existsb (String.eqb header) (selectedHeaders s)) eqn:E.
  - assert (header ∉ List.filter (fun h => negb (String.eqb h header))
                         (selectedHeaders s)) as Hnot
      by (rewrite elem_of_without; tauto).
    destruct (existsb _ (List.filter _ _)) eqn:E'; [|done].
    by apply includes_header in E'.
  - assert (header ∉ selectedHeaders s) as Hnot
      by (rewrite <- includes_header, E; discriminate).
    assert (existsb (String.eqb header) (selectedHeaders s ++ [header]) = true)
      as -> by (apply includes_header, elem_of_app; right; by left).
    rewrite List.filter_app, (without_absent _ _ Hnot). simpl.
    by rewrite String.eqb_refl, app_nil_r.
Qed.

(** * Removing documents *)

Lemma removeIndex_past {A : Type} (index : nat) (prev : list A) : forall from,
  index < from -> Controls.removeIndex index from prev = prev.
Proof.
  induction prev as [|x rest IH]; intros from Hlt; [done|]. simpl.
  destruct (Nat.eqb_spec from index); [lia|]. simpl. f_equal. apply IH. lia.
Qed.

(** [filter((_, i) => i !== index)] deletes the element at [index]. *)
Lemma removeIndex_delete {A : Type} (index : nat) (prev : list A) : forall from,
  from <= index ->
  Controls.removeIndex index from prev = delete (index - from) prev.
Proof.
  induction prev as [|x rest IH]; intros from Hle; [done|]. simpl.
  destruct (Nat.eqb_spec from index) as [->|Hne]; simpl.
  - rewrite Nat.sub_diag. simpl. apply removeIndex_past. lia.
  - rewrite IH by lia.
    replace (index - from) with (S (index - S from)) by lia. done.
Qed.

(** X12.  [removeDocument] deletes the document at the index and the
    preview at the same index, so documents and previews that were
    aligned stay aligned; an index past the end changes neither list.
    The result sequence is left alone.  Revision A resets the status to
    [idle] when at most one document was present, revision B never
    changes the status. *)
Theorem removeDocument_removes_one (r : Revision) (index : nat) (s : AppState) :
  let s' := Controls.removeDocument r index s in
  docFiles s' = delete index (docFiles s)
  /\ docPreviews s' = delete index (docPreviews s)
  /\ (length (docFiles s) <= index -> docFiles s' = docFiles s)
  /\ (aligned s -> aligned s')
  /\ extractedRows s' = extractedRows s
  /\ status s' = match r with
                 | RevA => if (length (docFiles s) <=? 1)%nat
                           then ProcessingStatus.idle else status s
                 | RevB => status s
                 end.
Proof.
  intros s'. subst s'.
  assert (docFiles (Controls.removeDocument r index s) = delete index (docFiles s)
          /\ docPreviews (Controls.removeDocument r index s)
             = delete index (docPreviews s)) as [Hf Hp].
  { destruct r; cbn [Controls.removeDocument];
      unfold Controls.removeDocumentA, Controls.removeDocumentB;
      try destruct (length (docFiles s) <=? 1)%nat;
      cbn; rewrite !removeIndex_delete, Nat.sub_0_r by lia; done. }
  split; [done|]. split; [done|].
  split; [intros Hge; rewrite Hf, delete_take_drop, take_ge, drop_ge by lia;
          apply app_nil_r|].
  split; [unfold aligned; rewrite Hf, Hp; apply Forall2_delete|].
  destruct r; cbn [Controls.removeDocument];
    unfold Controls.removeDocumentA, Controls.removeDocumentB;
    try destruct (length (docFiles s) <=? 1)%nat; done.
Qed.

(** * Resets and the run guard *)

Section ControlFacts.

Variable GoogleGenAI : nat -> Error + Client.
Variable JSON_parse : string -> option Json.

(** X13.  After [clearAllDocuments] or [removeExcelFile] no run can
    start: [processData] of either revision only sets a validation
    message. [clearAllDocuments] also empties the result sequence and
    resets the status; [removeExcelFile] also empties headers and
    selection. *)
Theorem no_run_after_reset (r : Revision) (s : AppState) :
  (exists msg, msg <> EmptyString
     /\ processData r GoogleGenAI JSON_parse (Controls.clearAllDocuments s)
        = [SetError (Some msg)])
  /\ (exists msg, msg <> EmptyString
        /\ processData r GoogleGenAI JSON_parse (Controls.removeExcelFile s)
           = [SetError (Some msg)])
  /\ extractedRows (Controls.clearAllDocuments s) = []
  /\ status (Controls.clearAllDocuments s) = ProcessingStatus.idle
  /\ allHeaders (Controls.removeExcelFile s) = []
  /\ selectedHeaders (Controls.removeExcelFile s) = [].
Proof.
  split; [|split; [|done]].
  - apply processData_blocked. intros (Hd & _). by apply Hd.
  - apply processData_blocked. intros (_ & He & _). by apply He.
Qed.

(** X14.  Uploading a spreadsheet never touches documents, previews,
    status or result rows.  When the parser resolves a non-empty header
    list, the file is kept and every header is selected.  When the parser
    throws or resolves no header, no run can start afterwards, in either
    revision: revision A drops the file, revision B keeps it with an
    empty selection. *)
Theorem spreadsheet_upload (r : Revision)
    (parseExcelHeaders : File -> Error + list string)
    (s : AppState) (file : File) (others : list File) :
  let s' := run s (handleExcelChange r parseExcelHeaders (Some (file :: others))) in
  (docFiles s' = docFiles s /\ docPreviews s' = docPreviews s
   /\ status s' = status s /\ extractedRows s' = extractedRows s)
  /\ (forall headers, parseExcelHeaders file = inr headers -> headers <> [] ->
        excelFile s' = Some file /\ allHeaders s' = headers
        /\ selectedHeaders s' = headers)
  /\ ((exists err, parseExcelHeaders file = inl err)
      \/ parseExcelHeaders file = inr [] ->
      exists msg, msg <> EmptyString
        /\ processData r GoogleGenAI JSON_parse s' = [SetError (Some msg)]).
Proof.
  intros s'. subst s'.
  destruct r; cbn [handleExcelChange];
    unfold AppA.handleExcelChange, AppB.handleExcelChange;
    destruct (parseExcelHeaders file) as [err|[|h headers]] eqn:Hparse;
    (split; [done|]); (split; [by intros ? [= <-] ?|]);
    intros Hbad;
    try (destruct Hbad as [[? [=]]|[=]]; fail);
    apply processData_blocked; cbn; intros (Hd & He & Hs); done.
Qed.

(** X15.  The run button and the guard.  In revision B an enabled button
    means the preconditions of a run hold.  In revision A an enabled
    button means a document and a spreadsheet are present, but not that
    a column is selected: then the click only sets the message asking
    for a column.  In both, the preconditions outside [loading] enable
    the button. *)
Theorem run_button_and_guard (s : AppState) :
  (Controls.runDisabled RevB s = false ->
     preconditions s /\ status s <> ProcessingStatus.loading)
  /\ (Controls.runDisabled RevA s = false ->
        docFiles s <> [] /\ excelFile s <> None
        /\ status s <> ProcessingStatus.loading
        /\ (selectedHeaders s = [] ->
              processData RevA GoogleGenAI JSON_parse s
              = [SetError (Some "Please select at least one column to populate.")]))
  /\ (forall r, preconditions s -> status s <> ProcessingStatus.loading ->
        Controls.runDisabled r s = false).
Proof.
  unfold preconditions. cbn [Controls.runDisabled processData].
  unfold Controls.runDisabledA, Controls.runDisabledB, AppA.processData.
  split; [|split].
  - destruct (status s), (docFiles s), (excelFile s), (selectedHeaders s);
      cbn; intros H; try discriminate; done.
  - destruct (status s), (docFiles s), (excelFile s); cbn; intros H;
      try discriminate; (repeat split; try done); by intros ->.
  - intros r (Hd & He & Hs) Hst.
    destruct r; cbn [Controls.runDisabled];
      unfold Controls.runDisabledA, Controls.runDisabledB;
      destruct (status s), (docFiles s), (excelFile s), (selectedHeaders s);
      done.
Qed.

End ControlFacts.

(** X16.  Every handler of the header panel keeps the selection inside
    the Header Set: toggling a listed header, Select All / Clear,
    removing the spreadsheet, and uploading one with either revision,
    whatever the parser answers. *)
Theorem selection_stays_within_headers (s : AppState) :
  selectionWithinHeaders s ->
  (forall header, header ∈ allHeaders s ->
     selectionWithinHeaders (Controls.toggleHeader header s))
  /\ selectionWithinHeaders (Controls.toggleAll s)
  /\ selectionWithinHeaders (Controls.removeExcelFile s)
  /\ (forall r parseExcelHeaders files,
        selectionWithinHeaders (run s (handleExcelChange r parseExcelHeaders files))).
Proof.
  intros Hs. unfold selectionWithinHeaders in *. repeat split.
  - intros header Hheader h. unfold Controls.toggleHeader. cbn.
    destruct (existsb (String.eqb header) (selectedHeaders s)).
    + intros [Hh _]%elem_of_without. auto.
    + intros [Hh| ->%list_elem_of_singleton]%elem_of_app; auto.
  - unfold Controls.toggleAll. cbn.
    destruct (length (selectedHeaders s) =? length (allHeaders s))%nat; [|done].
    intros h Hh. by apply elem_of_nil in Hh.
  - cbn. intros h Hh. by apply elem_of_nil in Hh.
  - intros r parse files h.
    destruct r; cbn [handleExcelChange];
      unfold AppA.handleExcelChange, AppB.handleExcelChange;
      destruct files as [[|file others]|]; cbn; auto;
      destruct (parse file) as [err|[|h0 headers]]; cbn; auto.
Qed.

(** X17.  Templates.  A known template id selects that template and an
    unknown one changes nothing; the custom text is never touched by the
    selector.  Under a template other than custom, edits of the text
    are ignored, so after switching to such a template, typing, and
    switching back to custom, a run is given the custom text as it was
    last entered.  The text shown is the text a run sends. *)
Theorem template_switch (r : Revision) (value text : string) (s : AppState) :
  let s1 := Controls.selectTemplate value s in
  (forall t, t ∈ EXTRACTION_TEMPLATES -> template_id t = value ->
     selectedTemplate s1 = t)
  /\ ((forall t, t ∈ EXTRACTION_TEMPLATES -> template_id t <> value) -> s1 = s)
  /\ customInstructions s1 = customInstructions s
  /\ (template_id (selectedTemplate s1) <> "custom" ->
        Controls.editInstructions text s1 = s1)
  /\ (template_id (selectedTemplate s1) <> "custom" ->
        instructionsOf r
          (Controls.selectTemplate "custom" (Controls.editInstructions text s1))
        = customInstructions s)
  /\ Controls.shownInstructions s1 = instructionsOf r s1.
Proof.
  intros s1. subst s1. repeat split.
  - intros t Hin Hid. unfold Controls.selectTemplate.
    repeat (apply elem_of_cons in Hin as [->|Hin]);
      [subst value; reflexivity..|by apply elem_of_nil in Hin].
  - intros Hnone. unfold Controls.selectTemplate.
    destruct (find _ _) as [t|] eqn:Hfind; [|done].
    apply find_some in Hfind as [Hin Hid%String.eqb_eq].
    by apply list_elem_of_In, Hnone in Hin.
  - unfold Controls.selectTemplate. by destruct (find _ _).
  - intros Hne. unfold Controls.editInstructions.
    by apply String.eqb_neq in Hne as ->.
  - intros Hne. unfold Controls.editInstructions.
    apply String.eqb_neq in Hne as ->.
    destruct r; cbn; unfold Controls.selectTemplate; by destruct (find _ _).
  - by destruct r.
Qed.

(** * More on normalisation *)

(** X18.  Normalisation of a result object.  Under a header other than
    [__proto__] that is a key of the object, revision A keeps whatever
    value the object holds, and revision B keeps it when it is truthy
    and puts the empty string otherwise.  A key of the object that is
    not a header never reaches the row.  From an object without a key
    [__proto__] no entry [__proto__] is ever made, whether or not the
    name is a header.  And the building of the row never throws. *)
Theorem normalize_keeps_values (r : Revision) (headers : list string)
    (result : gmap string Json) :
  (forall h v, h ∈ headers -> h <> "__proto__" -> result !! h = Some v ->
     normalize RevA headers (JObj result) !! h = Some (VJson v)
     /\ normalize RevB headers (JObj result) !! h
        = Some (if truthy (VJson v) then VJson v else VStr EmptyString))
  /\ (forall h, h ∉ headers -> normalize r headers (JObj result) !! h = None)
  /\ (result !! "__proto__" = None ->
        normalize r headers (JObj result) !! "__proto__" = None)
  /\ Orchestrator.fullRow (cellOf r) headers (JObj result)
     = inr (normalize r headers (JObj result)).
Proof.
  split; [|split; [|split]].
  - intros h v Hin Hne Hv.
    by rewrite !normalize_object_lookup, !decide_True, Hv.
  - intros h Hh. by apply normalize_object_outside.
  - apply normalize_no_proto.
  - apply fullRow_object.
Qed.

(** * More on the file handlers *)

Section MoreFileHandlerFacts.

Variable Worksheet : Type.
Variable XLSX_read : File -> Error + Workbook Worksheet.
Variable sheet_to_rows : option Worksheet -> list (list Cell).
Variable sheet_to_json : option Worksheet -> list ExtractedData.
Variable json_to_sheet : list ExtractedData -> Worksheet.

Local Abbreviation parseUtils :=
  (FileHandlersUtils.parseExcelHeaders Worksheet XLSX_read sheet_to_rows).
Local Abbreviation parsePart1 :=
  (FileHandlersPart1.parseExcelHeaders Worksheet XLSX_read sheet_to_rows).

Lemma keepHeader_string (h : string) :
  FileHandlersPart1.keepHeader (CStr h) = negb (isEmptyString (trim h)).
Proof. reflexivity. Qed.

Lemma filter_keep_all (hs : list string) :
  Forall (fun h => trim h <> EmptyString) hs ->
  List.filter FileHandlersPart1.keepHeader (CStr <$> hs) = CStr <$> hs.
Proof.
  induction 1 as [|h hs Hh _ IH]; [done|].
  cbn [fmap list_fmap List.filter]. rewrite keepHeader_string.
  apply isEmptyString_false in Hh as ->. cbn [negb]. f_equal. apply IH.
Qed.

Lemma map_ToString_CStr (hs : list string) :
  List.map ToString (CStr <$> hs) = hs.
Proof.
  induction hs as [|h hs IH]; [done|].
  cbn [fmap list_fmap List.map ToString]. f_equal. apply IH.
Qed.

(** X19.  The second revision of [parseExcelHeaders] is the first one
    followed by the filter and the conversion to strings: it throws what
    the first throws, and resolves the kept cells of what the first
    resolves.  On a first row of non-blank strings the two revisions
    resolve the same headers. *)
Theorem parse_revisions_related (file : File) :
  parsePart1 file
  = match parseUtils file with
    | inl err => inl err
    | inr row => inr (List.map ToString (List.filter FileHandlersPart1.keepHeader row))
    end
  /\ (forall headers,
        parseUtils file = inr (CStr <$> headers) ->
        Forall (fun h => trim h <> EmptyString) headers ->
        parsePart1 file = inr headers).
Proof.
  assert (parsePart1 file
          = match parseUtils file with
            | inl err => inl err
            | inr row =>
                inr (List.map ToString (List.filter FileHandlersPart1.keepHeader row))
            end) as Hrel.
  { unfold FileHandlersPart1.parseExcelHeaders, FileHandlersUtils.parseExcelHeaders.
    destruct (XLSX_read file) as [err|workbook]; [done|].
    by destruct (sheet_to_rows (firstSheet workbook)). }
  split; [done|]. intros headers Hutils Hkeep.
  by rewrite Hrel, Hutils, (filter_keep_all _ Hkeep), map_ToString_CStr.
Qed.

(** X20.  What the second revision of [parseExcelHeaders] resolves is
    stable: the headers are the strings of some of the first row's
    cells, in the order of the row, and a sheet whose first row holds
    exactly these headers is read back as the same list. *)
Theorem parsed_headers_stable (file : File) (headers : list string) :
  parsePart1 file = inr headers ->
  (exists workbook,
     XLSX_read file = inr workbook
     /\ headers `sublist_of`
          (ToString <$> default [] (head (sheet_to_rows (firstSheet workbook)))))
  /\ (forall file' workbook',
        XLSX_read file' = inr workbook' ->
        head (sheet_to_rows (firstSheet workbook')) = Some (CStr <$> headers) ->
        parsePart1 file' = inr headers).
Proof.
  unfold FileHandlersPart1.parseExcelHeaders.
  destruct (XLSX_read file) as [err|workbook] eqn:Hread; [discriminate|].
  intros Hparse.
  assert (Forall (fun h => trim h <> EmptyString) headers
          /\ headers `sublist_of`
               (ToString <$> default [] (head (sheet_to_rows (firstSheet workbook)))))
    as [Hnonblank Hsub].
  { destruct (sheet_to_rows (firstSheet workbook)) as [|row0 rest].
    - injection Hparse as <-. split; [constructor | done].
    - injection Hparse as <-. cbn [head default from_option id]. clear.
      induction row0 as [|c row0 [IH1 IH2]]; [split; [constructor|done]|].
      cbn [List.filter]. destruct (FileHandlersPart1.keepHeader c) eqn:Hc.
      + cbn [List.map fmap list_fmap]. split.
        * constructor; [|done].
          destruct c; try discriminate; cbn in Hc |- *;
            intros Hblank; rewrite Hblank in Hc; discriminate.
        * by constructor.
      + split; [done|]. cbn [fmap list_fmap]. by constructor. }
  split; [eauto|].
  intros file' workbook' Hread' Hrow.
  rewrite Hread'.
  destruct (sheet_to_rows (firstSheet workbook')) as [|row0 rest]; [discriminate|].
  injection Hrow as ->.
  by rewrite (filter_keep_all _ Hnonblank), map_ToString_CStr.
Qed.

(** X21.  The two revisions of [appendAndDownloadExcel] write the same
    workbook and differ only in the name they give the file, the
    original name after [updated_] or after [datafide_results_], and in
    a failing read: the first revision then does nothing at all, the
    second raises one alert; neither writes a file. *)
Theorem export_revisions_related (originalFile : File)
    (newData : list ExtractedData) :
  match appendAndDownloadExcel Utils XLSX_read sheet_to_json json_to_sheet
          originalFile newData,
        appendAndDownloadExcel Part1 XLSX_read sheet_to_json json_to_sheet
          originalFile newData with
  | [WriteFile written1 name1], [WriteFile written2 name2] =>
      written1 = written2
      /\ name1 = "updated_" +:+ file_name originalFile
      /\ name2 = "datafide_results_" +:+ file_name originalFile
      /\ exists workbook, XLSX_read originalFile = inr workbook
  | [], [Alert msg] =>
      msg <> EmptyString /\ exists err, XLSX_read originalFile = inl err
  | _, _ => False
  end.
Proof.
  cbn [appendAndDownloadExcel].
  unfold FileHandlersUtils.appendAndDownloadExcel,
         FileHandlersPart1.appendAndDownloadExcel.
  destruct (XLSX_read originalFile) as [err|workbook]; eauto 6.
Qed.

End MoreFileHandlerFacts.

(** * Download *)

Section DownloadFacts.

Variable Worksheet : Type.
Variable XLSX_read : File -> Error + Workbook Worksheet.
Variable sheet_to_json : option Worksheet -> list ExtractedData.
Variable json_to_sheet : list ExtractedData -> Worksheet.
Variable GoogleGenAI : nat -> Error + Client.
Variable JSON_parse : string -> option Json.

Local Abbreviation download r :=
  (Controls.downloadResults r XLSX_read sheet_to_json json_to_sheet).

(** A completed run passed the guards and no extraction threw. *)
Lemma completed_inv (r : Revision) (s : AppState) :
  completed (processData r GoogleGenAI JSON_parse s) ->
  preconditions s
  /\ Orchestrator.thrown GoogleGenAI JSON_parse (cellOf r) (docPreviews s)
       (instructionsOf r s) (selectedHeaders s) (allHeaders s)
       (length (docFiles s)) 0 = None.
Proof.
  intros Hdone. destruct (preconditions_dec s) as [Hpre|Hpre].
  - split; [done|].
    destruct (Orchestrator.thrown _ _ _ _ _ _ _ _ 0) as [e|] eqn:Hth; [|done].
    exfalso. destruct (run_failure _ _ r s e Hpre Hth) as (Heff & _).
    unfold completed in Hdone. rewrite Heff in Hdone.
    change (closing r (inl e)) with
      ([SetError (Some (orElse (message e)
          match r with
          | RevA => "An unexpected error occurred during AI processing."
          | RevB => "An error occurred during processing."
          end))] ++ [SetStatus ProcessingStatus.error]) in Hdone.
    rewrite !app_assoc, last_snoc in Hdone. discriminate.
  - exfalso. destruct (processData_blocked GoogleGenAI JSON_parse r s Hpre)
      as (msg & _ & Heff).
    unfold completed in Hdone. rewrite Heff in Hdone. discriminate.
Qed.

(** With a spreadsheet that reads and at least one row, one file is
    written, its first sheet made from the old rows and the result rows. *)
Lemma download_writes (r : HandlersRevision) (s : AppState) file workbook :
  excelFile s = Some file -> extractedRows s <> [] ->
  XLSX_read file = inr workbook ->
  exists written filename,
    download r s = [WriteFile written filename]
    /\ firstSheet written
       = Some (json_to_sheet
                 (sheet_to_json (firstSheet workbook) ++ extractedRows s)).
Proof.
  unfold Controls.downloadResults. intros -> Hrows Hread.
  destruct (extractedRows s) as [|row rows] eqn:Erows; [done|].
  cbn [length Nat.ltb Nat.leb].
  destruct r; cbn [appendAndDownloadExcel];
    unfold FileHandlersUtils.appendAndDownloadExcel,
           FileHandlersPart1.appendAndDownloadExcel;
    rewrite Hread; do 2 eexists; (split; [reflexivity|]);
    unfold firstSheet at 1, firstSheetName, setFirstSheet;
    cbn [SheetNames Sheets]; by rewrite lookup_insert_eq.
Qed.

(** A run leaves the spreadsheet where it was. *)
Lemma excelFile_after_run (r : Revision) (s : AppState) :
  excelFile (run s (processData r GoogleGenAI JSON_parse s)) = excelFile s.
Proof.
  destruct (preconditions_dec s) as [Hpre|Hpre].
  - rewrite (processData_started _ _ r s Hpre), !run_app.
    destruct r; cbn [publishOf cellOf].
    + rewrite loop_run_live.
      destruct (Orchestrator.extracted _ _ _ _ _ _ _ _ 0), (snd _); done.
    + rewrite loop_run_silent. destruct (snd _); done.
  - destruct (processData_blocked GoogleGenAI JSON_parse r s Hpre)
      as (msg & _ & ->). done.
Qed.

(** X22.  [downloadResults] exports nothing while there is no spreadsheet
    or no result row.  With both, and a spreadsheet that reads as a
    workbook, it writes exactly one file, whose first sheet is made from
    the spreadsheet's data rows followed by all result rows, in order;
    when the spreadsheet cannot be read, it writes no file. *)
Theorem download_gate (r : HandlersRevision) (s : AppState) :
  (excelFile s = None \/ extractedRows s = [] -> download r s = [])
  /\ (forall file workbook,
        excelFile s = Some file -> extractedRows s <> [] ->
        XLSX_read file = inr workbook ->
        exists written filename,
          download r s = [WriteFile written filename]
          /\ firstSheet written
             = Some (json_to_sheet
                       (sheet_to_json (firstSheet workbook) ++ extractedRows s)))
  /\ (forall file err written filename,
        excelFile s = Some file -> XLSX_read file = inl err ->
        WriteFile written filename ∉ download r s).
Proof.
  split; [|split].
  - unfold Controls.downloadResults.
    intros [->| ->]; [done|]. by destruct (excelFile s).
  - intros file workbook. apply download_writes.
  - intros file err written filename Hfile Hread.
    unfold Controls.downloadResults. rewrite Hfile.
    destruct (0 <? length (extractedRows s))%nat; [|by apply not_elem_of_nil].
    destruct r; cbn [appendAndDownloadExcel];
      unfold FileHandlersUtils.appendAndDownloadExcel,
             FileHandlersPart1.appendAndDownloadExcel;
      rewrite Hread; [by apply not_elem_of_nil|].
    intros Hin%list_elem_of_singleton. discriminate.
Qed.

(** X23.  Run, then download.  After a completed run of either revision,
    over a spreadsheet that reads as a workbook, [downloadResults] writes
    one file whose first sheet is made from the spreadsheet's data rows
    followed by one normalised row per document, in upload order. *)
Theorem download_after_run (hr : HandlersRevision) (r : Revision) (s : AppState)
    (file : File) (workbook : Workbook Worksheet) :
  completed (processData r GoogleGenAI JSON_parse s) ->
  excelFile s = Some file ->
  XLSX_read file = inr workbook ->
  let s' := run s (processData r GoogleGenAI JSON_parse s) in
  exists written filename,
    download hr s' = [WriteFile written filename]
    /\ firstSheet written
       = Some (json_to_sheet (sheet_to_json (firstSheet workbook) ++ extractedRows s'))
    /\ length (extractedRows s') = length (docFiles s)
    /\ forall i row, extractedRows s' !! i = Some row ->
         exists p result,
           docPreviews s !! i = Some p
           /\ extractionOf r GoogleGenAI JSON_parse s i p = inr result
           /\ row = normalize r (allHeaders s) result.
Proof.
  intros Hdone Hfile Hread s'. subst s'.
  destruct (completed_inv r s Hdone) as [Hpre Hth].
  destruct (run_success _ _ r s Hpre Hth) as (_ & _ & _ & Hrows).
  pose proof (thrown_None_length _ _ _ _ _ _ _ _ _ Hth) as Hlen.
  pose proof (excelFile_after_run r s) as Hexcel. rewrite Hfile in Hexcel.
  assert (extractedRows (run s (processData r GoogleGenAI JSON_parse s)) <> [])
    as Hne.
  { intros Hnil. rewrite Hrows in Hnil. apply fmap_nil_inv in Hnil.
    rewrite Hnil in Hlen. destruct Hpre as (Hd & _).
    by destruct (docFiles s). }
  destruct (download_writes hr _ file workbook Hexcel Hne Hread)
    as (written & filename & Hw & Hfirst).
  exists written, filename. split; [done|]. split; [done|].
  split; [by rewrite Hrows, length_fmap|].
  intros i row Hrow. rewrite Hrows, list_lookup_fmap in Hrow.
  destruct (Orchestrator.extracted _ _ _ _ _ _ _ _ 0 !! i) as [result|] eqn:Hres;
    [|discriminate].
  injection Hrow as <-.
  apply extracted_lookup in Hres as (p & Hp & He).
  apply pushed_inr in He as [He _]. eauto.
Qed.

End DownloadFacts.

(** * More on ingestion *)

Section MoreIngestion.

Variable fileToBase64 : File -> Error + string.

(** The preview made from [f]: its encoding, its type and its name. *)
Local Abbreviation previewFor f p :=
  (fileToBase64 f = inr (preview_url p)
   /\ preview_type p = file_type f /\ preview_name p = file_name f).

Local Abbreviation toPreviewOf r :=
  (match r with
   | RevA => AppA.toPreview fileToBase64
   | RevB => AppB.toPreview fileToBase64
   end).

Lemma toPreview_Some r f p :
  toPreviewOf r f = Some p <-> previewFor f p.
Proof.
  destruct r; unfold AppA.toPreview, AppB.toPreview;
    (destruct (fileToBase64 f) as [e|b]; split;
     [discriminate | by intros ([=] & _) | by intros [= <-]
     | intros ([= ->] & Ht & Hn); destruct p; simpl in *; by subst]).
Qed.

(** The state after [handleDocumentChange], field by field. *)
Lemma ingestion_state (r : Revision) (s : AppState) (files : list File) :
  let validFiles := List.filter isValidFile files in
  let s' := run s (handleDocumentChange r fileToBase64 (Some files)) in
  docFiles s' = docFiles s ++ validFiles
  /\ docPreviews s' = docPreviews s ++ default [] (mapM (toPreviewOf r) validFiles)
  /\ status s' = status s /\ extractedRows s' = extractedRows s
  /\ excelFile s' = excelFile s /\ selectedHeaders s' = selectedHeaders s.
Proof.
  intros validFiles s'. subst validFiles s'.
  destruct r; cbn [handleDocumentChange];
    unfold AppA.handleDocumentChange, AppB.handleDocumentChange;
    destruct (List.filter isValidFile files) as [|v vs], files as [|f fs];
    cbn [length Nat.eqb Nat.ltb Nat.leb andb];
    try destruct (mapM _ (v :: vs));
    cbn; rewrite ?app_nil_r; done.
Qed.

(** X24.  Ingestion only appends, and keeps documents and previews
    aligned as long as every accepted file can be encoded: then the new
    previews are those of the accepted files, in order.  When the
    encoding of an accepted file fails, the files are appended all the
    same but no preview is, so a batch whose lists had equal lengths has
    fewer previews than documents from then on.  Status, result rows and
    spreadsheet state are never touched. *)
Theorem ingestion_alignment (r : Revision) (s : AppState) (files : list File) :
  let validFiles := List.filter isValidFile files in
  let s' := run s (handleDocumentChange r fileToBase64 (Some files)) in
  (docFiles s' = docFiles s ++ validFiles
   /\ docPreviews s `prefix_of` docPreviews s'
   /\ status s' = status s /\ extractedRows s' = extractedRows s
   /\ excelFile s' = excelFile s /\ selectedHeaders s' = selectedHeaders s)
  /\ (Forall (fun f => exists b, fileToBase64 f = inr b) validFiles ->
        exists newPreviews,
          docPreviews s' = docPreviews s ++ newPreviews
          /\ Forall2 (fun f p => previewFor f p) validFiles newPreviews
          /\ (aligned s -> aligned s'))
  /\ (Exists (fun f => exists err, fileToBase64 f = inl err) validFiles ->
        docPreviews s' = docPreviews s
        /\ (length (docPreviews s) = length (docFiles s) ->
              length (docPreviews s') < length (docFiles s'))).
Proof.
  intros validFiles s'.
  destruct (ingestion_state r s files) as (Hf & Hp & Hst & Hrows & Hx & Hsel).
  fold validFiles s' in Hf, Hp, Hst, Hrows, Hx, Hsel.
  split; [|split].
  - repeat split; try done. rewrite Hp. apply prefix_app_r. done.
  - intros Hall.
    assert (is_Some (mapM (toPreviewOf r) validFiles)) as [newPreviews Hps].
    { apply mapM_is_Some. eapply Forall_impl; [exact Hall|].
      intros f [b Hb].
      destruct r; unfold AppA.toPreview, AppB.toPreview; cbn; rewrite Hb; eauto. }
    rewrite Hps in Hp. exists newPreviews. split; [done|].
    apply mapM_Some in Hps.
    assert (Forall2 (fun f p => previewFor f p) validFiles newPreviews) as Hnew.
    { eapply Forall2_impl; [exact Hps|]. intros f p Hfp.
      by apply (toPreview_Some r). }
    split; [done|]. unfold aligned. rewrite Hf, Hp. intros Hs.
    apply Forall2_app; [done|].
    eapply Forall2_impl; [exact Hnew|]. by intros f p (_ & ? & ?).
  - intros Hsome.
    assert (mapM (toPreviewOf r) validFiles = None) as HmapM.
    { destruct (mapM (toPreviewOf r) validFiles) as [ps|] eqn:Hps; [|done].
      exfalso. apply mapM_Some in Hps.
      apply Exists_exists in Hsome as (f & Hin & err & Herr).
      apply list_elem_of_lookup in Hin as [i Hi].
      destruct (Forall2_lookup_l _ _ _ _ _ Hps Hi) as (p & _ & Hfp).
      apply (toPreview_Some r) in Hfp as (Hfp & _). congruence. }
    rewrite HmapM in Hp. cbn in Hp. rewrite app_nil_r in Hp.
    split; [done|]. intros Hlen. rewrite Hp, Hf, length_app.
    assert (validFiles <> []) as Hne
      by (intros Hnil; rewrite Hnil in Hsome; by apply Exists_nil in Hsome).
    destruct validFiles; [done|]. simpl. lia.
Qed.

End MoreIngestion.

(** * What reaches the model *)

Lemma prefix_app (a b : string) : String.prefix a (a +:+ b) = true.
Proof.
  induction a as [|c a IH]; simpl; [by destruct b|].
  by destruct (ascii_dec c c).
Qed.

Lemma includes_unfold (needle hay : string) :
  includes needle hay
  = String.prefix needle hay
    || match hay with
       | EmptyString => false
       | String _ hay' => includes needle hay'
       end.
Proof. by destruct hay. Qed.

Lemma includes_here (needle rest : string) :
  includes needle (needle +:+ rest) = true.
Proof. by rewrite includes_unfold, prefix_app. Qed.

Lemma includes_skip (needle pre hay : string) :
  includes needle hay = true -> includes needle (pre +:+ hay) = true.
Proof.
  intros H. induction pre as [|c pre IH]; [done|].
  change (String c pre +:+ hay) with (String c (pre +:+ hay)).
  rewrite includes_unfold, IH. apply orb_true_r.
Qed.

Section RoutingFacts.

Variable GoogleGenAI : nat -> Error + Client.
Variable JSON_parse : string -> option Json.

(** X25.  The prompt of every request [extractDataFromDocument] sends
    holds the instructions it was given, verbatim, and the target
    columns joined by a comma and a space; it opens by naming a PDF
    document when the media type contains "pdf" and an image otherwise. *)
Theorem prompt_holds_instructions (i : nat) (base64Data instructions : string)
    (targetColumns : list string) :
  match fst (GeminiService.extractDataFromDocument GoogleGenAI JSON_parse
               i base64Data instructions targetColumns) with
  | Some request =>
      includes instructions (text request) = true
      /\ includes (String.concat ", " targetColumns) (text request) = true
      /\ String.prefix
           (if includes "pdf" (inlineData_mimeType request)
            then "Extract information from this PDF document based on"
            else "Extract information from this image based on")
           (text request) = true
  | None => True
  end.
Proof.
  unfold GeminiService.extractDataFromDocument.
  destruct (GoogleGenAI i) as [err|ai]; cbn [fst]; [done|].
  destruct (GeminiService.matchDataUrl base64Data) as [[mimeType rawData]|];
    cbn [fst]; [|done].
  cbn [GeminiService.buildRequest text inlineData_mimeType].
  unfold GeminiService.promptText. split; [|split].
  - do 4 apply includes_skip. apply includes_here.
  - do 10 apply includes_skip. apply includes_here.
  - destruct (includes "pdf" mimeType); reflexivity.
Qed.

Lemma calls_routed previews instructions sel i p :
  previews !! i = Some p ->
  Forall (routedFrom previews instructions)
         (Orchestrator.calls GoogleGenAI JSON_parse instructions sel i p).
Proof.
  intros Hp. unfold Orchestrator.calls.
  destruct (fst _); repeat constructor; eauto.
Qed.

Lemma loop_routed r previews instructions sel all n : forall i results,
  Forall (routedFrom previews instructions)
         (fst (Orchestrator.extractionLoop GoogleGenAI JSON_parse (cellOf r)
                 (publishOf r) previews instructions sel all n i results)).
Proof.
  induction n as [|n IH]; intros i results; [by constructor|].
  rewrite loop_step.
  destruct (previews !! i) as [p|] eqn:Hp; [|by constructor].
  destruct (Orchestrator.pushed _ _ _ _ _ _ i p) as [e|result]; cbn [fst].
  - by apply calls_routed.
  - rewrite !Forall_app. split; [by apply calls_routed|]. split; [|apply IH].
    destruct r; repeat constructor.
Qed.

(** X26.  Routing.  In every run of either revision, the call for
    document i is handed the preview URL stored at index i, and every
    call is handed the same instructions: the custom text under the
    custom template, the prompt of the selected template otherwise. *)
Theorem calls_are_routed (r : Revision) (s : AppState) :
  Forall (routedFrom (docPreviews s) (instructionsOf r s))
         (processData r GoogleGenAI JSON_parse s)
  /\ instructionsOf r s
     = if String.eqb (template_id (selectedTemplate s)) "custom"
       then customInstructions s
       else template_prompt (selectedTemplate s).
Proof.
  split; [|by destruct r].
  destruct (preconditions_dec s) as [Hpre|Hpre].
  - rewrite (processData_started _ _ r s Hpre), !Forall_app.
    split; [repeat constructor|]. split; [apply loop_routed|].
    destruct (snd _), r; repeat constructor.
  - destruct (processData_blocked GoogleGenAI JSON_parse r s Hpre)
      as (msg & _ & ->).
    repeat constructor.
Qed.

(** X27.  Fail-stop.  When the first documents extract to [rs] and the
    extraction of the next one throws, a run of either revision has
    called the client for these documents and no later one, ends in
    [error] and surfaces the error's message, or the fallback text when
    that message is empty.  Revision A then keeps the rows of [rs] when
    there is at least one; in every other case the result sequence is
    what it was before the run. *)
Theorem fail_stop_rows (r : Revision) (s : AppState) (rs : list Json)
    (p : Preview) (e : Error) :
  preconditions s ->
  length rs < length (docFiles s) ->
  Orchestrator.succeed_from GoogleGenAI JSON_parse (cellOf r) (docPreviews s)
    (instructionsOf r s) (selectedHeaders s) (allHeaders s) 0 rs ->
  docPreviews s !! length rs = Some p ->
  extractionOf r GoogleGenAI JSON_parse s (length rs) p = inl e ->
  let effects := processData r GoogleGenAI JSON_parse s in
  Orchestrator.attempted effects = seq 0 (S (length rs))
  /\ status (run s effects) = ProcessingStatus.error
  /\ error (run s effects)
     = Some (orElse (message e)
               match r with
               | RevA => "An unexpected error occurred during AI processing."
               | RevB => "An error occurred during processing."
               end)
  /\ extractedRows (run s effects)
     = match r, rs with
       | RevA, _ :: _ => normalize RevA (allHeaders s) <$> rs
       | _, _ => extractedRows s
       end.
Proof.
  intros Hpre Hlen Hrs Hp He effects.
  destruct (fail_stop GoogleGenAI JSON_parse r s rs p e Hpre Hlen Hrs Hp He)
    as (Hat & Hst & _ & Hrows).
  fold effects in Hat, Hst, Hrows.
  split; [done|]. split; [done|]. split; [|done].
  subst effects.
  apply pushed_thrown with (cell := cellOf r) (allHeaders := allHeaders s) in He.
  destruct (first_failure _ _ _ _ _ _ _ rs (length (docFiles s)) 0 p e Hlen Hrs Hp He)
    as (_ & Hth & _).
  destruct (run_failure _ _ r s e Hpre Hth) as (Heff & _).
  rewrite Heff, !run_app.
  destruct r; cbn [publishOf cellOf closing].
  - rewrite loop_run_live. by destruct (Orchestrator.extracted _ _ _ _ _ _ _ _ 0).
  - by rewrite loop_run_silent.
Qed.

End RoutingFacts.

(** * Instances of the further theorems *)

Lemma live_progress_witness :
  let s := Scenario.ready in
  let effects := processData RevA Scenario.secondFails Scenario.JSON_parse s in
  let rows :=
    normalize RevA (allHeaders s)
      <$> Orchestrator.extracted Scenario.secondFails Scenario.JSON_parse
            (cellOf RevA) (docPreviews s) (instructionsOf RevA s)
            (selectedHeaders s) (allHeaders s) (length (docFiles s)) 0 in
  published effects = prefixes rows
  /\ (rows <> [] -> extractedRows (run s effects) = rows).
Proof.
  apply (live_progress Scenario.secondFails Scenario.JSON_parse Scenario.ready).
  repeat split; vm_compute; discriminate.
Defined.

Lemma publish_at_end_only_witness :
  let s := Scenario.ready in
  let effects := processData RevB Scenario.alwaysAnswers Scenario.JSON_parse s in
  (completed effects ->
     published effects = [extractedRows (run s effects)]
     /\ length (extractedRows (run s effects)) = length (docFiles s))
  /\ (~ completed effects ->
        published effects = []
        /\ extractedRows (run s effects) = extractedRows s).
Proof.
  apply (publish_at_end_only Scenario.alwaysAnswers Scenario.JSON_parse Scenario.ready).
  repeat split; vm_compute; discriminate.
Defined.

Lemma run_ends_in_success_or_error_witness :
  let s := Scenario.ready in
  let s' := run s (processData RevA Scenario.secondFails Scenario.JSON_parse s) in
  (status s' = ProcessingStatus.success /\ error s' = None
   /\ length (extractedRows s') = length (docFiles s))
  \/ (status s' = ProcessingStatus.error
      /\ exists msg, msg <> EmptyString /\ error s' = Some msg).
Proof.
  apply (run_ends_in_success_or_error Scenario.secondFails Scenario.JSON_parse
           RevA Scenario.ready).
  repeat split; vm_compute; discriminate.
Defined.

Lemma missing_preview_fails_the_run_witness :
  let s := Scenario2.onePreview in
  let effects := processData RevB Scenario.alwaysAnswers Scenario.JSON_parse s in
  status (run s effects) = ProcessingStatus.error
  /\ (exists msg, msg <> EmptyString /\ error (run s effects) = Some msg)
  /\ length (Orchestrator.attempted effects) <= length (docPreviews s).
Proof.
  apply (missing_preview_fails_the_run Scenario.alwaysAnswers Scenario.JSON_parse
           RevB Scenario2.onePreview).
  - repeat split; vm_compute; discriminate.
  - vm_compute. lia.
Defined.

Lemma selection_stays_within_headers_witness :
  let s := Scenario.ready in
  (forall header, header ∈ allHeaders s ->
     selectionWithinHeaders (Controls.toggleHeader header s))
  /\ selectionWithinHeaders (Controls.toggleAll s)
  /\ selectionWithinHeaders (Controls.removeExcelFile s)
  /\ (forall r parseExcelHeaders files,
        selectionWithinHeaders (run s (handleExcelChange r parseExcelHeaders files))).
Proof.
  apply (selection_stays_within_headers Scenario.ready).
  intros h Hh. apply list_elem_of_singleton in Hh as ->. by left.
Defined.

Lemma parsed_headers_stable_witness :
  let read := Scenario.readAs Scenario2.sheet in
  let headers := ["Name"; "2024"] in
  (exists workbook,
     read Scenario.template = inr workbook
     /\ headers `sublist_of`
          (ToString <$> default [] (head (Scenario.rowsOf (firstSheet workbook)))))
  /\ (forall file' workbook',
        read file' = inr workbook' ->
        head (Scenario.rowsOf (firstSheet workbook')) = Some (CStr <$> headers) ->
        FileHandlersPart1.parseExcelHeaders (list (list Cell)) read Scenario.rowsOf
          file' = inr headers).
Proof.
  apply (parsed_headers_stable (list (list Cell)) (Scenario.readAs Scenario2.sheet)
           Scenario.rowsOf Scenario.template).
  vm_compute. reflexivity.
Defined.

Lemma download_after_run_witness :
  let s := Scenario.ready in
  let read := Scenario.readAs Scenario2.records in
  let s' := run s (processData RevB Scenario.alwaysAnswers Scenario.JSON_parse s) in
  exists written filename,
    Controls.downloadResults Part1 read Scenario.recordsOf Scenario.sheetOf s'
    = [WriteFile written filename]
    /\ firstSheet written
       = Some (Scenario.sheetOf
                 (Scenario.recordsOf (firstSheet (Scenario.workbookOf Scenario2.records))
                  ++ extractedRows s'))
    /\ length (extractedRows s') = length (docFiles s)
    /\ forall i row, extractedRows s' !! i = Some row ->
         exists p result,
           docPreviews s !! i = Some p
           /\ extractionOf RevB Scenario.alwaysAnswers Scenario.JSON_parse s i p
              = inr result
           /\ row = normalize RevB (allHeaders s) result.
Proof.
  apply (download_after_run (list ExtractedData) (Scenario.readAs Scenario2.records)
           Scenario.recordsOf Scenario.sheetOf Scenario.alwaysAnswers
           Scenario.JSON_parse Part1 RevB Scenario.ready Scenario.template).
  - vm_compute. reflexivity.
  - reflexivity.
  - reflexivity.
Defined.

Lemma fail_stop_rows_witness :
  let s := Scenario.ready in
  let rs : list Json := [JObj {[ "A" := JStr "x" ]}] in
  let effects := processData RevA Scenario.secondFails Scenario.JSON_parse s in
  Orchestrator.attempted effects = seq 0 (S (length rs))
  /\ status (run s effects) = ProcessingStatus.error
  /\ error (run s effects)
     = Some (orElse "503 Service Unavailable"
               "An unexpected error occurred during AI processing.")
  /\ extractedRows (run s effects) = (normalize RevA (allHeaders s) <$> rs).
Proof.
  apply (fail_stop_rows Scenario.secondFails Scenario.JSON_parse RevA Scenario.ready
           [JObj {[ "A" := JStr "x" ]}] (Scenario.previewOf Scenario.doc2)
           (mkError "503 Service Unavailable")).
  - repeat split; vm_compute; discriminate.
  - vm_compute. lia.
  - intros j r Hj. destruct j as [|j]; simpl in Hj; [|discriminate].
    injection Hj as <-. eexists. split; vm_compute; reflexivity.
  - reflexivity.
  - vm_compute. reflexivity.
Defined.
